(** * GAIA climate projection and intervention engine: a verification model

    A shallow embedding of the numerical core of the repository:

    - [utils/quantum_prediction.py]      (module [QuantumPrediction])
    - [utils/climate_interventions.py]   (module [Interventions])
    - [utils/climate_simulator.py]       (module [ClimateSimulator])
    - [utils/simulation/climate_simulator.py] (module [TippingPoints])
    - [utils/quantum/quantum_predictor.py]    (module [QuantumPredictor])

    Module [ErrorHandling] collects what the entry points do with ids
    they do not know.

    Number model.  Python floats are modelled by the real numbers [R] of the
    Standard Library: [np.exp], [np.log], [np.sqrt], [np.power], [np.sin]
    are [exp], [ln], [sqrt], [Rpower], [sin]; rounding error, NaN and
    infinities are outside the model.  Python [int]s are [Z].  A division
    of Python floats by zero raises [ZeroDivisionError] and is modelled as
    such; a division of NumPy scalars by zero does not raise and is left as
    the (unspecified) real [x / 0].

    Effects.  Code that can raise returns an [outcome]; the wall clock and
    NumPy's global random generator are explicit inputs. *)

From Stdlib Require Import Reals Lra Lia ZArith List String.
From stdpp Require Import gmap strings list.

Open Scope R_scope.

#[global] Instance Rle_decision (x y : R) : Decision (x <= y) := Rle_dec x y.
#[global] Instance Rlt_decision (x y : R) : Decision (x < y) := Rlt_dec x y.
#[global] Instance Req_decision : EqDecision R := Req_dec_T.

(* ===================================================================== *)
(** * Python numerics *)
(* ===================================================================== *)

Module PyNum.

(** [math.floor] *)
Definition floor (x : R) : Z := Int_part x.

(** Round to the nearest integer, ties to the even one: what Python's
    [round] does on the scaled value. *)
Definition round_half_even (x : R) : Z :=
  let f := floor x in
  let d := x - IZR f in
  if decide (d < 1 / 2) then f
  else if decide (1 / 2 < d) then (f + 1)%Z
  else if Z.even f then f else (f + 1)%Z.

(** [round(x, ndigits)] *)
Definition py_round (x : R) (ndigits : nat) : R :=
  IZR (round_half_even (x * 10 ^ ndigits)) / 10 ^ ndigits.

(** [int(x)] on a float: truncation towards zero. *)
Definition py_int (x : R) : Z :=
  if decide (0 <= x) then floor x else (- floor (- x))%Z.

(** [max(a, b)] and [abs(x)] on floats. *)
Definition py_max (a b : R) : R := Rmax a b.
Definition py_abs (x : R) : R := Rabs x.

(** Indexing a list or a NumPy array with a Python integer: negative
    indices count from the end, anything else out of range fails. *)
Definition py_index {A} (l : list A) (i : Z) : option A :=
  if (0 <=? i)%Z then l !! Z.to_nat i
  else if (0 <=? Z.of_nat (length l) + i)%Z
       then l !! Z.to_nat (Z.of_nat (length l) + i)
       else None.

(** [range(a, b)] over Python integers. *)
Definition py_range (a b : Z) : list Z :=
  map (fun k => (a + Z.of_nat k)%Z) (seq 0 (Z.to_nat (b - a))).

Lemma floor_spec (x : R) : IZR (floor x) <= x < IZR (floor x) + 1.
Proof.
  unfold floor, Int_part.
  destruct (archimed x) as [H1 H2].
  rewrite minus_IZR. lra.
Qed.

Lemma floor_IZR (z : Z) : floor (IZR z) = z.
Proof.
  pose proof (floor_spec (IZR z)) as [H1 H2].
  apply le_IZR in H1.
  assert (IZR z < IZR (floor (IZR z) + 1)) as H3 by (rewrite plus_IZR; lra).
  apply lt_IZR in H3. lia.
Qed.

Lemma round_half_even_close (x : R) :
  x - 1 / 2 <= IZR (round_half_even x) <= x + 1 / 2.
Proof.
  unfold round_half_even.
  pose proof (floor_spec x) as [H1 H2].
  repeat case_decide; try destruct (Z.even _); rewrite ?plus_IZR; lra.
Qed.

Lemma round_half_even_IZR (z : Z) : round_half_even (IZR z) = z.
Proof.
  unfold round_half_even. rewrite floor_IZR.
  case_decide; [reflexivity | lra].
Qed.

Lemma py_int_IZR (z : Z) : py_int (IZR z) = z.
Proof.
  unfold py_int. case_decide.
  - apply floor_IZR.
  - rewrite <- opp_IZR, floor_IZR. lia.
Qed.

Lemma pow10_pos (n : nat) : 0 < 10 ^ n.
Proof. apply pow_lt. lra. Qed.

(** Rounding never crosses zero. *)
Lemma py_round_nonneg (x : R) (n : nat) : 0 <= x -> 0 <= py_round x n.
Proof.
  intros Hx. unfold py_round.
  pose proof (pow10_pos n) as Hp.
  pose proof (round_half_even_close (x * 10 ^ n)) as [Hlo _].
  assert (0 <= x * 10 ^ n) as Hs by (apply Rmult_le_pos; lra).
  assert (IZR (-1) < IZR (round_half_even (x * 10 ^ n))) as Hz by lra.
  apply lt_IZR in Hz.
  assert (0 <= IZR (round_half_even (x * 10 ^ n))) as Hr
    by (apply IZR_le; lia).
  unfold Rdiv. apply Rmult_le_pos; [exact Hr|].
  left. apply Rinv_0_lt_compat. exact Hp.
Qed.



End PyNum.

(* ===================================================================== *)
(** * Outcomes of code that may raise *)
(* ===================================================================== *)

Inductive exn : Type :=
| ZeroDivisionError
| IndexError
| KeyError
| AttributeError
| TypeError
| ValueError.

Inductive outcome (A : Type) : Type :=
| Returned (a : A)
| Raised (e : exn).
Arguments Returned {A} a.
Arguments Raised {A} e.

Definition obind {A B} (m : outcome A) (k : A -> outcome B) : outcome B :=
  match m with
  | Returned a => k a
  | Raised e => Raised e
  end.

Notation "'let*' x ':=' m 'in' k" := (obind m (fun x => k))
  (at level 10, x name, m at level 100, k at level 200).

(** [o or raise e]: an optional lookup that raises when it finds nothing. *)
Definition or_raise {A} (o : option A) (e : exn) : outcome A :=
  match o with
  | Some a => Returned a
  | None => Raised e
  end.

(** A [for] loop that rewrites every row, stopping at the first exception. *)
Fixpoint for_rows {A B} (f : A -> outcome B) (l : list A) : outcome (list B) :=
  match l with
  | [] => Returned []
  | x :: l' =>
      let* y := f x in
      let* ys := for_rows f l' in
      Returned (y :: ys)
  end.

Lemma for_rows_Returned {A B} (f : A -> outcome B) (l : list A) (r : list B) :
  for_rows f l = Returned r -> Forall2 (fun x y => f x = Returned y) l r.
Proof.
  revert r. induction l as [|x l IH]; intros r H; simpl in H.
  - injection H as <-. constructor.
  - destruct (f x) as [y|e] eqn:Hx; simpl in H; [|discriminate].
    destruct (for_rows f l) as [ys|e] eqn:Hl; simpl in H; [|discriminate].
    injection H as <-. constructor; [exact Hx | apply IH; reflexivity].
Qed.

Lemma for_rows_total {A B} (f : A -> outcome B) (l : list A) :
  Forall (fun x => exists y, f x = Returned y) l ->
  exists r, for_rows f l = Returned r.
Proof.
  induction 1 as [|x l [y Hy] _ [r Hr]]; simpl.
  - eexists; reflexivity.
  - rewrite Hy, Hr. simpl. eexists; reflexivity.
Qed.

(* ===================================================================== *)
(** * Prediction tables *)
(* ===================================================================== *)

(** One row of the DataFrame the predictors build. *)
Record prow : Type := mk_prow {
  year : Z;
  value : R;
  lower_bound : R;
  upper_bound : R;
  uncertainty : R
}.

(** A prediction DataFrame: its rows, and whether the constant columns
    ["quantum_enhanced"] and ["intervention"] (always [True]) were added. *)
Record table : Type := mk_table {
  rows : list prow;
  quantum_enhanced : bool;
  intervention : bool
}.

(** [df["year"].min()] of a frame with rows. *)
Definition year_min (l : list prow) : Z :=
  match l with
  | [] => 0%Z
  | r :: l' => fold_left Z.min (map year l') (year r)
  end.

Lemma fold_min_le (l : list Z) (a : Z) :
  (fold_left Z.min l a <= a)%Z /\ Forall (fun y => (fold_left Z.min l a <= y)%Z) l.
Proof.
  revert a. induction l as [|y l IH]; intros a; simpl.
  - split; [lia | constructor].
  - destruct (IH (Z.min a y)) as [H1 H2]. split; [lia|].
    constructor; [lia | exact H2].
Qed.

Lemma year_min_le (l : list prow) (r : prow) :
  r ∈ l -> (year_min l <= year r)%Z.
Proof.
  destruct l as [|r0 l]; [inversion 1|].
  intros Hin. unfold year_min.
  destruct (fold_min_le (map year l) (year r0)) as [H1 H2].
  apply elem_of_cons in Hin as [->|Hin]; [exact H1|].
  rewrite Forall_forall in H2. apply H2.
  apply list_elem_of_In, in_map, list_elem_of_In, Hin.
Qed.

(* ===================================================================== *)
(** * utils/quantum_prediction.py: [QuantumClimatePredictor] *)
(* ===================================================================== *)

Module QuantumPrediction.

(** One row of a historical-data frame (columns ["year"], ["value"]). *)
Record hrow : Type := mk_hrow { h_year : Z; h_value : R }.

(** A historical-data frame as a caller may pass it: with its ["year"] and
    ["value"] columns; with a ["year"] column and no ["value"] column; or
    with columns none of which is ["year"] (then only the number of its
    rows matters to the code). *)
Inductive history : Type :=
| with_year (rows : list hrow)
| with_year_only (years : list Z)
| without_year (n_rows : nat).

(** [historical_data.empty] *)
Definition is_empty (historical_data : history) : bool :=
  match historical_data with
  | with_year [] | with_year_only [] | without_year O => true
  | _ => false
  end.

(** What the first four prediction methods read:
    [historical_data["year"]], which a frame without that column refuses,
    then [historical_data.loc[..., "value"]], which a frame without that
    column refuses. *)
Definition year_and_value (historical_data : history) : outcome (list hrow) :=
  match historical_data with
  | with_year h => Returned h
  | with_year_only _ => Raised KeyError
  | without_year _ => Raised KeyError
  end.

(** The wall clock, as the code observes it: [datetime.now().year], and the
    (year, month) of every month-end timestamp that
    [pd.date_range(now - 30*365 days, now, freq='M')] returns. *)
Record clock : Type := mk_clock {
  now_year : Z;
  month_ends : list (Z * Z)
}.

(** The state of NumPy's global generator: the samples it will return
    next, whatever their distribution. *)
Definition rng : Type := nat -> R.

(** [np.random.normal(loc, scale, size=n)]: [n] samples, generator advanced. *)
Definition random_normal (n : nat) (g : rng) : list R * rng :=
  (map g (seq 0 n), fun k => g (n + k)%nat).

(** [sum(...)] and [.cumsum()] *)
Definition py_sum (l : list R) : R := fold_left Rplus l 0.

Fixpoint cumsum_from (acc : R) (l : list R) : list R :=
  match l with
  | [] => []
  | x :: l' => (acc + x) :: cumsum_from (acc + x) l'
  end.

Definition cumsum (l : list R) : list R := cumsum_from 0 l.

(** [.mean()] of a non-empty column. *)
Definition mean (l : list R) : R := py_sum l / INR (length l).

Definition seasonal (amplitude : R) (month : Z) : R :=
  amplitude * sin (2 * PI * IZR month / 12).

Definition dates_min_year (ds : list (Z * Z)) : Z :=
  match ds with
  | [] => 0%Z
  | d :: ds' => fold_left Z.min (map fst ds') (fst d)
  end.

(** [_generate_simulated_historical_data] *)
Definition _generate_simulated_historical_data
    (climate_variable : string) (clk : clock) (g : rng) : list hrow * rng :=
  let dates := month_ends clk in
  let ymin := dates_min_year dates in
  let '(noise, g') := random_normal (length dates) g in
  let values :=
    if (climate_variable =? "temperature")%string then
      zip_with (fun d e =>
        0.3 + 0.02 * IZR (fst d - ymin) + seasonal 0.2 (snd d) + e) dates noise
    else if (climate_variable =? "co2")%string then
      zip_with (fun d e =>
        350 + 2.0 * IZR (fst d - ymin) + seasonal 3.0 (snd d) + e) dates noise
    else if (climate_variable =? "sea_level")%string then
      zip_with (fun d e =>
        0 + 2.0 * IZR (fst d - ymin)
          + 0.5 * 0.05 * IZR (fst d - ymin) ^ 2 + e) dates noise
    else if (climate_variable =? "ice_extent")%string then
      zip_with (fun d e =>
        12.0 + (-0.1) * IZR (fst d - ymin) + seasonal 5.0 (snd d) + e) dates noise
    else cumsum noise in
  (zip_with mk_hrow (map fst dates) values, g').

(** [.max()] of a column of years. *)
Definition years_max (ys : list Z) : Z :=
  match ys with
  | [] => 0%Z
  | y :: ys' => fold_left Z.max ys' y
  end.

(** [historical_data["year"].max()] *)
Definition last_year_of (h : list hrow) : Z :=
  match h with
  | [] => 0%Z
  | r :: h' => fold_left Z.max (map h_year h') (h_year r)
  end.

(** [historical_data.loc[historical_data["year"] == last_year, "value"].mean()] *)
Definition last_value_of (h : list hrow) : R :=
  mean (map h_value (filter (fun r => h_year r = last_year_of h) h)).

(** The rows a prediction loop appends for
    [enumerate(range(last_year + 1, last_year + years_to_predict + 1))]. *)
Definition future_rows (last_year years_to_predict : Z)
    (row : nat -> Z -> prow) : list prow :=
  imap row (PyNum.py_range (last_year + 1) (last_year + years_to_predict + 1)).

(** The loop of [_simulate_temperature_prediction], on the rows of a frame
    that has its ["year"] column. *)
Definition temperature_rows
    (h : list hrow) (years_to_predict : Z) (scenario : string) : list prow :=
  let last_year := last_year_of h in
  let last_value := last_value_of h in
  let '(trend, unc, acceleration) :=
    if (scenario =? "low_emissions")%string then (0.01, 0.005, 0.0001)
    else if (scenario =? "moderate")%string then (0.025, 0.01, 0.0005)
    else if (scenario =? "high_emissions")%string then (0.04, 0.02, 0.001)
    else (0.025, 0.01, 0.0005) in
  future_rows last_year years_to_predict (fun i y =>
    let year_uncertainty := unc * sqrt (INR i + 1) in
    let v := last_value
             + py_sum (map (fun j => trend + acceleration * INR j) (seq 0 (i + 1))) in
    mk_prow y v (v - 1.96 * year_uncertainty) (v + 1.96 * year_uncertainty)
            year_uncertainty).

(** The loop of [_simulate_sea_level_prediction]. *)
Definition sea_level_rows
    (h : list hrow) (years_to_predict : Z) (scenario : string) : list prow :=
  let last_year := last_year_of h in
  let last_value := last_value_of h in
  let '(initial_rate, unc, acceleration) :=
    if (scenario =? "low_emissions")%string then (3.0, 0.5, 0.02)
    else if (scenario =? "moderate")%string then (3.5, 1.0, 0.05)
    else if (scenario =? "high_emissions")%string then (4.0, 2.0, 0.1)
    else (3.5, 1.0, 0.05) in
  future_rows last_year years_to_predict (fun i y =>
    let t := INR i + 1 in
    let v := last_value + initial_rate * t + 0.5 * acceleration * t ^ 2 in
    let year_uncertainty := unc * sqrt t in
    mk_prow y v (v - 1.96 * year_uncertainty) (v + 1.96 * year_uncertainty)
            year_uncertainty).

(** The loop of [_simulate_co2_prediction]. *)
Definition co2_rows
    (h : list hrow) (years_to_predict : Z) (scenario : string) : list prow :=
  let last_year := last_year_of h in
  let last_value := last_value_of h in
  let '(trend, unc, rate_change) :=
    if (scenario =? "low_emissions")%string then (1.5, 0.3, -0.02)
    else if (scenario =? "moderate")%string then (2.5, 0.5, 0.0)
    else if (scenario =? "high_emissions")%string then (3.5, 0.8, 0.05)
    else (2.5, 0.5, 0.0) in
  future_rows last_year years_to_predict (fun i y =>
    let t := (i + 1)%nat in
    let v := fold_left (fun acc j => acc + trend * (1 + rate_change * INR j))
                       (seq 0 t) last_value in
    let year_uncertainty := unc * sqrt (INR t) in
    mk_prow y v (v - 1.96 * year_uncertainty) (v + 1.96 * year_uncertainty)
            year_uncertainty).

(** The loop of [_simulate_ice_extent_prediction]. *)
Definition ice_extent_rows
    (h : list hrow) (years_to_predict : Z) (scenario : string) : list prow :=
  let last_year := last_year_of h in
  let last_value := last_value_of h in
  let '(trend, unc, min_extent) :=
    if (scenario =? "low_emissions")%string then (-0.05, 0.2, 1.0)
    else if (scenario =? "moderate")%string then (-0.1, 0.3, 0.5)
    else if (scenario =? "high_emissions")%string then (-0.15, 0.5, 0.1)
    else (-0.1, 0.3, 0.5) in
  future_rows last_year years_to_predict (fun i y =>
    let t := INR i + 1 in
    let v := PyNum.py_max (last_value + trend * t) min_extent in
    let approaching_min :=
      PyNum.py_max 0 (1 - (v - min_extent) / (last_value - min_extent)) in
    let year_uncertainty := unc * sqrt t * (1 - 0.5 * approaching_min) in
    mk_prow y v (PyNum.py_max (v - 1.96 * year_uncertainty) 0)
            (v + 1.96 * year_uncertainty) year_uncertainty).

(** The loop of [_simulate_extreme_events_prediction], from the last year. *)
Definition extreme_events_rows
    (last_year : Z) (years_to_predict : Z) (scenario : string) : list prow :=
  let '(base_rate, growth_rate, uncertainty_factor) :=
    if (scenario =? "low_emissions")%string then (10, 0.02, 0.1)
    else if (scenario =? "moderate")%string then (12, 0.04, 0.15)
    else if (scenario =? "high_emissions")%string then (15, 0.07, 0.2)
    else (12, 0.04, 0.15) in
  future_rows last_year years_to_predict (fun i y =>
    let t := (i + 1)%nat in
    let expected_events := base_rate * (1 + growth_rate) ^ t in
    let u := expected_events * uncertainty_factor * sqrt (INR t) in
    mk_prow y expected_events (PyNum.py_max 0 (expected_events - 1.96 * u))
            (expected_events + 1.96 * u) u).

(** The five prediction methods.  Each takes the frame, the horizon and
    the scenario; the clock is [datetime.now()], which only the
    extreme-events method reads.  The first four start with
    [historical_data["year"].max()]. *)
Definition _simulate_temperature_prediction (historical_data : history)
    (years_to_predict : Z) (scenario : string) (clk : clock)
    : outcome (list prow) :=
  let* h := year_and_value historical_data in
  Returned (temperature_rows h years_to_predict scenario).

Definition _simulate_sea_level_prediction (historical_data : history)
    (years_to_predict : Z) (scenario : string) (clk : clock)
    : outcome (list prow) :=
  let* h := year_and_value historical_data in
  Returned (sea_level_rows h years_to_predict scenario).

Definition _simulate_co2_prediction (historical_data : history)
    (years_to_predict : Z) (scenario : string) (clk : clock)
    : outcome (list prow) :=
  let* h := year_and_value historical_data in
  Returned (co2_rows h years_to_predict scenario).

Definition _simulate_ice_extent_prediction (historical_data : history)
    (years_to_predict : Z) (scenario : string) (clk : clock)
    : outcome (list prow) :=
  let* h := year_and_value historical_data in
  Returned (ice_extent_rows h years_to_predict scenario).

(** [last_year = historical_data["year"].max() if "year" in
    historical_data.columns else datetime.now().year - 10] *)
Definition _simulate_extreme_events_prediction (historical_data : history)
    (years_to_predict : Z) (scenario : string) (clk : clock)
    : outcome (list prow) :=
  let last_year :=
    match historical_data with
    | with_year h => last_year_of h
    | with_year_only ys => years_max ys
    | without_year _ => (now_year clk - 10)%Z
    end in
  Returned (extreme_events_rows last_year years_to_predict scenario).

(** [self.simulation_methods]: the dispatch dictionary. *)
Definition simulation_methods (climate_variable : string)
    : option (history -> Z -> string -> clock -> outcome (list prow)) :=
  if (climate_variable =? "temperature")%string
  then Some _simulate_temperature_prediction
  else if (climate_variable =? "sea_level")%string
  then Some _simulate_sea_level_prediction
  else if (climate_variable =? "co2")%string
  then Some _simulate_co2_prediction
  else if (climate_variable =? "ice_extent")%string
  then Some _simulate_ice_extent_prediction
  else if (climate_variable =? "extreme_events")%string
  then Some _simulate_extreme_events_prediction
  else None.

Definition quantum_reduction_factor : R := 0.7.

(** One row of [_apply_quantum_advantage]. *)
Definition quantum_row (climate_variable : string) (r : prow) : prow :=
  let u := uncertainty r * quantum_reduction_factor in
  let lo := value r - 1.96 * u in
  let hi := value r + 1.96 * u in
  let lo := if (climate_variable =? "ice_extent")%string
            then PyNum.py_max lo 0 else lo in
  mk_prow (year r) (value r) lo hi u.

(** [_apply_quantum_advantage], on a frame that has the prediction columns. *)
Definition _apply_quantum_advantage
    (predictions : table) (climate_variable : string) : table :=
  mk_table (map (quantum_row climate_variable) (rows predictions))
           true (intervention predictions).

(** [if historical_data is None or historical_data.empty:
       historical_data = self._generate_simulated_historical_data(...)] *)
Definition historical_or_simulated (historical_data : option history)
    (climate_variable : string) (clk : clock) (g : rng) : history * rng :=
  let simulated :=
    let '(h, g') := _generate_simulated_historical_data climate_variable clk g in
    (with_year h, g') in
  match historical_data with
  | None => simulated
  | Some d => if is_empty d then simulated else (d, g)
  end.

(** [generate_prediction].  [quantum_enabled] is the predictor's field;
    [None] as a result is Python's [None].  A frame without rows is replaced
    by the simulated one; a simulated frame without rows has no last year
    ([max()] is NaN, and [range] refuses it with [TypeError]).  A
    prediction loop that appends nothing gives [pd.DataFrame([])], a frame
    without columns, on which [_apply_quantum_advantage] raises
    [KeyError]. *)
Definition generate_prediction (quantum_enabled : bool)
    (climate_variable : string) (historical_data : option history)
    (years_to_predict : Z) (scenario : string)
    (clk : clock) (g : rng) : outcome (option table) * rng :=
  match simulation_methods climate_variable with
  | None => (Returned None, g)
  | Some prediction_method =>
      let '(historical_data, g') :=
        historical_or_simulated historical_data climate_variable clk g in
      if is_empty historical_data then (Raised TypeError, g') else
      match prediction_method historical_data years_to_predict scenario clk with
      | Raised e => (Raised e, g')
      | Returned new_rows =>
          let predictions := mk_table new_rows false false in
          if quantum_enabled then
            match rows predictions with
            | [] => (Raised KeyError, g')
            | _ => (Returned (Some (_apply_quantum_advantage
                                      predictions climate_variable)), g')
            end
          else (Returned (Some predictions), g')
      end
  end.

(** ** The quantum-advantage step *)

(** C10.  Frame property of [_apply_quantum_advantage]: the ["value"] (and
    ["year"]) column is the one of the input; every row's uncertainty is
    multiplied by 0.7, its upper bound is value + 1.96 times the reduced
    uncertainty, and its lower bound is value - 1.96 times the reduced
    uncertainty, clipped at 0 for ice_extent only. *)
Theorem quantum_advantage_frame (predictions : table) (climate_variable : string) :
  map value (rows (_apply_quantum_advantage predictions climate_variable))
    = map value (rows predictions) /\
  map year (rows (_apply_quantum_advantage predictions climate_variable))
    = map year (rows predictions) /\
  Forall2 (fun p q =>
      uncertainty q = uncertainty p * 0.7 /\
      upper_bound q = value p + 1.96 * (uncertainty p * 0.7) /\
      lower_bound q =
        if (climate_variable =? "ice_extent")%string
        then Rmax (value p - 1.96 * (uncertainty p * 0.7)) 0
        else value p - 1.96 * (uncertainty p * 0.7))
    (rows predictions)
    (rows (_apply_quantum_advantage predictions climate_variable)).
Proof.
  unfold _apply_quantum_advantage. simpl.
  induction (rows predictions) as [|p l (IH1 & IH2 & IH3)]; simpl.
  - repeat split; constructor.
  - repeat split; try (f_equal; assumption).
    constructor; [|exact IH3].
    unfold quantum_row, quantum_reduction_factor, PyNum.py_max. simpl.
    destruct (climate_variable =? "ice_extent")%string; repeat split; reflexivity.
Qed.

(** ** Determinism and the random generator *)






















(** [n] consecutive months, starting at month [m] of year [y]. *)
Fixpoint months_from (y m : Z) (n : nat) : list (Z * Z) :=
  match n with
  | O => []
  | S n' =>
      (y, m) :: months_from (if (m =? 12)%Z then y + 1 else y)%Z
                            (if (m =? 12)%Z then 1 else m + 1)%Z n'
  end.

(** The clock on 3 November 2026: the month ends from November 1996 to
    October 2026. *)
Definition clock_nov_2026 : clock := mk_clock 2026 (months_from 1996 11 360).


End QuantumPrediction.

(* ===================================================================== *)
(** * utils/climate_interventions.py: [ClimateInterventionSimulator] *)
(* ===================================================================== *)

Module Interventions.

(** An effect descriptor: one entry of an intervention's ["effects"]. *)
Record effect : Type := mk_effect {
  factor_type : string;
  immediate_effect : R;
  annual_effect : R;
  saturation_level : R;
  delay_years : Z
}.

(** An intervention: its ["parameters"] dictionary and its ["effects"],
    the latter in the order the dictionary literal lists them (the code
    iterates over it). *)
Record intervention_info : Type := mk_intervention {
  parameters : gmap string R;
  effects : list (string * effect)
}.

(** [_load_intervention_effects] *)
Definition intervention_effects : gmap string intervention_info :=
  list_to_map [
    ("renewable_energy"%string,
     mk_intervention
       (list_to_map [("implementation_speed"%string, 0.5);
                     ("coverage"%string, 0.8); ("efficiency"%string, 0.9)])
       [("co2"%string, mk_effect "emission_reduction" (-0.1) (-0.02) 0.7 2);
        ("temperature"%string, mk_effect "trend_reduction" 0 (-0.002) 0.6 10)]);
    ("reforestation"%string,
     mk_intervention
       (list_to_map [("implementation_speed"%string, 0.3);
                     ("coverage"%string, 0.6);
                     ("ecosystem_diversity"%string, 0.8)])
       [("co2"%string, mk_effect "carbon_sequestration" (-0.02) (-0.01) 0.3 5);
        ("temperature"%string, mk_effect "trend_reduction" 0 (-0.001) 0.2 15)]);
    ("industrial_efficiency"%string,
     mk_intervention
       (list_to_map [("implementation_speed"%string, 0.6);
                     ("coverage"%string, 0.7);
                     ("technology_level"%string, 0.8)])
       [("co2"%string, mk_effect "emission_reduction" (-0.05) (-0.01) 0.5 1)]);
    ("carbon_pricing"%string,
     mk_intervention
       (list_to_map [("price_level"%string, 0.5);
                     ("coverage"%string, 0.6); ("enforcement"%string, 0.7)])
       [("co2"%string, mk_effect "emission_reduction" (-0.03) (-0.01) 0.4 3)]);
    ("transportation_electrification"%string,
     mk_intervention
       (list_to_map [("implementation_speed"%string, 0.4);
                     ("coverage"%string, 0.8);
                     ("grid_carbon_intensity"%string, 0.6)])
       [("co2"%string, mk_effect "emission_reduction" (-0.02) (-0.015) 0.6 4)]);
    ("building_efficiency"%string,
     mk_intervention
       (list_to_map [("implementation_speed"%string, 0.3);
                     ("coverage"%string, 0.7); ("retrofit_depth"%string, 0.6)])
       [("co2"%string, mk_effect "emission_reduction" (-0.01) (-0.008) 0.4 2)]);
    ("agricultural_practices"%string,
     mk_intervention
       (list_to_map [("implementation_speed"%string, 0.3);
                     ("coverage"%string, 0.6); ("intensity"%string, 0.7)])
       [("co2"%string, mk_effect "emission_reduction" (-0.01) (-0.005) 0.3 5)]);
    ("direct_air_capture"%string,
     mk_intervention
       (list_to_map [("implementation_speed"%string, 0.2);
                     ("scale"%string, 0.3); ("efficiency"%string, 0.7)])
       [("co2"%string, mk_effect "carbon_removal" 0 (-0.01) 0.2 10)])
  ].

(** The factor types that scale the level of the baseline. *)
Definition is_level_factor (ft : string) : bool :=
  (ft =? "emission_reduction")%string
  || (ft =? "carbon_sequestration")%string
  || (ft =? "carbon_removal")%string.

(** [implementation_curve]: the logistic ramp over [range(years + 1)],
    scaled by [coverage]. *)
Definition curve_at (delay : Z) (implementation_speed coverage : R) (k : nat) : R :=
  let midpoint := IZR delay + 5.0 / implementation_speed in
  let steepness := implementation_speed * 0.5 in
  1.0 / (1.0 + exp (- steepness * (INR k - midpoint))) * coverage.

Definition implementation_curve
    (delay : Z) (implementation_speed coverage : R) (years : Z) : list R :=
  map (curve_at delay implementation_speed coverage) (seq 0 (Z.to_nat (years + 1))).

(** "Ensure we don't exceed saturation level". *)
Definition clamp_effect (saturation : R) (e : R) : R :=
  if decide (saturation < PyNum.py_abs e)
  then (if decide (e < 0) then - saturation else saturation)
  else e.

(** Rewriting [value] and the two bounds of a row. *)
Definition with_value (r : prow) (v : R) : prow :=
  mk_prow (year r) v (v - 1.96 * uncertainty r) (v + 1.96 * uncertainty r)
          (uncertainty r).

(** The loop body of the level-scaling branch. *)
Definition scale_row (e : effect) (curve : list R) (min_year : Z) (r : prow)
    : outcome prow :=
  let year_index := (year r - min_year)%Z in
  if (delay_years e <=? year_index)%Z then
    let time_since_delay := (year_index - delay_years e)%Z in
    let* c := or_raise (PyNum.py_index curve year_index) IndexError in
    let cumulative_effect :=
      clamp_effect (saturation_level e)
        ((immediate_effect e + annual_effect e * IZR time_since_delay) * c) in
    Returned (with_value r (value r * (1 + cumulative_effect)))
  else Returned r.

(** [baseline.loc[baseline["year"] == min + delay_years, "value"].iloc[0]] *)
Definition first_affected_value (baseline : list prow) (e : effect) : option R :=
  value <$> head (filter (fun r => year r = (year_min baseline + delay_years e)%Z)
                         baseline).

(** The loop body of the [trend_reduction] branch. *)
Definition trend_row (e : effect) (curve : list R) (baseline : list prow)
    (baseline_trend : R) (r : prow) : outcome prow :=
  let year_index := (year r - year_min baseline)%Z in
  if (delay_years e <=? year_index)%Z then
    let time_since_delay := (year_index - delay_years e)%Z in
    let* c := or_raise (PyNum.py_index curve year_index) IndexError in
    let trend_effect :=
      clamp_effect (saturation_level e)
        ((immediate_effect e + annual_effect e * IZR time_since_delay) * c) in
    let modified_trend := baseline_trend * (1 + trend_effect) in
    let time_since_delay :=
      if (0 <? time_since_delay)%Z then time_since_delay else 0%Z in
    let* first_affected := or_raise (first_affected_value baseline e) IndexError in
    Returned (with_value r (first_affected + modified_trend * IZR time_since_delay))
  else Returned r.

(** [(baseline.iloc[-1]["value"] - baseline.iloc[0]["value"]) / len(baseline)];
    [iloc] fails on a frame without rows. *)
Definition baseline_trend (baseline : list prow) : option R :=
  match last baseline, head baseline with
  | Some final, Some first =>
      Some ((value final - value first) / INR (length baseline))
  | _, _ => None
  end.

(** [_apply_intervention_effect], on a baseline frame that has the
    prediction columns and the default positional index. *)
Definition _apply_intervention_effect
    (baseline : table) (e : effect) (params : gmap string R) (years : Z)
    : outcome table :=
  let implementation_speed := default 0.5 (params !! "implementation_speed"%string) in
  let coverage := default 0.7 (params !! "coverage"%string) in
  if decide (implementation_speed = 0) then Raised ZeroDivisionError else
  let curve := implementation_curve (delay_years e) implementation_speed coverage years in
  let* new_rows :=
    if is_level_factor (factor_type e) then
      for_rows (scale_row e curve (year_min (rows baseline))) (rows baseline)
    else if (factor_type e =? "trend_reduction")%string then
      let* trend := or_raise (baseline_trend (rows baseline)) IndexError in
      for_rows (trend_row e curve (rows baseline) trend) (rows baseline)
    else Returned (rows baseline) in
  Returned (mk_table new_rows (quantum_enhanced baseline) true).

(** The baselines loop of [simulate_intervention]: one prediction per
    affected variable, in dictionary order, on the simulator's own
    predictor (constructed with quantum simulation enabled). *)
Fixpoint generate_baselines (vars : list string) (years : Z) (scenario : string)
    (clk : QuantumPrediction.clock) (g : QuantumPrediction.rng)
    : outcome (gmap string (option table)) * QuantumPrediction.rng :=
  match vars with
  | [] => (Returned ∅, g)
  | v :: vars' =>
      match QuantumPrediction.generate_prediction true v None years scenario clk g with
      | (Raised e, g') => (Raised e, g')
      | (Returned b, g') =>
          match generate_baselines vars' years scenario clk g' with
          | (Raised e, g'') => (Raised e, g'')
          | (Returned bs, g'') => (Returned (<[v := b]> bs), g'')
          end
      end
  end.

(** The results loop of [simulate_intervention]. *)
Fixpoint apply_effects (effs : list (string * effect))
    (baselines : gmap string (option table)) (params : gmap string R) (years : Z)
    : outcome (gmap string table) :=
  match effs with
  | [] => Returned ∅
  | (v, e) :: effs' =>
      let* slot := or_raise (baselines !! v) KeyError in
      let* baseline := or_raise slot AttributeError in
      let* r := _apply_intervention_effect baseline e params years in
      let* rs := apply_effects effs' baselines params years in
      Returned (<[v := r]> rs)
  end.

(** [simulate_intervention]; [None] as a result is Python's [None]. *)
Definition simulate_intervention
    (intervention_type : string) (custom_parameters : option (gmap string R))
    (years_to_simulate : Z) (baseline_scenario : string)
    (clk : QuantumPrediction.clock) (g : QuantumPrediction.rng)
    : outcome (option table) * QuantumPrediction.rng :=
  match intervention_effects !! intervention_type with
  | None => (Returned None, g)
  | Some info =>
      let params := default ∅ custom_parameters ∪ parameters info in
      match generate_baselines (map fst (effects info)) years_to_simulate
                               baseline_scenario clk g with
      | (Raised e, g') => (Raised e, g')
      | (Returned baselines, g') =>
          (let* results := apply_effects (effects info) baselines params
                                         years_to_simulate in
           let primary_variable :=
             if decide (is_Some (results !! "temperature"%string))
             then "temperature"%string else "co2"%string in
           let* r := or_raise (results !! primary_variable) KeyError in
           Returned (Some r), g')
      end
  end.

(** ** Facts about the overlay *)

Lemma clamp_effect_bound (s x : R) : 0 <= s -> Rabs (clamp_effect s x) <= s.
Proof.
  intros Hs. unfold clamp_effect, PyNum.py_abs.
  repeat case_decide.
  - rewrite Rabs_Ropp, Rabs_pos_eq; lra.
  - rewrite Rabs_pos_eq; lra.
  - lra.
Qed.

Lemma clamp_effect_id (s x : R) : Rabs x <= s -> clamp_effect s x = x.
Proof.
  intros H. unfold clamp_effect, PyNum.py_abs.
  case_decide; [lra | reflexivity].
Qed.

Lemma scale_row_before_delay e curve m r :
  (year r - m < delay_years e)%Z -> scale_row e curve m r = Returned r.
Proof.
  intros H. unfold scale_row.
  destruct (Z.leb_spec (delay_years e) (year r - m)); [lia | reflexivity].
Qed.

Lemma trend_row_before_delay e curve bl t r :
  (year r - year_min bl < delay_years e)%Z -> trend_row e curve bl t r = Returned r.
Proof.
  intros H. unfold trend_row.
  destruct (Z.leb_spec (delay_years e) (year r - year_min bl)); [lia | reflexivity].
Qed.

(** What a successful run did to each row: the loop body of its branch. *)
Definition row_step (baseline : table) (e : effect) (params : gmap string R)
    (years : Z) (r : prow) : outcome prow :=
  let implementation_speed := default 0.5 (params !! "implementation_speed"%string) in
  let coverage := default 0.7 (params !! "coverage"%string) in
  let curve := implementation_curve (delay_years e) implementation_speed coverage years in
  if is_level_factor (factor_type e) then
    scale_row e curve (year_min (rows baseline)) r
  else if (factor_type e =? "trend_reduction")%string then
    let* trend := or_raise (baseline_trend (rows baseline)) IndexError in
    trend_row e curve (rows baseline) trend r
  else Returned r.

Lemma apply_rows baseline e params years result :
  _apply_intervention_effect baseline e params years = Returned result ->
  Forall2 (fun b r => row_step baseline e params years b = Returned r)
          (rows baseline) (rows result).
Proof.
  unfold _apply_intervention_effect, row_step.
  case_decide; [discriminate|].
  destruct (is_level_factor (factor_type e)).
  - destruct (for_rows _ _) as [l|] eqn:Hl; simpl; [|discriminate].
    intros [= <-]. simpl. apply for_rows_Returned, Hl.
  - destruct (factor_type e =? "trend_reduction")%string.
    + destruct (baseline_trend (rows baseline)) as [t|]; simpl; [|discriminate].
      destruct (for_rows _ _) as [l|] eqn:Hl; simpl; [|discriminate].
      intros [= <-]. simpl. apply for_rows_Returned, Hl.
    + simpl. intros [= <-]. simpl.
      apply Forall2_same_length_lookup_2; [reflexivity|].
      intros i x y Hx Hy. congruence.
Qed.

Lemma row_step_before_delay baseline e params years r :
  (year r - year_min (rows baseline) < delay_years e)%Z ->
  row_step baseline e params years r = Returned r
  \/ exists x, row_step baseline e params years r = Raised x.
Proof.
  intros H. unfold row_step.
  destruct (is_level_factor (factor_type e)).
  - left. apply scale_row_before_delay, H.
  - destruct (factor_type e =? "trend_reduction")%string; [|left; reflexivity].
    destruct (baseline_trend (rows baseline)); simpl.
    + left. apply trend_row_before_delay, H.
    + right. eexists; reflexivity.
Qed.

Lemma fold_min_attained (l : list Z) (a : Z) :
  fold_left Z.min l a = a \/ In (fold_left Z.min l a) l.
Proof.
  revert a. induction l as [|y l IH]; intros a; simpl; [left; reflexivity|].
  destruct (IH (Z.min a y)) as [H|H]; [|right; right; exact H].
  rewrite H. destruct (Z.min_spec a y) as [[_ ->]|[_ ->]]; [left|right; left]; reflexivity.
Qed.

(** In a trajectory the first row holds the earliest year. *)
Lemma year_min_first (l : list prow) (first : prow) :
  head l = Some first ->
  Forall (fun r => (year first <= year r)%Z) l ->
  year_min l = year first.
Proof.
  destruct l as [|r0 l]; [discriminate|]. intros [= ->] Hall.
  unfold year_min.
  destruct (fold_min_attained (map year l) (year first)) as [H|H]; [exact H|].
  apply Z.le_antisymm.
  - apply (proj1 (fold_min_le (map year l) (year first))).
  - apply in_map_iff in H as (r & <- & Hr).
    rewrite Forall_forall in Hall. apply Hall.
    apply elem_of_cons. right. apply list_elem_of_In, Hr.
Qed.

Lemma py_index_in_range {A} (l : list A) (i : Z) :
  (0 <= i < Z.of_nat (length l))%Z -> exists x, PyNum.py_index l i = Some x.
Proof.
  intros H. unfold PyNum.py_index.
  destruct (Z.leb_spec 0 i); [|lia].
  apply lookup_lt_is_Some_2. lia.
Qed.

Lemma implementation_curve_length d s c years :
  length (implementation_curve d s c years) = Z.to_nat (years + 1).
Proof. unfold implementation_curve. rewrite length_map, length_seq. reflexivity. Qed.

(** The level-scaling branch returns whenever the roll-out speed is not
    zero and the curve covers every year of the baseline. *)
Lemma apply_level_returns baseline e params years :
  default 0.5 (params !! "implementation_speed"%string) <> 0 ->
  is_level_factor (factor_type e) = true ->
  Forall (fun r => (year r - year_min (rows baseline) <= years)%Z) (rows baseline) ->
  exists result, _apply_intervention_effect baseline e params years = Returned result.
Proof.
  intros Hs Hf Hy. unfold _apply_intervention_effect.
  case_decide; [contradiction|]. rewrite Hf.
  destruct (for_rows_total
              (scale_row e (implementation_curve (delay_years e)
                 (default 0.5 (params !! "implementation_speed"%string))
                 (default 0.7 (params !! "coverage"%string)) years)
                 (year_min (rows baseline))) (rows baseline)) as [l Hl].
  - rewrite Forall_forall in Hy. apply Forall_forall. intros r Hr.
    unfold scale_row.
    destruct (Z.leb_spec (delay_years e) (year r - year_min (rows baseline)));
      [|eexists; reflexivity].
    destruct (py_index_in_range
                (implementation_curve (delay_years e)
                   (default 0.5 (params !! "implementation_speed"%string))
                   (default 0.7 (params !! "coverage"%string)) years)
                (year r - year_min (rows baseline))) as [c Hc].
    + rewrite implementation_curve_length.
      pose proof (year_min_le (rows baseline) r Hr).
      pose proof (Hy r Hr). lia.
    + rewrite Hc. simpl. eexists; reflexivity.
  - rewrite Hl. simpl. eexists; reflexivity.
Qed.

(** C2.  Delay invariant: when the overlay returns, the result has the
    rows of the baseline, and every row whose year lies less than
    [delay_years] after the first year of the trajectory is the baseline
    row itself: same year, value, lower_bound, upper_bound (and
    uncertainty).  A trajectory has ascending years, so its first row holds
    the earliest one. *)
Theorem delay_invariant (baseline : table) (e : effect) (params : gmap string R)
    (years : Z) (result : table) (first : prow) :
  head (rows baseline) = Some first ->
  Forall (fun r => (year first <= year r)%Z) (rows baseline) ->
  _apply_intervention_effect baseline e params years = Returned result ->
  length (rows result) = length (rows baseline) /\
  forall (i : nat) (r : prow),
    rows baseline !! i = Some r ->
    (year r - year first < delay_years e)%Z ->
    rows result !! i = Some r.
Proof.
  intros Hfirst Hasc Hrun.
  pose proof (apply_rows _ _ _ _ _ Hrun) as Hrows.
  split; [symmetry; eapply Forall2_length, Hrows|].
  intros i r Hi Hlt.
  rewrite <- (year_min_first _ _ Hfirst Hasc) in Hlt.
  destruct (Forall2_lookup_l _ _ _ _ _ Hrows Hi) as (r' & Hi' & Hstep).
  destruct (row_step_before_delay baseline e params years r Hlt) as [H|[x H]];
    rewrite H in Hstep; [|discriminate].
  injection Hstep as <-. exact Hi'.
Qed.

(** A three-year CO2 baseline and the CO2 effect of [renewable_energy]. *)
Definition sample_baseline : table :=
  mk_table [mk_prow 2027 420 419 421 0.5;
            mk_prow 2028 422 421 423 0.5;
            mk_prow 2029 424 423 425 0.5] true false.

Definition renewable_co2 : effect :=
  mk_effect "emission_reduction" (-0.1) (-0.02) 0.7 2.

Lemma delay_invariant_witness :
  exists result,
    _apply_intervention_effect sample_baseline renewable_co2 ∅ 2 = Returned result /\
    rows result !! 1%nat = Some (mk_prow 2028 422 421 423 0.5).
Proof.
  destruct (apply_level_returns sample_baseline renewable_co2 ∅ 2) as [result H].
  - rewrite lookup_empty. simpl. lra.
  - reflexivity.
  - repeat constructor; simpl; lia.
  - exists result. split; [exact H|].
    apply (delay_invariant sample_baseline renewable_co2 ∅ 2 result
             (mk_prow 2027 420 419 421 0.5)).
    + reflexivity.
    + repeat constructor; simpl; lia.
    + exact H.
    + reflexivity.
    + simpl. lia.
Defined.

Lemma scale_row_value e curve m b r :
  0 <= saturation_level e ->
  scale_row e curve m b = Returned r ->
  exists c, Rabs c <= saturation_level e /\ value r = value b * (1 + c).
Proof.
  intros Hs. unfold scale_row.
  destruct (delay_years e <=? year b - m)%Z.
  - destruct (PyNum.py_index curve (year b - m)) as [c|]; simpl; [|discriminate].
    intros [= <-]. eexists. split; [apply clamp_effect_bound, Hs | reflexivity].
  - intros [= <-]. exists 0. split; [rewrite Rabs_R0; exact Hs | ring].
Qed.

Lemma trend_row_value e curve bl t b r :
  0 <= saturation_level e ->
  (delay_years e <= year b - year_min bl)%Z ->
  trend_row e curve bl t b = Returned r ->
  exists first_affected trend_effect,
    first_affected_value bl e = Some first_affected /\
    Rabs trend_effect <= saturation_level e /\
    value r = first_affected
              + t * (1 + trend_effect) * IZR (year b - year_min bl - delay_years e).
Proof.
  intros Hs Hd. unfold trend_row.
  destruct (Z.leb_spec (delay_years e) (year b - year_min bl)); [|lia].
  destruct (PyNum.py_index curve (year b - year_min bl)) as [c|]; simpl; [|discriminate].
  destruct (first_affected_value bl e) as [fa|]; simpl; [|discriminate].
  intros [= <-]. exists fa. eexists.
  split; [reflexivity|]. split; [apply clamp_effect_bound, Hs|]. simpl.
  destruct (Z.ltb_spec 0 (year b - year_min bl - delay_years e)); [reflexivity|].
  replace (year b - year_min bl - delay_years e)%Z with 0%Z by lia. reflexivity.
Qed.

(** C1 (amended).  Saturation: with [saturation_level >= 0], whenever the
    overlay returns, (a) under the level-scaling factor types
    (emission_reduction, carbon_sequestration, carbon_removal) the relative
    change of every row with a nonzero baseline value is at most
    [saturation_level]; (b) under trend_reduction the clamp bounds the
    relative change of the linear trend, not of the value: an affected row
    is [first_affected + trend * (1 + trend_effect) * (t - delay)] with
    [|trend_effect| <= saturation_level]. *)
Theorem saturation_invariant_amended (baseline : table) (e : effect)
    (params : gmap string R) (years : Z) (result : table)
    (i : nat) (b r : prow) :
  0 <= saturation_level e ->
  _apply_intervention_effect baseline e params years = Returned result ->
  rows baseline !! i = Some b ->
  rows result !! i = Some r ->
  (is_level_factor (factor_type e) = true -> value b <> 0 ->
   Rabs (value r - value b) / Rabs (value b) <= saturation_level e)
  /\
  (factor_type e = "trend_reduction"%string ->
   (delay_years e <= year b - year_min (rows baseline))%Z ->
   exists first_affected trend trend_effect,
     first_affected_value (rows baseline) e = Some first_affected /\
     baseline_trend (rows baseline) = Some trend /\
     Rabs trend_effect <= saturation_level e /\
     value r = first_affected
               + trend * (1 + trend_effect)
                 * IZR (year b - year_min (rows baseline) - delay_years e)).
Proof.
  intros Hs Hrun Hb Hr.
  pose proof (apply_rows _ _ _ _ _ Hrun) as Hrows.
  destruct (Forall2_lookup_l _ _ _ _ _ Hrows Hb) as (r' & Hr' & Hstep).
  assert (r' = r) as -> by congruence. clear Hr'.
  unfold row_step in Hstep. split.
  - intros Hf Hnz. rewrite Hf in Hstep.
    destruct (scale_row_value _ _ _ _ _ Hs Hstep) as (c & Hc & ->).
    replace (value b * (1 + c) - value b) with (value b * c) by ring.
    rewrite Rabs_mult. unfold Rdiv.
    rewrite (Rmult_comm (Rabs (value b))), Rmult_assoc, Rinv_r, Rmult_1_r;
      [exact Hc | apply Rabs_no_R0, Hnz].
  - intros Hf Hd. rewrite Hf in Hstep. simpl in Hstep.
    destruct (baseline_trend (rows baseline)) as [t|]; simpl in Hstep; [|discriminate].
    destruct (trend_row_value _ _ _ _ _ _ Hs Hd Hstep) as (fa & te & H1 & H2 & H3).
    exists fa, t, te. repeat split; assumption.
Qed.

(** A baseline that stays flat and then jumps, and a trend_reduction
    effect that starts at once. *)
Definition flat_then_jump : table :=
  mk_table [mk_prow 2027 1 1 1 0;
            mk_prow 2028 1 1 1 0;
            mk_prow 2029 7 7 7 0] true false.

Definition slow_trend_reduction : effect :=
  mk_effect "trend_reduction" 0 (-0.002) 0.6 0.

Lemma flat_then_jump_returns :
  exists result,
    _apply_intervention_effect flat_then_jump slow_trend_reduction ∅ 2
      = Returned result.
Proof.
  unfold _apply_intervention_effect. rewrite lookup_empty. simpl default.
  case_decide; [lra|]. eexists. reflexivity.
Qed.

Lemma saturation_invariant_amended_witness :
  (exists result r,
     _apply_intervention_effect sample_baseline renewable_co2 ∅ 2 = Returned result /\
     rows result !! 2%nat = Some r /\
     Rabs (value r - 424) / Rabs 424 <= 0.7)
  /\
  (exists result r trend_effect,
     _apply_intervention_effect flat_then_jump slow_trend_reduction ∅ 2
       = Returned result /\
     rows result !! 1%nat = Some r /\
     Rabs trend_effect <= 0.6 /\
     value r = 1 + (7 - 1) / INR 3 * (1 + trend_effect) * IZR 1).
Proof.
  split.
  - destruct (apply_level_returns sample_baseline renewable_co2 ∅ 2) as [result H].
    + rewrite lookup_empty. simpl. lra.
    + reflexivity.
    + repeat constructor; simpl; lia.
    + pose proof (apply_rows _ _ _ _ _ H) as Hrows.
      destruct (Forall2_lookup_l _ _ _ 2%nat (mk_prow 2029 424 423 425 0.5) Hrows)
        as (r & Hr & _); [reflexivity|].
      exists result, r. split; [exact H|]. split; [exact Hr|].
      apply (saturation_invariant_amended sample_baseline renewable_co2 ∅ 2 result
               2%nat (mk_prow 2029 424 423 425 0.5) r).
      * simpl. lra.
      * exact H.
      * reflexivity.
      * exact Hr.
      * reflexivity.
      * simpl. lra.
  - destruct flat_then_jump_returns as [result H].
    pose proof (apply_rows _ _ _ _ _ H) as Hrows.
    destruct (Forall2_lookup_l _ _ _ 1%nat (mk_prow 2028 1 1 1 0) Hrows)
      as (r & Hr & _); [reflexivity|].
    destruct (saturation_invariant_amended flat_then_jump slow_trend_reduction ∅ 2
                result 1%nat (mk_prow 2028 1 1 1 0) r) as [_ Htrend].
    + simpl. lra.
    + exact H.
    + reflexivity.
    + exact Hr.
    + destruct Htrend as (fa & trend & te & Hfa & Htr & Hte & Hval).
      * reflexivity.
      * simpl. lia.
      * assert (first_affected_value (rows flat_then_jump) slow_trend_reduction
                = Some 1) as Efa by reflexivity.
        assert (baseline_trend (rows flat_then_jump) = Some ((7 - 1) / INR 3))
          as Etr by reflexivity.
        rewrite Efa in Hfa. rewrite Etr in Htr.
        injection Hfa as <-. injection Htr as <-.
        exists result, r, te. repeat split; assumption.
Defined.

Lemma curve_at_bounds d s c k : 0 <= c -> 0 <= curve_at d s c k <= c.
Proof.
  intros Hc. unfold curve_at.
  set (x := exp _). assert (0 < x) as Hx by apply exp_pos.
  assert (0 < / (1.0 + x) <= 1) as [H1 H2].
  { split.
    - apply Rinv_0_lt_compat. lra.
    - assert (/ (1.0 + x) <= / 1) as H by (apply Rinv_le_contravar; lra).
      rewrite Rinv_1 in H. exact H. }
  unfold Rdiv. split; nra.
Qed.

(** C1 as stated fails: under trend_reduction the second row of
    [flat_then_jump] moves from 1 to about 3, a relative change of about 2,
    with [saturation_level = 0.6]. *)
Lemma saturation_invariant_fails_for_trend_reduction :
  exists result b r,
    _apply_intervention_effect flat_then_jump slow_trend_reduction ∅ 2
      = Returned result /\
    rows flat_then_jump !! 1%nat = Some b /\
    rows result !! 1%nat = Some r /\
    value b <> 0 /\
    saturation_level slow_trend_reduction
      < Rabs (value r - value b) / Rabs (value b).
Proof.
  set (c := curve_at 0 0.5 0.7 1).
  set (te := clamp_effect 0.6 ((0 + -0.002 * IZR 1) * c)).
  assert (0 <= c <= 0.7) as Hc by (apply curve_at_bounds; lra).
  assert (te = (0 + -0.002 * IZR 1) * c) as Hte.
  { apply clamp_effect_id. rewrite Rabs_left1; lra. }
  eexists. exists (mk_prow 2028 1 1 1 0).
  exists (with_value (mk_prow 2028 1 1 1 0) (1 + (7 - 1) / INR 3 * (1 + te) * IZR 1)).
  split; [|split; [reflexivity|split; [|split]]].
  - unfold _apply_intervention_effect. rewrite lookup_empty. simpl default.
    case_decide; [lra|]. reflexivity.
  - reflexivity.
  - simpl. lra.
  - simpl. rewrite Hte. simpl.
    match goal with
    | |- _ < Rabs ?x / _ => replace x with (2 * (1 - 0.002 * c)) by lra
    end.
    rewrite Rabs_R1, Rabs_pos_eq; lra.
Qed.

(** ** Year alignment and termination on a trajectory *)

Lemma row_step_year baseline e params years b r :
  row_step baseline e params years b = Returned r -> year r = year b.
Proof.
  unfold row_step, scale_row, trend_row.
  destruct (is_level_factor (factor_type e)).
  - destruct (_ <=? _)%Z; [|intros [= <-]; reflexivity].
    destruct (PyNum.py_index _ _); simpl; [|discriminate].
    intros [= <-]. reflexivity.
  - destruct (factor_type e =? "trend_reduction")%string; [|intros [= <-]; reflexivity].
    destruct (baseline_trend _); simpl; [|discriminate].
    destruct (_ <=? _)%Z; [|intros [= <-]; reflexivity].
    destruct (PyNum.py_index _ _); simpl; [|discriminate].
    destruct (first_affected_value _ _); simpl; [|discriminate].
    intros [= <-]. reflexivity.
Qed.

Lemma head_filter_is_Some {A} (P : A -> Prop) `{!forall x, Decision (P x)}
    (l : list A) (x : A) :
  x ∈ l -> P x -> is_Some (head (filter P l)).
Proof.
  intros Hin HP.
  assert (x ∈ filter P l) as Hf by (apply list_elem_of_filter; split; assumption).
  destruct (filter P l); [inversion Hf | eexists; reflexivity].
Qed.

(** A trajectory: one row per year, from [y0] on. *)
Definition contiguous_from (y0 : Z) (l : list prow) : Prop :=
  forall (i : nat) (r : prow), l !! i = Some r -> year r = (y0 + Z.of_nat i)%Z.

Lemma contiguous_year_min (y0 : Z) (l : list prow) :
  l <> [] -> contiguous_from y0 l -> year_min l = y0.
Proof.
  intros Hne Hc. destruct l as [|r0 l]; [contradiction|].
  assert (year r0 = y0) as H0 by (rewrite (Hc 0%nat r0 eq_refl); lia).
  rewrite (year_min_first (r0 :: l) r0 eq_refl); [exact H0|].
  apply Forall_forall. intros r Hr.
  apply list_elem_of_lookup in Hr as [i Hi].
  rewrite (Hc i r Hi). lia.
Qed.

(** On a trajectory of at most [years + 1] rows, with a roll-out speed
    other than zero and a delay that is not negative, the overlay returns,
    whatever the factor type, and the result has the years of the
    baseline, row by row. *)
Theorem overlay_returns_aligned (baseline : table) (e : effect)
    (params : gmap string R) (years : Z) (y0 : Z) :
  rows baseline <> [] ->
  contiguous_from y0 (rows baseline) ->
  (Z.of_nat (length (rows baseline)) <= years + 1)%Z ->
  (0 <= delay_years e)%Z ->
  default 0.5 (params !! "implementation_speed"%string) <> 0 ->
  exists result,
    _apply_intervention_effect baseline e params years = Returned result /\
    map year (rows result) = map year (rows baseline).
Proof.
  intros Hne Hc Hlen Hd Hs.
  pose proof (contiguous_year_min y0 _ Hne Hc) as Hmin.
  assert (exists result, _apply_intervention_effect baseline e params years
                         = Returned result) as [result Hrun].
  { destruct (is_level_factor (factor_type e)) eqn:Hf.
    - apply apply_level_returns; [exact Hs | exact Hf|].
      apply Forall_forall. intros r Hr.
      apply list_elem_of_lookup in Hr as [i Hi].
      pose proof (lookup_lt_Some _ _ _ Hi). rewrite Hmin, (Hc i r Hi). lia.
    - unfold _apply_intervention_effect. case_decide; [contradiction|]. rewrite Hf.
      destruct (factor_type e =? "trend_reduction")%string; [|eexists; reflexivity].
      assert (exists t, baseline_trend (rows baseline) = Some t) as [t ->].
      { unfold baseline_trend.
        destruct (rows baseline) as [|r0 l] eqn:E; [contradiction|].
        destruct (last (r0 :: l)) eqn:El; [eexists; reflexivity|].
        apply last_None in El. discriminate. }
      simpl.
      destruct (for_rows_total
                  (trend_row e (implementation_curve (delay_years e)
                                  (default 0.5 (params !! "implementation_speed"%string))
                                  (default 0.7 (params !! "coverage"%string)) years)
                             (rows baseline) t) (rows baseline)) as [l Hl].
      + apply Forall_forall. intros r Hr.
        apply list_elem_of_lookup in Hr as [i Hi].
        pose proof (lookup_lt_Some _ _ _ Hi) as Hi_lt.
        unfold trend_row. rewrite Hmin, (Hc i r Hi).
        destruct (Z.leb_spec (delay_years e) (y0 + Z.of_nat i - y0));
          [|eexists; reflexivity].
        destruct (py_index_in_range
                    (implementation_curve (delay_years e)
                       (default 0.5 (params !! "implementation_speed"%string))
                       (default 0.7 (params !! "coverage"%string)) years)
                    (y0 + Z.of_nat i - y0)) as [c ->];
          [rewrite implementation_curve_length; lia|].
        simpl.
        assert (is_Some (first_affected_value (rows baseline) e)) as [fa ->].
        { unfold first_affected_value. rewrite Hmin.
          destruct (lookup_lt_is_Some_2 (rows baseline) (Z.to_nat (delay_years e)))
            as [rd Hrd]; [lia|].
          destruct (head_filter_is_Some
                      (fun r => year r = (y0 + delay_years e)%Z) (rows baseline) rd)
            as [x ->].
          - apply list_elem_of_lookup. eexists; exact Hrd.
          - rewrite (Hc _ rd Hrd). lia.
          - eexists; reflexivity. }
        simpl. eexists; reflexivity.
      + rewrite Hl. simpl. eexists; reflexivity. }
  exists result. split; [exact Hrun|].
  pose proof (apply_rows _ _ _ _ _ Hrun) as Hrows.
  clear -Hrows. induction Hrows as [|b r bl rl Hstep _ IH]; [reflexivity|].
  simpl. rewrite IH, (row_step_year _ _ _ _ _ _ Hstep). reflexivity.
Qed.

Lemma overlay_returns_aligned_witness :
  exists result,
    _apply_intervention_effect flat_then_jump slow_trend_reduction ∅ 2
      = Returned result /\
    map year (rows result) = [2027; 2028; 2029]%Z.
Proof.
  apply (overlay_returns_aligned flat_then_jump slow_trend_reduction ∅ 2 2027).
  - discriminate.
  - intros [|[|[|i]]] r; simpl; intros [= <-]; reflexivity.
  - simpl. lia.
  - simpl. lia.
  - rewrite lookup_empty. simpl. lra.
Defined.

(** ** Direction of a level-scaling intervention *)

Lemma curve_at_pos d s c k : 0 < c -> 0 < curve_at d s c k.
Proof.
  intros Hc. unfold curve_at.
  set (x := exp _). assert (0 < x) as Hx by apply exp_pos.
  assert (0 < / (1.0 + x)) as H1 by (apply Rinv_0_lt_compat; lra).
  unfold Rdiv. nra.
Qed.

Lemma implementation_curve_lookup d s c years (i : Z) (x : R) :
  PyNum.py_index (implementation_curve d s c years) i = Some x ->
  exists k, x = curve_at d s c k.
Proof.
  unfold PyNum.py_index, implementation_curve.
  destruct (0 <=? i)%Z; [|destruct (0 <=? _)%Z; [|discriminate]];
    rewrite list_lookup_fmap;
    (destruct (seq 0 _ !! _) as [k|]; [|discriminate]);
    simpl; intros [= <-]; exists k; reflexivity.
Qed.

Lemma clamp_effect_neg (s x : R) : 0 < s -> x < 0 -> -1 < - s -> 
  clamp_effect s x < 0 /\ -1 < clamp_effect s x.
Proof.
  intros Hs Hx H1. unfold clamp_effect, PyNum.py_abs.
  case_decide as Habs.
  - case_decide; lra.
  - rewrite Rabs_left in Habs by exact Hx. lra.
Qed.

(** An intervention that scales the level with a negative immediate effect,
    a non-positive annual effect, a saturation level in (0, 1) and a
    positive coverage strictly lowers every positive baseline value from
    the delay on, and keeps it positive. *)
Theorem level_reduction_lowers_value (baseline : table) (e : effect)
    (params : gmap string R) (years : Z) (result : table)
    (i : nat) (b r : prow) :
  is_level_factor (factor_type e) = true ->
  immediate_effect e < 0 -> annual_effect e <= 0 ->
  0 < saturation_level e < 1 ->
  0 < default 0.7 (params !! "coverage"%string) ->
  _apply_intervention_effect baseline e params years = Returned result ->
  rows baseline !! i = Some b ->
  rows result !! i = Some r ->
  (delay_years e <= year b - year_min (rows baseline))%Z ->
  0 < value b ->
  0 < value r < value b.
Proof.
  intros Hf Himm Hann Hsat Hcov Hrun Hb Hr Hd Hv.
  pose proof (apply_rows _ _ _ _ _ Hrun) as Hrows.
  destruct (Forall2_lookup_l _ _ _ _ _ Hrows Hb) as (r' & Hr' & Hstep).
  assert (r' = r) as -> by congruence. clear Hr'.
  unfold row_step in Hstep. rewrite Hf in Hstep. unfold scale_row in Hstep.
  destruct (Z.leb_spec (delay_years e) (year b - year_min (rows baseline))); [|lia].
  destruct (PyNum.py_index _ _) as [c|] eqn:Ec; simpl in Hstep; [|discriminate].
  destruct (implementation_curve_lookup _ _ _ _ _ _ Ec) as [k ->].
  injection Hstep as <-. simpl.
  set (tsd := IZR (year b - year_min (rows baseline) - delay_years e)).
  assert (0 <= tsd) as Htsd by (apply IZR_le; lia).
  pose proof (curve_at_pos (delay_years e)
                (default 0.5 (params !! "implementation_speed"%string))
                (default 0.7 (params !! "coverage"%string)) k Hcov) as Hc.
  set (c := curve_at _ _ _ k) in *.
  assert (annual_effect e * tsd <= 0) as Hat by nra.
  assert ((immediate_effect e + annual_effect e * tsd) * c < 0) as Hneg.
  { rewrite <- (Rmult_0_l c). apply Rmult_lt_compat_r; lra. }
  destruct (clamp_effect_neg (saturation_level e) _ ltac:(lra) Hneg ltac:(lra))
    as [H1 H2].
  set (ce := clamp_effect _ _) in *. nra.
Qed.

(** The last year of a 31-year CO2 baseline under [renewable_energy]. *)
Definition co2_baseline_31 : table :=
  mk_table (map (fun k => mk_prow (2027 + Z.of_nat k)
                                  (420 + 2.5 * INR k) 0 0 0.5) (seq 0 31))
           true false.

Lemma level_reduction_lowers_value_witness :
  exists result r,
    _apply_intervention_effect co2_baseline_31 renewable_co2
      (list_to_map [("implementation_speed"%string, 0.5);
                    ("coverage"%string, 0.8); ("efficiency"%string, 0.9)]) 30
      = Returned result /\
    rows result !! 30%nat = Some r /\
    0 < value r < 420 + 2.5 * INR 30.
Proof.
  set (params := list_to_map [("implementation_speed"%string, 0.5);
                              ("coverage"%string, 0.8); ("efficiency"%string, 0.9)]
                 : gmap string R).
  assert (params !! "implementation_speed"%string = Some 0.5) as Hs by reflexivity.
  assert (params !! "coverage"%string = Some 0.8) as Hc by reflexivity.
  assert (year_min (rows co2_baseline_31) = 2027%Z) as Hmin by reflexivity.
  destruct (apply_level_returns co2_baseline_31 renewable_co2 params 30) as [result H].
  - rewrite Hs. simpl. lra.
  - reflexivity.
  - rewrite Hmin. apply Forall_forall. intros x Hx.
    apply list_elem_of_In, in_map_iff in Hx as (k & <- & Hk).
    apply in_seq in Hk. simpl. lia.
  - pose proof (apply_rows _ _ _ _ _ H) as Hrows.
    destruct (Forall2_lookup_l _ _ _ 30%nat
                (mk_prow (2027 + Z.of_nat 30) (420 + 2.5 * INR 30) 0 0 0.5) Hrows)
      as (r & Hr & _); [reflexivity|].
    exists result, r. split; [exact H|]. split; [exact Hr|].
    apply (level_reduction_lowers_value co2_baseline_31 renewable_co2 params 30 result
             30%nat (mk_prow (2027 + Z.of_nat 30) (420 + 2.5 * INR 30) 0 0 0.5) r).
    + reflexivity.
    + simpl. lra.
    + simpl. lra.
    + simpl. lra.
    + rewrite Hc. simpl. lra.
    + exact H.
    + reflexivity.
    + exact Hr.
    + rewrite Hmin. simpl. lia.
    + simpl. pose proof (pos_INR 30). lra.
Defined.

End Interventions.

(* ===================================================================== *)
(** * utils/climate_simulator.py *)
(* ===================================================================== *)

Module ClimateSimulator.

(** The parameter dictionary of the basic model, with the keys of
    [DEFAULT_PARAMS]. *)
Record params : Type := mk_params {
  initial_temperature : R;
  co2_sensitivity : R;
  climate_sensitivity : R;
  ocean_heat_capacity : R;
  baseline_co2 : R;
  current_co2 : R
}.

Definition DEFAULT_PARAMS : params := mk_params 14.0 5.35 0.8 14.0 280 417.

(** One entry of [EMISSION_SCENARIOS]; the two year keys exist only in
    the entries that use them. *)
Record scenario_details : Type := mk_scenario {
  annual_increase : R;
  net_zero_year : option Z;
  negative_year : option Z
}.

Definition EMISSION_SCENARIOS : gmap string scenario_details :=
  <["business_as_usual"%string := mk_scenario 2.5 None None]>
  (<["moderate_mitigation"%string := mk_scenario 1.2 None None]>
  (<["strong_mitigation"%string := mk_scenario 0.5 None None]>
  (<["net_zero"%string := mk_scenario 1.0 (Some 2050%Z) None]>
  (<["negative_emissions"%string := mk_scenario 0.8 None (Some 2070%Z)]> ∅)))).

(** "Get scenario details": an unknown key is replaced by
    ['business_as_usual']. *)
Definition effective_scenario (scenario : string) : string :=
  match EMISSION_SCENARIOS !! scenario with
  | Some _ => scenario
  | None => "business_as_usual"%string
  end.

(** "Calculate annual increase based on scenario", for loop index [i] and
    calendar year [year]. *)
Definition annual_increase_at (scenario : string) (d : scenario_details)
    (current_year i year : Z) : outcome R :=
  if (scenario =? "net_zero")%string then
    let* nzy := or_raise (net_zero_year d) KeyError in
    if (year <? nzy)%Z then
      let years_to_net_zero := (nzy - current_year)%Z in
      Returned (annual_increase d * (1 - IZR i / IZR years_to_net_zero))
    else Returned 0
  else if (scenario =? "negative_emissions")%string then
    let* ny := or_raise (negative_year d) KeyError in
    if (year <? ny)%Z then
      let years_to_negative := (ny - current_year)%Z in
      Returned (annual_increase d * (1 - 1.5 * IZR i / IZR years_to_negative))
    else Returned (-0.5)
  else Returned (annual_increase d).

(** The DataFrame [run_climate_simulation] returns, column by column. *)
Record frame : Type := mk_frame {
  year_col : list Z;
  co2 : list R;
  temperature : list R;
  sea_level_rise : list R;
  arctic_ice : list R;
  extreme_weather_index : list R
}.

(** The CO2 loop over [enumerate(simulation_years)]: [idx] holds the
    indices still to visit, [co2_level] the running level. *)
Fixpoint co2_loop (scenario : string) (d : scenario_details) (current_year : Z)
    (idx : list Z) (co2_level : R) : outcome (list R) :=
  match idx with
  | [] => Returned []
  | i :: rest =>
      let* inc := annual_increase_at scenario d current_year i (current_year + i) in
      let co2_level := co2_level + inc in
      let* tl := co2_loop scenario d current_year rest co2_level in
      Returned (PyNum.py_round co2_level 1 :: tl)
  end.

(** The energy-balance loop; [co2 / params['baseline_co2']] divides
    Python floats. *)
Fixpoint temperature_loop (p : params) (co2s : list R) (temp : R)
    : outcome (list R) :=
  match co2s with
  | [] => Returned []
  | c :: rest =>
      if decide (baseline_co2 p = 0) then Raised ZeroDivisionError else
      let forcing := co2_sensitivity p * ln (c / baseline_co2 p) in
      let temp_change := forcing * climate_sensitivity p / ocean_heat_capacity p in
      let temp := temp + temp_change in
      let* tl := temperature_loop p rest temp in
      Returned (PyNum.py_round temp 2 :: tl)
  end.

Definition sea_level_at (p : params) (i : nat) (temp : R) : R :=
  let initial_sea_level := 0 in
  let thermal_component := 0.3 * (temp - initial_temperature p) in
  let year_factor := INR i / 10 in
  let temp_anomaly := temp - initial_temperature p in
  let ice_melt_component := 0.1 * year_factor * temp_anomaly * temp_anomaly in
  PyNum.py_round (initial_sea_level + thermal_component + ice_melt_component) 1.

Definition ice_extent_at (p : params) (temp : R) : R :=
  let current_ice := 10.5 in
  let temp_anomaly := temp - initial_temperature p in
  let new_ice := current_ice - temp_anomaly * 0.8 in
  let new_ice := PyNum.py_max 0 new_ice in
  PyNum.py_round new_ice 2.

Definition extreme_weather_at (p : params) (temp : R) : R :=
  let temp_anomaly := temp - initial_temperature p in
  let weather_index := 20 + temp_anomaly * 15 in
  let weather_index := Rmin 100 (PyNum.py_max 0 weather_index) in
  PyNum.py_round weather_index 1.

(** [run_climate_simulation]; [current_year] is [datetime.now().year]. *)
Definition run_climate_simulation (current_year : Z)
    (scenario : string) (years : Z) (p : params) : outcome frame :=
  let scenario := effective_scenario scenario in
  let* scenario_details := or_raise (EMISSION_SCENARIOS !! scenario) KeyError in
  let simulation_years := PyNum.py_range current_year (current_year + years) in
  let* co2_concentrations :=
    co2_loop scenario scenario_details current_year
             (PyNum.py_range 0 years) (current_co2 p) in
  let* temperatures :=
    temperature_loop p co2_concentrations (initial_temperature p) in
  Returned (mk_frame simulation_years co2_concentrations temperatures
              (imap (sea_level_at p) temperatures)
              (map (ice_extent_at p) temperatures)
              (map (extreme_weather_at p) temperatures)).

(** ** The differential-equation model *)

(** The dictionary [run_advanced_climate_simulation] builds when it is
    given no parameters. *)
Definition default_adv_params : gmap string R :=
  <["initial_temperature"%string := 14.0]>
  (<["ocean_heat_capacity"%string := 14.0]>
  (<["climate_sensitivity"%string := 3.0]>
  (<["co2_forcing_coefficient"%string := 5.35]>
  (<["baseline_co2"%string := 280]>
  (<["current_co2"%string := 417]>
  (<["ocean_mixing_rate"%string := 0.002]>
  (<["deep_ocean_temperature"%string := 6.0]>
  (<["ice_albedo_feedback"%string := 0.01]>
  (<["carbon_cycle_feedback"%string := 0.01]> ∅))))))))).

(** [params[key]] *)
Definition reads (params : gmap string R) (key : string) : outcome R :=
  or_raise (params !! key) KeyError.

(** The CO2 scenario: [co2_levels = [current_co2]], then one level per
    [i] in [range(1, years + 1)], unrounded. *)
Fixpoint co2_levels_loop (scenario : string) (d : scenario_details)
    (current_year : Z) (idx : list Z) (last_level : R) : outcome (list R) :=
  match idx with
  | [] => Returned []
  | i :: rest =>
      let* inc := annual_increase_at scenario d current_year i (current_year + i) in
      let c := last_level + inc in
      let* tl := co2_levels_loop scenario d current_year rest c in
      Returned (c :: tl)
  end.

(** [climate_system]: the right-hand side handed to the solver.  It reads
    the dictionary key by key, in this order, and
    [co2 / params['baseline_co2']] divides Python floats (the callers of
    the repository that pass a NumPy float as [current_co2] pass 280 as
    [baseline_co2]).  The later divisions are NumPy's and do not raise. *)
Definition climate_system (params : gmap string R) (co2_levels : list R)
    (y : R * R) (t : R) : outcome (R * R) :=
  let '(T_s, T_d) := y in
  let idx := PyNum.floor t in
  let c :=
    if (Z.of_nat (length co2_levels) <=? idx)%Z then List.last co2_levels 0
    else if (idx <? 0)%Z then hd 0 co2_levels
    else nth (Z.to_nat idx) co2_levels 0 in
  let* co2_forcing_coefficient := reads params "co2_forcing_coefficient" in
  let* baseline_co2 := reads params "baseline_co2" in
  if decide (baseline_co2 = 0) then Raised ZeroDivisionError else
  let forcing := co2_forcing_coefficient * ln (c / baseline_co2) in
  let* initial_temperature := reads params "initial_temperature" in
  let temp_anomaly := T_s - initial_temperature in
  let* ice_albedo_feedback := reads params "ice_albedo_feedback" in
  let ice_feedback := ice_albedo_feedback * temp_anomaly in
  let total_forcing := forcing + ice_feedback in
  let* ocean_mixing_rate := reads params "ocean_mixing_rate" in
  let* ocean_heat_capacity := reads params "ocean_heat_capacity" in
  let dTs_dt := (total_forcing - ocean_mixing_rate * (T_s - T_d))
                / ocean_heat_capacity in
  let dTd_dt := ocean_mixing_rate * (T_s - T_d)
                / (5 * ocean_heat_capacity) in
  Returned (dTs_dt, dTd_dt).

(** [x ** y] for a non-negative float base (a negative base with a
    fractional exponent is NaN, outside the model). *)
Definition float_pow (x y : R) : R :=
  if decide (x = 0) then 0 else Rpower x y.

(** The DataFrame [run_advanced_climate_simulation] returns. *)
Record adv_frame : Type := mk_adv_frame {
  adv_year_col : list Z;
  adv_co2 : list R;
  adv_temperature : list R;
  adv_deep_ocean_temperature : list R;
  adv_sea_level_rise : list R;
  adv_arctic_ice : list R;
  adv_extreme_weather_index : list R
}.

(** The sea-level loop: each row adds to the previous (rounded) level.
    [initial_temperature] is [params['initial_temperature']], a key the
    function has read before the loops start. *)
Fixpoint adv_sea_levels (initial_temperature : R) (i : nat) (prev : R)
    (temps : list R) : list R :=
  match temps with
  | [] => []
  | temp :: rest =>
      let temp_anomaly := temp - initial_temperature in
      let thermal_component := 0.3 * temp_anomaly in
      let ice_melt_rate := 0.05 * (INR i / 10) * float_pow temp_anomaly 1.5 in
      let ice_melt_rate :=
        if decide (1.5 < temp_anomaly)
        then ice_melt_rate + 0.1 * (temp_anomaly - 1.5) ^ 2
        else ice_melt_rate in
      let sea_level :=
        if (i =? 0)%nat then 0 else prev + thermal_component + ice_melt_rate in
      let s := PyNum.py_round sea_level 1 in
      s :: adv_sea_levels initial_temperature (S i) s rest
  end.

Definition adv_ice_extent_at (initial_temperature : R) (temp : R) : R :=
  let current_ice := 10.5 in
  let temp_anomaly := temp - initial_temperature in
  let ice_loss :=
    if decide (temp_anomaly < 1.0) then temp_anomaly * 0.7
    else if decide (temp_anomaly < 2.0) then 0.7 + (temp_anomaly - 1.0) * 1.2
    else 0.7 + 1.2 + (temp_anomaly - 2.0) * 1.8 in
  let remaining_ice := current_ice - ice_loss in
  let remaining_ice := PyNum.py_max 0 remaining_ice in
  let remaining_ice :=
    if decide (remaining_ice < 1.0) then remaining_ice * 0.8 else remaining_ice in
  PyNum.py_round remaining_ice 2.

Definition adv_extreme_weather_at (initial_temperature : R) (temp : R) : R :=
  let temp_anomaly := temp - initial_temperature in
  let weather_index :=
    if decide (temp_anomaly < 1.0) then 20 + temp_anomaly * 10
    else if decide (temp_anomaly < 2.0) then 30 + (temp_anomaly - 1.0) * 20
    else 50 + (temp_anomaly - 2.0) * 25 in
  let weather_index := Rmin 100 (PyNum.py_max 0 weather_index) in
  PyNum.py_round weather_index 1.

(** [pd.DataFrame({...})] of columns: they must have one length. *)
Definition same_length (n : nat) (ls : list nat) : bool :=
  forallb (Nat.eqb n) ls.

Section Solver.

(** [scipy.integrate.odeint(func, y0, t)]: not part of the repository.
    It calls the right-hand side [func], which can raise, and returns one
    state per requested time, or raises (for instance what [func]
    raises). *)
Variable odeint :
  (R * R -> R -> outcome (R * R)) -> R * R -> list R -> outcome (list (R * R)).

(** [run_advanced_climate_simulation]; [current_year] is
    [datetime.now().year], [params] the optional dictionary of the
    caller. *)
Definition run_advanced_climate_simulation (current_year : Z)
    (scenario : string) (years : Z) (params : option (gmap string R))
    : outcome adv_frame :=
  let params := default default_adv_params params in
  let scenario := effective_scenario scenario in
  let* scenario_details := or_raise (EMISSION_SCENARIOS !! scenario) KeyError in
  let simulation_years := PyNum.py_range current_year (current_year + years + 1) in
  (* np.linspace(0, years, years + 1) refuses a negative number of samples *)
  if (years + 1 <? 0)%Z then Raised ValueError else
  let t := map IZR (PyNum.py_range 0 (years + 1)) in
  let* current_co2 := reads params "current_co2" in
  let* tl :=
    co2_levels_loop scenario scenario_details current_year
                    (PyNum.py_range 1 (years + 1)) current_co2 in
  let co2_levels := current_co2 :: tl in
  let* initial_temperature := reads params "initial_temperature" in
  let* deep_ocean_temperature := reads params "deep_ocean_temperature" in
  let y0 := (initial_temperature, deep_ocean_temperature) in
  let* y := odeint (climate_system params co2_levels) y0 t in
  if same_length (length simulation_years) [length co2_levels; length y] then
    let temps := map fst y in
    Returned (mk_adv_frame simulation_years co2_levels
                (map (fun x => PyNum.py_round x 2) temps)
                (map (fun x => PyNum.py_round (snd x) 2) y)
                (adv_sea_levels initial_temperature 0 0 temps)
                (map (adv_ice_extent_at initial_temperature) temps)
                (map (adv_extreme_weather_at initial_temperature) temps))
  else Raised ValueError.

End Solver.

(** ** Facts about the scenario table *)

Lemma scenario_lookup_cases (s : string) (d : scenario_details) :
  EMISSION_SCENARIOS !! s = Some d ->
  (s = "business_as_usual"%string /\ d = mk_scenario 2.5 None None)
  \/ (s = "moderate_mitigation"%string /\ d = mk_scenario 1.2 None None)
  \/ (s = "strong_mitigation"%string /\ d = mk_scenario 0.5 None None)
  \/ (s = "net_zero"%string /\ d = mk_scenario 1.0 (Some 2050%Z) None)
  \/ (s = "negative_emissions"%string /\ d = mk_scenario 0.8 None (Some 2070%Z)).
Proof.
  unfold EMISSION_SCENARIOS.
  repeat (rewrite lookup_insert; case_decide;
          [intros [= <-]; subst s; tauto|]).
  rewrite lookup_empty. discriminate.
Qed.

Lemma effective_scenario_known (s : string) :
  exists d, EMISSION_SCENARIOS !! effective_scenario s = Some d.
Proof.
  unfold effective_scenario.
  destruct (EMISSION_SCENARIOS !! s) as [d|] eqn:E; [exists d; exact E|].
  eexists. reflexivity.
Qed.

Lemma effective_scenario_unknown (s : string) :
  EMISSION_SCENARIOS !! s = None -> effective_scenario s = "business_as_usual"%string.
Proof. intros H. unfold effective_scenario. rewrite H. reflexivity. Qed.

Lemma effective_scenario_bau :
  effective_scenario "business_as_usual" = "business_as_usual"%string.
Proof. reflexivity. Qed.

(** No table entry lacks a key its scenario reads. *)
Lemma annual_increase_at_returns s d cy i y :
  EMISSION_SCENARIOS !! s = Some d ->
  exists inc, annual_increase_at s d cy i y = Returned inc.
Proof.
  intros H.
  destruct (scenario_lookup_cases s d H)
    as [[-> ->]|[[-> ->]|[[-> ->]|[[-> ->]|[-> ->]]]]];
    unfold annual_increase_at; simpl;
    try destruct (_ <? _)%Z; eexists; reflexivity.
Qed.

(** ** Lengths and termination of the loops *)

Lemma co2_loop_returns s d cy idx lvl :
  EMISSION_SCENARIOS !! s = Some d ->
  exists l, co2_loop s d cy idx lvl = Returned l /\ length l = length idx.
Proof.
  intros H. revert lvl. induction idx as [|i idx IH]; intros lvl; simpl.
  - eexists. split; reflexivity.
  - destruct (annual_increase_at_returns s d cy i (cy + i) H) as [inc ->]. simpl.
    destruct (IH (lvl + inc)) as (l & -> & Hl). simpl.
    eexists. split; [reflexivity|]. simpl. rewrite Hl. reflexivity.
Qed.

Lemma co2_levels_loop_returns s d cy idx lvl :
  EMISSION_SCENARIOS !! s = Some d ->
  exists l, co2_levels_loop s d cy idx lvl = Returned l /\ length l = length idx.
Proof.
  intros H. revert lvl. induction idx as [|i idx IH]; intros lvl; simpl.
  - eexists. split; reflexivity.
  - destruct (annual_increase_at_returns s d cy i (cy + i) H) as [inc ->]. simpl.
    destruct (IH (lvl + inc)) as (l & -> & Hl). simpl.
    eexists. split; [reflexivity|]. simpl. rewrite Hl. reflexivity.
Qed.

Lemma temperature_loop_returns p co2s temp :
  baseline_co2 p <> 0 ->
  exists l, temperature_loop p co2s temp = Returned l /\ length l = length co2s.
Proof.
  intros H. revert temp. induction co2s as [|c co2s IH]; intros temp; simpl.
  - eexists. split; reflexivity.
  - case_decide; [contradiction|].
    destruct (IH (temp + co2_sensitivity p * ln (c / baseline_co2 p)
                         * climate_sensitivity p / ocean_heat_capacity p))
      as (l & -> & Hl). simpl.
    eexists. split; [reflexivity|]. simpl. rewrite Hl. reflexivity.
Qed.

Lemma temperature_loop_length p co2s temp l :
  temperature_loop p co2s temp = Returned l -> length l = length co2s.
Proof.
  revert temp l. induction co2s as [|c co2s IH]; intros temp l; simpl.
  - intros [= <-]. reflexivity.
  - case_decide; [discriminate|].
    destruct (temperature_loop p co2s _) as [tl|] eqn:E; simpl; [|discriminate].
    intros [= <-]. simpl. f_equal. eapply IH, E.
Qed.

Lemma py_range_length (a b : Z) : length (PyNum.py_range a b) = Z.to_nat (b - a).
Proof. unfold PyNum.py_range. rewrite length_map, length_seq. reflexivity. Qed.

(** What a returned frame of the basic model is made of. *)
Lemma run_climate_simulation_inv cy s years p df :
  run_climate_simulation cy s years p = Returned df ->
  exists d temps,
    EMISSION_SCENARIOS !! effective_scenario s = Some d /\
    co2_loop (effective_scenario s) d cy (PyNum.py_range 0 years) (current_co2 p)
      = Returned (co2 df) /\
    temperature_loop p (co2 df) (initial_temperature p) = Returned temps /\
    df = mk_frame (PyNum.py_range cy (cy + years)) (co2 df) temps
           (imap (sea_level_at p) temps) (map (ice_extent_at p) temps)
           (map (extreme_weather_at p) temps).
Proof.
  unfold run_climate_simulation.
  destruct (EMISSION_SCENARIOS !! effective_scenario s) as [d|]; simpl; [|discriminate].
  destruct (co2_loop _ _ _ _ _) as [cs|] eqn:Ec; simpl; [|discriminate].
  destruct (temperature_loop _ _ _) as [ts|] eqn:Et; simpl; [|discriminate].
  intros [= <-]. simpl. exists d, ts. repeat split; assumption.
Qed.

(** The basic model returns unless [baseline_co2] is zero. *)
Lemma run_climate_simulation_returns cy s years p :
  baseline_co2 p <> 0 ->
  exists df, run_climate_simulation cy s years p = Returned df.
Proof.
  intros Hb. unfold run_climate_simulation.
  destruct (effective_scenario_known s) as [d Hd]. rewrite Hd. simpl.
  destruct (co2_loop_returns (effective_scenario s) d cy
              (PyNum.py_range 0 years) (current_co2 p) Hd) as (cs & -> & _). simpl.
  destruct (temperature_loop_returns p cs (initial_temperature p) Hb) as (ts & -> & _).
  simpl. eexists. reflexivity.
Qed.

(** Every column of the basic model has [years] entries. *)
Lemma run_climate_simulation_length cy s years p df :
  run_climate_simulation cy s years p = Returned df ->
  year_col df = PyNum.py_range cy (cy + years) /\
  length (year_col df) = Z.to_nat years /\
  length (co2 df) = Z.to_nat years /\
  length (temperature df) = Z.to_nat years /\
  length (arctic_ice df) = Z.to_nat years.
Proof.
  intros H. destruct (run_climate_simulation_inv _ _ _ _ _ H) as (d & ts & Hd & Hc & Ht & ->).
  simpl in *.
  destruct (co2_loop_returns (effective_scenario s) d cy
              (PyNum.py_range 0 years) (current_co2 p) Hd) as (cs & Hcs & Hlen).
  rewrite Hc in Hcs. injection Hcs as <-.
  pose proof (temperature_loop_length _ _ _ _ Ht) as Hlt.
  rewrite py_range_length in *.
  replace (cy + years - cy)%Z with years by lia.
  replace (years - 0)%Z with years in Hlen by lia.
  rewrite length_map. repeat split; congruence.
Qed.

(** ** State invariants of the basic model *)














(** ** Length of the returned trajectories *)

(** A solver that returns one state per requested time, whenever the
    right-hand side it is given returns. *)
Definition solver_returns
    (odeint : (R * R -> R -> outcome (R * R)) -> R * R -> list R
              -> outcome (list (R * R)))
    : Prop :=
  forall f y0 t,
    (forall y s, exists d, f y s = Returned d) ->
    exists ys, odeint f y0 t = Returned ys /\ length ys = length t.

(** The keys [run_advanced_climate_simulation] reads: the first three
    before it calls the solver, the others in [climate_system]. *)
Definition keys_read_first : list string :=
  ["current_co2"; "initial_temperature"; "deep_ocean_temperature"]%string.

Definition keys_read : list string :=
  keys_read_first ++
  ["co2_forcing_coefficient"; "baseline_co2"; "ice_albedo_feedback";
   "ocean_mixing_rate"; "ocean_heat_capacity"]%string.


Ltac key_in :=
  unfold keys_read, keys_read_first; cbn [app];
  repeat first [apply elem_of_cons; left; reflexivity | apply elem_of_cons; right].

Lemma reads_present (params : gmap string R) (key : string) :
  is_Some (params !! key) -> exists x, reads params key = Returned x.
Proof. intros [x Hx]. exists x. unfold reads. rewrite Hx. reflexivity. Qed.

(** With its keys present and a baseline that is not zero, the right-hand
    side returns at every state and time. *)
Lemma climate_system_returns (params : gmap string R) (co2_levels : list R) :
  Forall (fun key => is_Some (params !! key)) keys_read ->
  params !! "baseline_co2"%string <> Some 0 ->
  forall y t, exists d, climate_system params co2_levels y t = Returned d.
Proof.
  intros Hkeys Hb [T_s T_d] t. unfold climate_system.
  rewrite Forall_forall in Hkeys.
  assert (forall key, key ∈ keys_read -> exists x, params !! key = Some x) as Hk
    by (intros key Hin; destruct (Hkeys key Hin) as [x Hx]; exists x; exact Hx).
  destruct (Hk "co2_forcing_coefficient"%string) as [x1 H1]; [key_in|].
  destruct (Hk "baseline_co2"%string) as [x2 H2]; [key_in|].
  destruct (Hk "initial_temperature"%string) as [x3 H3]; [key_in|].
  destruct (Hk "ice_albedo_feedback"%string) as [x4 H4]; [key_in|].
  destruct (Hk "ocean_mixing_rate"%string) as [x5 H5]; [key_in|].
  destruct (Hk "ocean_heat_capacity"%string) as [x6 H6]; [key_in|].
  unfold reads. rewrite H1, H2, H3, H4, H5, H6. cbn [or_raise obind].
  destruct (decide (x2 = 0)) as [->|_]; [contradiction|].
  eexists. reflexivity.
Qed.

(** With such a solver and such a dictionary the differential-equation
    model returns, and every column has [years + 1] entries. *)
Lemma run_advanced_returns odeint cy s (h : nat) (params : option (gmap string R)) :
  solver_returns odeint ->
  Forall (fun key => is_Some (default default_adv_params params !! key)) keys_read ->
  default default_adv_params params !! "baseline_co2"%string <> Some 0 ->
  exists adf,
    run_advanced_climate_simulation odeint cy s (Z.of_nat h) params = Returned adf /\
    adv_year_col adf = PyNum.py_range cy (cy + Z.of_nat h + 1) /\
    length (adv_year_col adf) = (h + 1)%nat /\
    length (adv_co2 adf) = (h + 1)%nat /\
    length (adv_temperature adf) = (h + 1)%nat.
Proof.
  intros Hsolver Hkeys Hb. unfold run_advanced_climate_simulation.
  set (p := default default_adv_params params) in *.
  destruct (effective_scenario_known s) as [d Hd]. rewrite Hd. simpl.
  destruct (Z.ltb_spec (Z.of_nat h + 1) 0); [lia|].
  pose proof Hkeys as Hk. rewrite Forall_forall in Hk.
  destruct (Hk "current_co2"%string) as [c Hc]; [key_in|].
  destruct (Hk "initial_temperature"%string) as [T0 HT0]; [key_in|].
  destruct (Hk "deep_ocean_temperature"%string) as [Td HTd]; [key_in|].
  unfold reads. rewrite Hc, HT0, HTd. cbn [or_raise obind].
  destruct (co2_levels_loop_returns (effective_scenario s) d cy
              (PyNum.py_range 1 (Z.of_nat h + 1)) c Hd)
    as (tl & -> & Htl). cbn [obind].
  destruct (Hsolver (climate_system p (c :: tl)) (T0, Td)
              (map IZR (PyNum.py_range 0 (Z.of_nat h + 1)))
              (climate_system_returns p (c :: tl) Hkeys Hb)) as (ys & -> & Hys).
  cbn [obind].
  rewrite length_map in Hys. rewrite py_range_length in *.
  replace (Z.to_nat (cy + Z.of_nat h + 1 - cy)) with (h + 1)%nat by lia.
  replace (Z.to_nat (Z.of_nat h + 1 - 1)) with h in Htl by lia.
  replace (Z.to_nat (Z.of_nat h + 1 - 0)) with (h + 1)%nat in Hys by lia.
  cbn [length same_length forallb].
  rewrite Htl, Hys.
  replace (S h) with (h + 1)%nat by lia. rewrite Nat.eqb_refl. cbn [andb].
  eexists. split; [reflexivity|]. simpl.
  rewrite py_range_length, !length_map, Htl, Hys.
  repeat split; lia.
Qed.


Lemma default_adv_params_complete :
  Forall (fun key => is_Some (default_adv_params !! key)) keys_read /\
  default_adv_params !! "baseline_co2"%string <> Some 0.
Proof.
  split.
  - unfold keys_read, keys_read_first.
    repeat (constructor; [eexists; reflexivity|]). constructor.
  - change (default_adv_params !! "baseline_co2"%string) with (Some 280).
    intros [= H]. lra.
Qed.



(** A stand-in solver for examples: the explicit Euler method over the
    requested times.  It calls the right-hand side once per step and
    raises what that raises. *)
Fixpoint euler_from (f : R * R -> R -> outcome (R * R)) (y : R * R) (t0 : R)
    (ts : list R) : outcome (list (R * R)) :=
  match ts with
  | [] => Returned []
  | t1 :: ts' =>
      let* d := f y t0 in
      let y1 := (fst y + (t1 - t0) * fst d, snd y + (t1 - t0) * snd d) in
      let* tl := euler_from f y1 t1 ts' in
      Returned (y1 :: tl)
  end.

Definition euler_solver (f : R * R -> R -> outcome (R * R)) (y0 : R * R)
    (t : list R) : outcome (list (R * R)) :=
  match t with
  | [] => Returned []
  | t0 :: ts =>
      let* tl := euler_from f y0 t0 ts in
      Returned (y0 :: tl)
  end.

Lemma euler_from_returns f y t0 ts :
  (forall y s, exists d, f y s = Returned d) ->
  exists ys, euler_from f y t0 ts = Returned ys /\ length ys = length ts.
Proof.
  intros Hf. revert y t0. induction ts as [|t1 ts IH]; intros y t0.
  - exists []. split; reflexivity.
  - cbn [euler_from]. destruct (Hf y t0) as [d ->]. cbn [obind].
    destruct (IH (fst y + (t1 - t0) * fst d, snd y + (t1 - t0) * snd d) t1)
      as (ys & -> & Hlen).
    cbn [obind]. eexists. split; [reflexivity|]. simpl. rewrite Hlen. reflexivity.
Qed.

Lemma euler_solver_returns : solver_returns euler_solver.
Proof.
  intros f y0 [|t0 ts] Hf.
  - exists []. split; reflexivity.
  - unfold euler_solver. destruct (euler_from_returns f y0 t0 ts Hf) as (ys & -> & Hlen).
    cbn [obind]. eexists. split; [reflexivity|]. simpl. rewrite Hlen. reflexivity.
Qed.

(** A baseline of zero stops the right-hand side with
    [ZeroDivisionError]: a solver that calls it, as the Euler stand-in does
    for a horizon of at least one year, raises instead of returning. *)
Lemma climate_system_zero_baseline (params : gmap string R) (co2_levels : list R)
    (y : R * R) (t : R) :
  is_Some (params !! "co2_forcing_coefficient"%string) ->
  params !! "baseline_co2"%string = Some 0 ->
  climate_system params co2_levels y t = Raised ZeroDivisionError.
Proof.
  intros [k Hk] Hb. destruct y as [T_s T_d]. unfold climate_system, reads.
  rewrite Hk, Hb. cbn [or_raise obind].
  destruct (decide (0 = 0)) as [_|Hn]; [reflexivity | contradiction].
Qed.

Lemma zero_baseline_run_raises (cy : Z) (s : string) (h : nat) :
  (1 <= h)%nat ->
  run_advanced_climate_simulation euler_solver cy s (Z.of_nat h)
    (Some (<["baseline_co2"%string := 0]> default_adv_params))
  = Raised ZeroDivisionError.
Proof.
  intros Hh. unfold run_advanced_climate_simulation.
  change (default default_adv_params (Some ?p)) with p.
  set (p := <["baseline_co2"%string := 0]> default_adv_params).
  destruct (effective_scenario_known s) as [d Hd]. rewrite Hd. cbn [or_raise obind].
  destruct (Z.ltb_spec (Z.of_nat h + 1) 0); [lia|].
  change (reads p "current_co2") with (Returned 417).
  change (reads p "initial_temperature") with (Returned 14.0).
  change (reads p "deep_ocean_temperature") with (Returned 6.0).
  cbn [obind].
  destruct (co2_levels_loop_returns (effective_scenario s) d cy
              (PyNum.py_range 1 (Z.of_nat h + 1)) 417 Hd) as (tl & -> & _).
  cbn [obind].
  unfold PyNum.py_range.
  replace (Z.to_nat (Z.of_nat h + 1 - 0)) with (S (S (h - 1))) by lia.
  cbn [seq map euler_solver euler_from].
  rewrite climate_system_zero_baseline; [reflexivity | eexists; reflexivity | reflexivity].
Qed.



(** ** Monotonicity in emissions of the basic model *)

(** The temperature the energy-balance loop has reached after the whole
    CO2 column, before rounding. *)
Definition final_temperature (p : params) (co2s : list R) (temp : R) : R :=
  fold_left (fun t c =>
               t + co2_sensitivity p * ln (c / baseline_co2 p)
                   * climate_sensitivity p / ocean_heat_capacity p)
            co2s temp.

Lemma temperature_loop_last p co2s temp l :
  co2s <> [] ->
  temperature_loop p co2s temp = Returned l ->
  last l = Some (PyNum.py_round (final_temperature p co2s temp) 2).
Proof.
  revert temp l. induction co2s as [|c co2s IH]; intros temp l Hne; [contradiction|].
  simpl. case_decide; [discriminate|].
  destruct (temperature_loop p co2s _) as [tl|] eqn:E; simpl; [|discriminate].
  intros [= <-]. destruct co2s as [|c' co2s].
  - simpl in E. injection E as <-. reflexivity.
  - specialize (IH _ _ ltac:(discriminate) E).
    destruct tl as [|t tl]; [discriminate|]. exact IH.
Qed.

Lemma ln_gap (m b : R) : 0 < m -> m <= b -> (b - m) / b <= ln b - ln m.
Proof.
  intros Hm Hb.
  pose proof (exp_ineq1_le (ln m - ln b)) as H.
  unfold Rminus in H at 2. rewrite exp_plus, exp_Ropp, !exp_ln in H by lra.
  assert (m * / b = 1 - (b - m) / b) as E by (field; lra).
  lra.
Qed.

Lemma ln_le_compat (m b : R) : 0 < m -> m <= b -> ln m <= ln b.
Proof.
  intros Hm [Hlt| ->]; [left; apply ln_increasing; assumption | lra].
Qed.

(** With the default parameters, a CO2 column that is nowhere lower gives
    a final temperature that is no lower. *)
Lemma final_temperature_mono (cb cm : list R) (tb tm : R) :
  Forall2 (fun b m => 0 < m /\ m <= b) cb cm ->
  tm <= tb ->
  final_temperature DEFAULT_PARAMS cm tm <= final_temperature DEFAULT_PARAMS cb tb.
Proof.
  intros H. revert tb tm. unfold final_temperature.
  induction H as [|b m cb cm [Hm Hb] _ IH]; intros tb tm Ht; simpl; [exact Ht|].
  apply IH.
  assert (ln (m / 280) <= ln (b / 280)) as Hln
    by (apply ln_le_compat; unfold Rdiv; lra).
  lra.
Qed.

Lemma final_temperature_app p l c temp :
  final_temperature p (l ++ [c]) temp
  = final_temperature p l temp
    + co2_sensitivity p * ln (c / baseline_co2 p)
      * climate_sensitivity p / ocean_heat_capacity p.
Proof. unfold final_temperature. rewrite fold_left_app. reflexivity. Qed.

(** The CO2 column of a scenario with a constant yearly increase [a]:
    entry [i] is the rounded [level + a * (i + 1)]. *)
Lemma co2_loop_constant s d cy idx lvl l (a : R) :
  (forall i, annual_increase_at s d cy i (cy + i) = Returned a) ->
  co2_loop s d cy idx lvl = Returned l ->
  length l = length idx /\
  forall (i : nat) (c : R), l !! i = Some c ->
    c = PyNum.py_round (lvl + a * (INR i + 1)) 1.
Proof.
  intros Ha. revert lvl l. induction idx as [|k idx IH]; intros lvl l; simpl.
  - intros [= <-]. split; [reflexivity | intros i c Hi; discriminate].
  - rewrite Ha. simpl.
    destruct (co2_loop s d cy idx (lvl + a)) as [tl|] eqn:E; simpl; [|discriminate].
    intros [= <-]. destruct (IH _ _ E) as [Hlen Hat]. split; [simpl; congruence|].
    intros [|i] c Hi; simpl in Hi.
    + injection Hi as <-. simpl. f_equal. ring.
    + rewrite (Hat i c Hi), S_INR. f_equal. ring.
Qed.

Lemma py_round_close (x : R) (n : nat) :
  x - / (2 * 10 ^ n) <= PyNum.py_round x n <= x + / (2 * 10 ^ n).
Proof.
  unfold PyNum.py_round.
  pose proof (PyNum.pow10_pos n) as Hp.
  pose proof (PyNum.round_half_even_close (x * 10 ^ n)) as [Hlo Hhi].
  set (z := IZR (PyNum.round_half_even (x * 10 ^ n))) in *.
  assert (z / 10 ^ n - x = (z - x * 10 ^ n) / 10 ^ n) as E by (field; lra).
  assert (/ (2 * 10 ^ n) = (1 / 2) / 10 ^ n) as E2 by (field; lra).
  rewrite E2.
  assert (- ((1 / 2) / 10 ^ n) <= (z - x * 10 ^ n) / 10 ^ n <= (1 / 2) / 10 ^ n)
    as [H1 H2].
  { unfold Rdiv. pose proof (Rinv_0_lt_compat _ Hp) as Hi. split; nra. }
  lra.
Qed.

(** Monotonicity in emissions for the annual-increment integrator: with
    the default parameters and any start year, 80 years of
    [business_as_usual] end strictly warmer than 80 years of
    [moderate_mitigation]. *)
Theorem basic_model_monotone_in_emissions (current_year : Z) :
  exists dfb dfm tb tm,
    run_climate_simulation current_year "business_as_usual" 80 DEFAULT_PARAMS
      = Returned dfb /\
    run_climate_simulation current_year "moderate_mitigation" 80 DEFAULT_PARAMS
      = Returned dfm /\
    last (temperature dfb) = Some tb /\
    last (temperature dfm) = Some tm /\
    tm < tb.
Proof.
  destruct (run_climate_simulation_returns current_year "business_as_usual" 80
              DEFAULT_PARAMS) as [dfb Hb]; [simpl; lra|].
  destruct (run_climate_simulation_returns current_year "moderate_mitigation" 80
              DEFAULT_PARAMS) as [dfm Hm]; [simpl; lra|].
  destruct (run_climate_simulation_inv _ _ _ _ _ Hb) as (db & tsb & Hdb & Hcb & Htb & Eb).
  destruct (run_climate_simulation_inv _ _ _ _ _ Hm) as (dm & tsm & Hdm & Hcm & Htm & Em).
  change (effective_scenario "business_as_usual") with "business_as_usual"%string in *.
  change (effective_scenario "moderate_mitigation") with "moderate_mitigation"%string in *.
  assert (db = mk_scenario 2.5 None None) as -> by (injection Hdb as <-; reflexivity).
  assert (dm = mk_scenario 1.2 None None) as -> by (injection Hdm as <-; reflexivity).
  assert (forall i, annual_increase_at "business_as_usual" (mk_scenario 2.5 None None)
                      current_year i (current_year + i) = Returned 2.5) as Hab
    by (intros; reflexivity).
  assert (forall i, annual_increase_at "moderate_mitigation" (mk_scenario 1.2 None None)
                      current_year i (current_year + i) = Returned 1.2) as Ham
    by (intros; reflexivity).
  destruct (co2_loop_constant _ _ _ _ _ _ 2.5 Hab Hcb) as [Hlb Hatb].
  destruct (co2_loop_constant _ _ _ _ _ _ 1.2 Ham Hcm) as [Hlm Hatm].
  rewrite py_range_length in Hlb, Hlm.
  change (Z.to_nat (80 - 0)) with 80%nat in Hlb, Hlm.
  (* entry by entry, the moderate column is positive and below the other *)
  assert (forall i b m, co2 dfb !! i = Some b -> co2 dfm !! i = Some m ->
                        417 + 1.2 * (INR i + 1) - 0.05 <= m
                        /\ m <= 417 + 1.2 * (INR i + 1) + 0.05
                        /\ 417 + 2.5 * (INR i + 1) - 0.05 <= b) as Hentry.
  { intros i b m Hib Him.
    rewrite (Hatb i b Hib), (Hatm i m Him).
    pose proof (py_round_close (current_co2 DEFAULT_PARAMS + 2.5 * (INR i + 1)) 1) as Hrb.
    pose proof (py_round_close (current_co2 DEFAULT_PARAMS + 1.2 * (INR i + 1)) 1) as Hrm.
    change (current_co2 DEFAULT_PARAMS) with 417 in *.
    simpl in Hrb, Hrm. repeat split; lra. }
  assert (Forall2 (fun b m => 0 < m /\ m <= b) (co2 dfb) (co2 dfm)) as Hcols.
  { apply Forall2_same_length_lookup_2; [congruence|].
    intros i b m Hib Him. pose proof (pos_INR i).
    destruct (Hentry i b m Hib Him) as (H1 & H2 & H3). lra. }
  (* split off the last year *)
  destruct (co2 dfb) as [|b0 cb] eqn:Ecb using rev_ind; [discriminate|]. clear IHcb.
  destruct (co2 dfm) as [|m0 cm] eqn:Ecm using rev_ind; [discriminate|]. clear IHcm.
  rewrite !length_app in Hlb, Hlm. simpl in Hlb, Hlm.
  assert (length cb = 79%nat) as Hlcb by lia.
  assert (length cm = 79%nat) as Hlcm by lia.
  apply Forall2_app_inv in Hcols as [Hinit Hlast]; [|congruence].
  destruct (Hentry 79%nat b0 m0) as (_ & Hm0 & Hb0).
  { rewrite lookup_app_r, Hlcb by lia. reflexivity. }
  { rewrite lookup_app_r, Hlcm by lia. reflexivity. }
  rewrite INR_IZR_INZ in Hm0, Hb0.
  change (Z.of_nat 79) with 79%Z in Hm0, Hb0.
  assert (cb ++ [b0] <> []) as Hneb by (destruct cb; discriminate).
  assert (cm ++ [m0] <> []) as Hnem by (destruct cm; discriminate).
  pose proof (temperature_loop_last _ _ _ _ Hneb Htb) as Hltb.
  pose proof (temperature_loop_last _ _ _ _ Hnem Htm) as Hltm.
  assert (temperature dfb = tsb) as Etb by (rewrite Eb; reflexivity).
  assert (temperature dfm = tsm) as Etm by (rewrite Em; reflexivity).
  exists dfb, dfm. eexists _, _.
  split; [exact Hb|]. split; [exact Hm|].
  rewrite Etb, Etm.
  split; [exact Hltb|]. split; [exact Hltm|].
  rewrite !final_temperature_app. simpl.
  pose proof (final_temperature_mono cb cm 14.0 14.0 Hinit (Rle_refl _)) as Hmono.
  set (Fb := final_temperature DEFAULT_PARAMS cb 14.0) in *.
  set (Fm := final_temperature DEFAULT_PARAMS cm 14.0) in *.
  assert (0.168 <= ln (b0 / 280) - ln (m0 / 280)) as Hgap.
  { assert (0 < m0 / 280) by (inversion Hlast; subst; unfold Rdiv; lra).
    assert (m0 / 280 <= b0 / 280) by (unfold Rdiv; lra).
    pose proof (ln_gap (m0 / 280) (b0 / 280) ltac:(assumption) ltac:(assumption)) as Hg.
    assert (0.168 <= (b0 / 280 - m0 / 280) / (b0 / 280)); [|lra].
    replace ((b0 / 280 - m0 / 280) / (b0 / 280)) with (1 - m0 / b0) by (field; lra).
    assert (m0 / b0 <= 513.05 / 616.95); [|lra].
    unfold Rdiv. apply Rmult_le_compat; try lra.
    - left. apply Rinv_0_lt_compat. lra.
    - apply Rinv_le_contravar; lra. }
  pose proof (py_round_close (Fb + 5.35 * ln (b0 / 280) * 0.8 / 14.0) 2) as Hrb.
  pose proof (py_round_close (Fm + 5.35 * ln (m0 / 280) * 0.8 / 14.0) 2) as Hrm.
  simpl in Hrb, Hrm. lra.
Qed.

(** ** Unknown scenario ids *)

Lemma run_climate_simulation_fallback cy s years p :
  EMISSION_SCENARIOS !! s = None ->
  run_climate_simulation cy s years p
  = run_climate_simulation cy "business_as_usual" years p.
Proof.
  intros H. unfold run_climate_simulation.
  rewrite (effective_scenario_unknown s H), effective_scenario_bau. reflexivity.
Qed.

Lemma run_advanced_fallback odeint cy s years (params : option (gmap string R)) :
  EMISSION_SCENARIOS !! s = None ->
  run_advanced_climate_simulation odeint cy s years params
  = run_advanced_climate_simulation odeint cy "business_as_usual" years params.
Proof.
  intros H. unfold run_advanced_climate_simulation.
  rewrite (effective_scenario_unknown s H), effective_scenario_bau. reflexivity.
Qed.

End ClimateSimulator.

(* ===================================================================== *)
(** * utils/simulation/climate_simulator.py: [analyze_tipping_points] *)
(* ===================================================================== *)

Module TippingPoints.

(** The columns of a results DataFrame the analyzer reads; the year is a
    float ([datetime.now().year + t]), and either variable may be absent. *)
Record results : Type := mk_results {
  year : list R;
  temperature : option (list R);
  ice_extent : option (list R)
}.

(** A value of the report: a year or a label. *)
Inductive tp_value : Type :=
| Year (y : Z)
| Label (s : string).

(** [results[mask].iloc[0]['year']], when the masked frame is not empty:
    the year of the first row whose tested value satisfies [P]. *)
Definition first_year_where (P : R -> Prop) `{!forall v, Decision (P v)}
    (column years : list R) : option R :=
  snd <$> head (filter (fun vy => P (fst vy)) (zip column years)).

(** One threshold test: on a crossing, the year under [year_key] and the
    label under [label_key]. *)
Definition note_crossing (P : R -> Prop) `{!forall v, Decision (P v)}
    (column years : list R) (year_key label_key label : string)
    (tipping_points : gmap string tp_value) : gmap string tp_value :=
  match first_year_where P column years with
  | Some y =>
      <[label_key := Label label]>
        (<[year_key := Year (PyNum.py_int y)]> tipping_points)
  | None => tipping_points
  end.

(** [analyze_tipping_points] *)
Definition analyze_tipping_points (r : results) : gmap string tp_value :=
  let tipping_points : gmap string tp_value := ∅ in
  let tipping_points :=
    match temperature r with
    | Some temps =>
        note_crossing (fun v => 3.0 <= v) temps (year r)
          "3.0C_threshold_year" "3.0C_threshold_risk" "Severe"
          (note_crossing (fun v => 2.0 <= v) temps (year r)
             "2.0C_threshold_year" "2.0C_threshold_risk" "High"
             (note_crossing (fun v => 1.5 <= v) temps (year r)
                "1.5C_threshold_year" "1.5C_threshold_risk" "Moderate"
                tipping_points))
    | None => tipping_points
    end in
  let tipping_points :=
    match ice_extent r with
    | Some ice =>
        note_crossing (fun v => v <= 1.0) ice (year r)
          "ice_free_summer_year" "ice_free_impact"
          "Major ecosystem disruption, albedo feedback acceleration"
          tipping_points
    | None => tipping_points
    end in
  match temperature r with
  | Some temps =>
      note_crossing (fun v => 2.5 <= v) temps (year r)
        "permafrost_methane_year" "permafrost_impact"
        "Accelerated warming due to methane release"
        tipping_points
  | None => tipping_points
  end.

(** ** First-crossing semantics *)

Lemma first_year_where_cons (P : R -> Prop) `{!forall v, Decision (P v)}
    (v y : R) (column years : list R) :
  first_year_where P (v :: column) (y :: years)
  = if decide (P v) then Some y else first_year_where P column years.
Proof.
  unfold first_year_where. simpl. rewrite filter_cons. simpl.
  case_decide; reflexivity.
Qed.

Lemma first_year_where_nil_l (P : R -> Prop) `{!forall v, Decision (P v)}
    (years : list R) : first_year_where P [] years = None.
Proof. reflexivity. Qed.

Lemma first_year_where_never (P : R -> Prop) `{!forall v, Decision (P v)}
    (column years : list R) :
  Forall (fun v => ~ P v) column -> first_year_where P column years = None.
Proof.
  intros Hall. revert years. induction Hall as [|v column Hv _ IH]; intros years.
  - reflexivity.
  - destruct years as [|y years]; [reflexivity|].
    rewrite first_year_where_cons. case_decide; [contradiction | apply IH].
Qed.

(** The reported year is the year of the first row that satisfies the
    test: every earlier row fails it. *)
Lemma first_year_where_first (P : R -> Prop) `{!forall v, Decision (P v)}
    (column years : list R) (y : R) :
  first_year_where P column years = Some y ->
  exists i v, column !! i = Some v /\ years !! i = Some y /\ P v /\
    forall j w, (j < i)%nat -> column !! j = Some w -> ~ P w.
Proof.
  revert years. induction column as [|v column IH]; intros years; [discriminate|].
  destruct years as [|y0 years]; [discriminate|].
  rewrite first_year_where_cons. case_decide as Hv.
  - intros [= <-]. exists 0%nat, v. repeat split; try assumption. intros j w Hj. lia.
  - intros Hrest. destruct (IH years Hrest) as (i & v' & Hc & Hy & HP & Hbefore).
    exists (S i), v'. repeat split; try assumption.
    intros [|j] w Hj Hw; simpl in Hw.
    + injection Hw as <-. exact Hv.
    + apply (Hbefore j w); [lia | exact Hw].
Qed.

(** The synthetic trajectory of the specification. *)
Definition synthetic : results :=
  mk_results [2025; 2026; 2027; 2028] (Some [1.0; 1.3; 1.6; 2.1]) None.

Lemma note_crossing_other (P : R -> Prop) `{!forall v, Decision (P v)}
    column years year_key label_key label tp (k : string) :
  k <> year_key -> k <> label_key ->
  note_crossing P column years year_key label_key label tp !! k = tp !! k.
Proof.
  intros H1 H2. unfold note_crossing.
  destruct (first_year_where P column years); [|reflexivity].
  rewrite !lookup_insert_ne by congruence. reflexivity.
Qed.

Lemma note_crossing_year (P : R -> Prop) `{!forall v, Decision (P v)}
    column years year_key label_key label tp :
  year_key <> label_key -> tp !! year_key = None ->
  note_crossing P column years year_key label_key label tp !! year_key
  = (fun y => Year (PyNum.py_int y)) <$> first_year_where P column years.
Proof.
  intros Hne Hfresh. unfold note_crossing.
  destruct (first_year_where P column years); simpl; [|exact Hfresh].
  rewrite lookup_insert_ne by congruence. apply lookup_insert_eq.
Qed.

(** The entry of the 1.5 degree threshold in any report. *)
Lemma threshold_1_5_entry (r : results) :
  analyze_tipping_points r !! "1.5C_threshold_year"%string
  = match temperature r with
    | Some temps =>
        (fun y => Year (PyNum.py_int y))
          <$> first_year_where (fun v => 1.5 <= v) temps (year r)
    | None => None
    end.
Proof.
  unfold analyze_tipping_points.
  destruct (temperature r) as [temps|], (ice_extent r) as [ice|];
    repeat (rewrite note_crossing_other by discriminate);
    try reflexivity;
    apply note_crossing_year; (discriminate || reflexivity).
Qed.

(** C8.  First-crossing semantics: on the synthetic trajectory
    (temperatures 1.0, 1.3, 1.6, 2.1 in 2025..2028) the report gives 2027
    for the 1.5 degree threshold; in general a reported year is the year of
    the first row at or above the threshold, and when no row reaches the
    threshold the report has no entry for it. *)
Theorem first_crossing_semantics :
  analyze_tipping_points synthetic !! "1.5C_threshold_year"%string = Some (Year 2027)
  /\
  (forall (r : results) (y : Z),
     analyze_tipping_points r !! "1.5C_threshold_year"%string = Some (Year y) ->
     exists temps i v yr,
       temperature r = Some temps /\ temps !! i = Some v /\ year r !! i = Some yr /\
       y = PyNum.py_int yr /\ 1.5 <= v /\
       forall j w, (j < i)%nat -> temps !! j = Some w -> w < 1.5)
  /\
  (forall (r : results) (temps : list R),
     temperature r = Some temps ->
     Forall (fun v => v < 1.5) temps ->
     analyze_tipping_points r !! "1.5C_threshold_year"%string = None).
Proof.
  split; [|split].
  - rewrite threshold_1_5_entry. simpl.
    repeat (rewrite first_year_where_cons; case_decide; try lra).
    simpl. rewrite PyNum.py_int_IZR. reflexivity.
  - intros r y. rewrite threshold_1_5_entry.
    destruct (temperature r) as [temps|]; [|discriminate].
    destruct (first_year_where _ temps (year r)) as [yr|] eqn:E; [|discriminate].
    simpl. intros [= <-].
    destruct (first_year_where_first _ _ _ _ E) as (i & v & Hc & Hy & HP & Hbefore).
    exists temps, i, v, yr. repeat split; try assumption.
    intros j w Hj Hw. specialize (Hbefore j w Hj Hw). simpl in Hbefore. lra.
  - intros r temps Ht Hall. rewrite threshold_1_5_entry, Ht.
    rewrite first_year_where_never; [reflexivity|].
    eapply Forall_impl; [exact Hall|]. simpl. intros v Hv. lra.
Qed.

(** A trajectory that stays below 1.5 degrees. *)
Definition cool : results :=
  mk_results [2025; 2026] (Some [1.0; 1.2]) None.

Lemma first_crossing_semantics_witness :
  analyze_tipping_points cool !! "1.5C_threshold_year"%string = None
  /\ exists temps i v yr,
       temperature synthetic = Some temps /\ temps !! i = Some v /\
       year synthetic !! i = Some yr /\ 2027%Z = PyNum.py_int yr /\ 1.5 <= v.
Proof.
  destruct first_crossing_semantics as (Hex & Hfirst & Hnone).
  split.
  - apply (Hnone cool [1.0; 1.2]); [reflexivity|].
    repeat constructor; lra.
  - destruct (Hfirst synthetic 2027%Z Hex) as (temps & i & v & yr & H1 & H2 & H3 & H4 & H5 & _).
    exists temps, i, v, yr. repeat split; assumption.
Defined.

End TippingPoints.

(* ===================================================================== *)
(** * utils/quantum/quantum_predictor.py: [QuantumEnhancedPredictor] *)
(* ===================================================================== *)

Module QuantumPredictor.

(** [self.climate_variables[variable]['base_uncertainty']] *)
Definition base_uncertainty (variable : string) : option R :=
  if (variable =? "temperature")%string then Some 0.15
  else if (variable =? "sea_level")%string then Some 15.0
  else if (variable =? "co2")%string then Some 2.5
  else if (variable =? "ice_extent")%string then Some 0.4
  else None.

(** The basis patterns of a variable, as functions of
    [time = np.linspace(0, 1, 100)[idx]], in dictionary order. *)
Definition trend_patterns (variable : string) : list (string * (R -> R)) :=
  if (variable =? "temperature")%string then
    [("linear"%string, fun time => time * 2.5);
     ("accelerating"%string, fun time => 2.0 * exp (1.5 * time) - 2.0);
     ("stabilizing"%string, fun time => 3.0 / (1 + exp (- 6 * (time - 0.5))));
     ("oscillating"%string, fun time => time * 2.0 + 0.3 * sin (time * 20))]
  else if (variable =? "sea_level")%string then
    [("linear"%string, fun time => time * 300);
     ("accelerating"%string, fun time => 200 * time ^ 2);
     ("exponential"%string, fun time => 100 * (exp (2 * time) - 1))]
  else if (variable =? "co2")%string then
    [("linear"%string, fun time => 415 + time * 150);
     ("stabilizing"%string, fun time => 415 + 200 * (1 - exp (- 3 * time)));
     ("accelerating"%string, fun time => 415 + 100 * time + 200 * time ^ 2)]
  else if (variable =? "ice_extent")%string then
    [("linear"%string, fun time => 10.5 - 8 * time);
     ("tipping"%string,
      fun time => 10.5 - 5 * time - 10 * PyNum.py_max 0 (time - 0.5) ^ 2);
     ("threshold"%string,
      fun time => 10.5 - 2 * time - 12 * PyNum.py_max 0 (time - 0.7))]
  else [].

(** The weights a scenario gives to the patterns of a variable; any other
    scenario weighs them equally. *)
Definition pattern_weights (variable scenario : string) : list (string * R) :=
  let named (names : list string) (ws : list R) := zip names ws in
  let t_names := ["linear"; "accelerating"; "stabilizing"; "oscillating"]%string in
  let c_names := ["linear"; "stabilizing"; "accelerating"]%string in
  let s_names := ["linear"; "accelerating"; "exponential"]%string in
  let i_names := ["linear"; "tipping"; "threshold"]%string in
  if (scenario =? "low_emissions")%string then
    if (variable =? "temperature")%string then named t_names [0.3; 0.1; 0.5; 0.1]
    else if (variable =? "co2")%string then named c_names [0.3; 0.6; 0.1]
    else if (variable =? "sea_level")%string then named s_names [0.6; 0.3; 0.1]
    else named i_names [0.7; 0.2; 0.1]
  else if (scenario =? "moderate")%string then
    if (variable =? "temperature")%string then named t_names [0.4; 0.3; 0.2; 0.1]
    else if (variable =? "co2")%string then named c_names [0.5; 0.3; 0.2]
    else if (variable =? "sea_level")%string then named s_names [0.4; 0.4; 0.2]
    else named i_names [0.4; 0.4; 0.2]
  else if (scenario =? "high_emissions")%string then
    if (variable =? "temperature")%string then named t_names [0.2; 0.6; 0.1; 0.1]
    else if (variable =? "co2")%string then named c_names [0.3; 0.1; 0.6]
    else if (variable =? "sea_level")%string then named s_names [0.2; 0.5; 0.3]
    else named i_names [0.1; 0.7; 0.2]
  else
    map (fun np => (fst np, 1.0 / INR (length (trend_patterns variable))))
        (trend_patterns variable).

Definition weight_of (ws : list (string * R)) (pattern : string) : R :=
  match find (fun nw => (fst nw =? pattern)%string) ws with
  | Some nw => snd nw
  | None => 0
  end.

Definition sum_list (l : list R) : R := fold_left Rplus l 0.

(** The rounding of an exact result to a Python float.  The index into the
    pattern arrays is an integer cut out of a rounded product, so it
    depends on the rounding; all that is asked of the rounding is that it
    is monotone and leaves the integers 0 to 99 as they are.  IEEE
    round-to-nearest is such a rounding, exact arithmetic
    ([exact_rounding]) another.  The pattern values themselves are
    computed over the reals. *)
Record rounding : Type := mk_rounding {
  fl :> R -> R;
  fl_monotone : forall x y : R, x <= y -> fl x <= fl y;
  fl_integer : forall k : Z, (0 <= k <= 99)%Z -> fl (IZR k) = IZR k
}.

Definition exact_rounding : rounding :=
  mk_rounding (fun x => x) (fun x y H => H) (fun k _ => eq_refl).

(** [_quantum_pattern_superposition], for a supported variable;
    [idx = int(time_fraction * 99)] selects the grid time
    [np.linspace(0, 1, 100)[idx]]. *)
Definition _quantum_pattern_superposition (fl : rounding)
    (variable scenario : string) (time_fraction : R) : R :=
  let patterns := trend_patterns variable in
  let idx := PyNum.py_int (fl (time_fraction * 99)) in
  let time := IZR idx / 99 in
  let weights := pattern_weights variable scenario in
  let total := sum_list (map snd weights) in
  sum_list (map (fun nf => weight_of weights (fst nf) / total * snd nf time)
                patterns).

(** The uncertainty profile [base * (arange(time_steps) + 1) ** factor]. *)
Definition quantum_uncertainty (base factor : R) (time_steps : nat) : list R :=
  map (fun t => base * Rpower (INR t + 1) factor) (seq 0 time_steps).

(** [_quantum_uncertainty_reduction], for a supported variable;
    [quantum_advantage] is the predictor's field. *)
Definition _quantum_uncertainty_reduction (quantum_advantage : R)
    (variable : string) (time_steps : nat) : option (list R) :=
  match base_uncertainty variable with
  | Some base =>
      let quantum_factor := 1.0 - quantum_advantage * 0.5 in
      Some (quantum_uncertainty base quantum_factor time_steps)
  | None => None
  end.

(** [_get_current_value] *)
Definition _get_current_value (variable : string) : R :=
  if (variable =? "temperature")%string then 1.2
  else if (variable =? "co2")%string then 417
  else if (variable =? "sea_level")%string then 0
  else if (variable =? "ice_extent")%string then 10.5
  else 0.

(** The value of step [i] of [generate_prediction]. *)
Definition predicted_value (fl : rounding) (climate_variable scenario : string)
    (years_to_predict : Z) (i : nat) : R :=
  let start_value := _get_current_value climate_variable in
  let time_fraction :=
    if (0 <? years_to_predict)%Z then fl (INR i / IZR years_to_predict) else 0 in
  if (i =? 0)%nat then start_value
  else
    let pattern_value :=
      _quantum_pattern_superposition fl climate_variable scenario time_fraction in
    let blend_factor := Rmin 1.0 (INR i / 10) in
    start_value * (1 - blend_factor) + pattern_value * blend_factor.

(** [generate_prediction]; [None] is Python's [None], [current_year] is
    [datetime.now().year]. *)
Definition generate_prediction (fl : rounding) (quantum_advantage : R)
    (current_year : Z)
    (climate_variable : string) (years_to_predict : Z) (scenario : string)
    : option (list prow) :=
  match _quantum_uncertainty_reduction quantum_advantage climate_variable
          (Z.to_nat (years_to_predict + 1)) with
  | None => None
  | Some uncertainties =>
      let years := PyNum.py_range current_year (current_year + years_to_predict + 1) in
      Some (imap (fun i '(y, u) =>
                    let v := predicted_value fl climate_variable scenario
                                             years_to_predict i in
                    mk_prow y v (v - 1.96 * u) (v + 1.96 * u) u)
                 (zip years uncertainties))
  end.

(** ** The index into the pattern arrays *)

Lemma py_int_range (x : R) (n : Z) :
  0 <= x <= IZR n -> (0 <= PyNum.py_int x <= n)%Z.
Proof.
  intros [Hlo Hhi]. unfold PyNum.py_int.
  destruct (decide (0 <= x)) as [_|Hn]; [|contradiction].
  pose proof (PyNum.floor_spec x) as [H1 H2].
  assert (IZR (-1) < IZR (PyNum.floor x)) as Ha by lra.
  assert (IZR (PyNum.floor x) < IZR (n + 1)) as Hb by (rewrite plus_IZR; lra).
  apply lt_IZR in Ha, Hb. lia.
Qed.

(** Whatever the rounding, every step of a prediction selects an index
    within the 100 entries of the pattern arrays. *)
Lemma pattern_index_in_range (fl : rounding) (years_to_predict : Z) (i : nat) :
  (0 < years_to_predict)%Z -> (Z.of_nat i <= years_to_predict)%Z ->
  let idx := PyNum.py_int (fl (fl (INR i / IZR years_to_predict) * 99)) in
  (0 <= idx <= 99)%Z.
Proof.
  intros Hn Hi. cbv zeta. apply py_int_range.
  assert (0 < IZR years_to_predict) as Hn' by (apply IZR_lt; exact Hn).
  assert (0 <= INR i <= IZR years_to_predict) as [Hi0 Hi1].
  { split; [apply pos_INR|]. rewrite INR_IZR_INZ. apply IZR_le. exact Hi. }
  assert (0 <= INR i / IZR years_to_predict <= 1) as [Hq0 Hq1].
  { split.
    - apply Rmult_le_pos; [exact Hi0 | left; apply Rinv_0_lt_compat; exact Hn'].
    - apply (Rmult_le_reg_r (IZR years_to_predict)); [exact Hn'|].
      unfold Rdiv. rewrite Rmult_assoc, Rinv_l by lra. lra. }
  pose proof (fl_monotone fl _ _ Hq0) as Hf0.
  pose proof (fl_monotone fl _ _ Hq1) as Hf1.
  rewrite (fl_integer fl 0) in Hf0 by lia.
  rewrite (fl_integer fl 1) in Hf1 by lia.
  set (tf := fl (INR i / IZR years_to_predict)) in *.
  assert (IZR 0 <= tf * 99) as Hp0 by lra.
  assert (tf * 99 <= IZR 99) as Hp1 by lra.
  apply (fl_monotone fl) in Hp0, Hp1.
  rewrite (fl_integer fl) in Hp0, Hp1 by lia.
  split; assumption.
Qed.

(** ** The uncertainty band *)

Lemma quantum_uncertainty_lookup (base factor : R) (n t : nat) :
  (t < n)%nat ->
  quantum_uncertainty base factor n !! t = Some (base * Rpower (INR t + 1) factor).
Proof.
  intros Ht. unfold quantum_uncertainty.
  rewrite list_lookup_fmap, lookup_seq_lt by exact Ht. reflexivity.
Qed.

Lemma quantum_uncertainty_length (base factor : R) (n : nat) :
  length (quantum_uncertainty base factor n) = n.
Proof. unfold quantum_uncertainty. rewrite length_map, length_seq. reflexivity. Qed.

(** [b * (t + 1) ** g] does not decrease with [t] when [b, g >= 0]. *)
Lemma uncertainty_step (b g : R) (t : nat) :
  0 <= b -> 0 <= g ->
  b * Rpower (INR t + 1) g <= b * Rpower (INR (S t) + 1) g.
Proof.
  intros Hb Hg. apply Rmult_le_compat_l; [exact Hb|].
  pose proof (pos_INR t) as Ht. rewrite S_INR.
  apply Rle_Rpower_l; [exact Hg | lra].
Qed.

Lemma quantum_uncertainty_lookup_inv (base factor : R) (n t : nat) (u : R) :
  quantum_uncertainty base factor n !! t = Some u ->
  u = base * Rpower (INR t + 1) factor.
Proof.
  unfold quantum_uncertainty. rewrite list_lookup_fmap.
  destruct (seq 0 n !! t) as [k|] eqn:E; [|discriminate].
  apply lookup_seq in E as [-> _]. simpl. intros [= <-]. reflexivity.
Qed.

(** C7.  For [b >= 0] and [g >= 0] the uncertainty profile is
    [b * (t + 1) ** g] at step [t] and does not decrease from one step to
    the next; and every row of a prediction carries the profile of its
    variable, with growth exponent [1 - quantum_advantage / 2], and the
    bounds [value -/+ 1.96 * uncertainty]. *)
Theorem uncertainty_band (b g : R) :
  0 <= b -> 0 <= g ->
  (forall (n t : nat) (u u' : R),
     quantum_uncertainty b g n !! t = Some u ->
     quantum_uncertainty b g n !! S t = Some u' ->
     u = b * Rpower (INR t + 1) g /\ u <= u')
  /\
  (forall (fl : rounding) (quantum_advantage : R) (current_year : Z)
          (variable : string) (years_to_predict : Z) (scenario : string)
          (predictions : list prow),
     generate_prediction fl quantum_advantage current_year variable
                         years_to_predict scenario = Some predictions ->
     exists base,
       base_uncertainty variable = Some base /\
       forall (t : nat) (r : prow), predictions !! t = Some r ->
         uncertainty r = base * Rpower (INR t + 1) (1.0 - quantum_advantage * 0.5) /\
         lower_bound r = value r - 1.96 * uncertainty r /\
         upper_bound r = value r + 1.96 * uncertainty r).
Proof.
  intros Hb Hg. split.
  - intros n t u u' Hu Hu'.
    apply quantum_uncertainty_lookup_inv in Hu, Hu'. subst u u'.
    split; [reflexivity | apply uncertainty_step; assumption].
  - intros rnd qa cy var years scen predictions.
    unfold generate_prediction, _quantum_uncertainty_reduction.
    destruct (base_uncertainty var) as [base|]; [|discriminate].
    intros [= <-]. exists base. split; [reflexivity|].
    intros t r. rewrite list_lookup_imap.
    destruct (zip _ _ !! t) as [[y u]|] eqn:E; [|discriminate].
    simpl. intros [= <-]. simpl.
    rewrite lookup_zip_with in E.
    destruct (PyNum.py_range cy (cy + years + 1) !! t) as [y'|]; [|discriminate].
    simpl in E.
    destruct (quantum_uncertainty base (1.0 - qa * 0.5) _ !! t) as [u'|] eqn:Eu;
      [|discriminate].
    simpl in E. injection E as <- <-.
    apply quantum_uncertainty_lookup_inv in Eu. subst u'.
    repeat split; reflexivity.
Qed.

Lemma uncertainty_band_witness :
  0.15 * Rpower (INR 0 + 1) 0.75 <= 0.15 * Rpower (INR 1 + 1) 0.75
  /\ exists predictions r,
       generate_prediction exact_rounding 0.5 2026 "temperature" 1 "moderate"
         = Some predictions /\
       predictions !! 1%nat = Some r /\
       uncertainty r = 0.15 * Rpower (INR 1 + 1) (1.0 - 0.5 * 0.5) /\
       lower_bound r = value r - 1.96 * uncertainty r /\
       upper_bound r = value r + 1.96 * uncertainty r.
Proof.
  destruct (uncertainty_band 0.15 0.75) as [Hmono Hrows]; [lra | lra|].
  split.
  - destruct (Hmono 2%nat 0%nat (0.15 * Rpower (INR 0 + 1) 0.75)
                    (0.15 * Rpower (INR 1 + 1) 0.75)) as [_ Hle];
      [reflexivity | reflexivity | exact Hle].
  - destruct (Hrows exact_rounding 0.5 2026%Z "temperature"%string 1%Z
                    "moderate"%string _ eq_refl)
      as (base & Hbase & Hat).
    injection Hbase as <-.
    eexists _, _. split; [reflexivity|]. split; [reflexivity|].
    apply (Hat 1%nat). reflexivity.
Defined.

End QuantumPredictor.

(* ===================================================================== *)
(** * Unknown ids at the entry points *)
(* ===================================================================== *)

Module ErrorHandling.

Import ClimateSimulator.

(** C4 (amended).  An unknown scenario id is not an error: both
    simulation entry points run [business_as_usual] in its place.  An
    unknown intervention id is not an error either: [simulate_intervention]
    returns [None] at once, before any baseline is generated (the random
    generator is left as it was). *)
Theorem unknown_ids_are_substituted
    (odeint : (R * R -> R -> outcome (R * R)) -> R * R -> list R
              -> outcome (list (R * R)))
    (current_year : Z) (scenario : string) (years : Z)
    (p : params) (ap : option (gmap string R))
    (intervention_type : string) (custom_parameters : option (gmap string R))
    (years_to_simulate : Z) (baseline_scenario : string)
    (clk : QuantumPrediction.clock) (g : QuantumPrediction.rng) :
  EMISSION_SCENARIOS !! scenario = None ->
  Interventions.intervention_effects !! intervention_type = None ->
  run_climate_simulation current_year scenario years p
    = run_climate_simulation current_year "business_as_usual" years p
  /\ run_advanced_climate_simulation odeint current_year scenario years ap
     = run_advanced_climate_simulation odeint current_year "business_as_usual" years ap
  /\ Interventions.simulate_intervention intervention_type custom_parameters
       years_to_simulate baseline_scenario clk g
     = (Returned None, g).
Proof.
  intros Hs Hi. split; [|split].
  - apply run_climate_simulation_fallback, Hs.
  - apply run_advanced_fallback, Hs.
  - unfold Interventions.simulate_intervention. rewrite Hi. reflexivity.
Qed.

Lemma warp_drive_scenario_unknown :
  EMISSION_SCENARIOS !! "warp_drive"%string = None.
Proof. reflexivity. Qed.

Lemma warp_drive_intervention_unknown :
  Interventions.intervention_effects !! "warp_drive"%string = None.
Proof. reflexivity. Qed.

Lemma unknown_ids_are_substituted_witness :
  run_climate_simulation 2026 "warp_drive" 80 DEFAULT_PARAMS
    = run_climate_simulation 2026 "business_as_usual" 80 DEFAULT_PARAMS
  /\ Interventions.simulate_intervention "warp_drive" None 30 "moderate"
       QuantumPrediction.clock_nov_2026 (fun _ => 0)
     = (Returned None, fun _ => 0).
Proof.
  destruct (unknown_ids_are_substituted euler_solver 2026 "warp_drive" 80
              DEFAULT_PARAMS None "warp_drive" None 30 "moderate"
              QuantumPrediction.clock_nov_2026 (fun _ => 0)
              warp_drive_scenario_unknown warp_drive_intervention_unknown)
    as (H1 & _ & H3).
  split; [exact H1 | exact H3].
Defined.

(** C4 as stated fails: with the unknown id ["warp_drive"] the basic
    simulation returns a frame, and the intervention simulator returns
    [None]; neither raises. *)
Lemma unknown_ids_do_not_raise :
  (exists df,
     run_climate_simulation 2026 "warp_drive" 80 DEFAULT_PARAMS = Returned df)
  /\ fst (Interventions.simulate_intervention "warp_drive" None 30 "moderate"
            QuantumPrediction.clock_nov_2026 (fun _ => 0))
     = Returned None.
Proof.
  split.
  - apply run_climate_simulation_returns. simpl. lra.
  - unfold Interventions.simulate_intervention.
    rewrite warp_drive_intervention_unknown. reflexivity.
Qed.

End ErrorHandling.

(* ===================================================================== *)
(** * utils/quantum_prediction.py: shape and bands of the predictions *)
(* ===================================================================== *)

Module PredictionFacts.

Import QuantumPrediction.

(** The five prediction loops share their skeleton. *)
Lemma future_rows_length (last_year n : Z) (row : nat -> Z -> prow) :
  length (future_rows last_year n row) = Z.to_nat n.
Proof.
  unfold future_rows, PyNum.py_range.
  rewrite length_imap, length_map, length_seq. f_equal. lia.
Qed.

Lemma future_rows_lookup (last_year n : Z) (row : nat -> Z -> prow) (i : nat) (r : prow) :
  future_rows last_year n row !! i = Some r ->
  (Z.of_nat i < n)%Z /\ r = row i (last_year + 1 + Z.of_nat i)%Z.
Proof.
  unfold future_rows, PyNum.py_range. rewrite list_lookup_imap, list_lookup_fmap.
  destruct (seq 0 _ !! i) as [k|] eqn:E; [|discriminate].
  apply lookup_seq in E as [-> Hi]. simpl. intros [= <-]. split; [lia | reflexivity].
Qed.

Lemma future_rows_lookup_lt (last_year n : Z) (row : nat -> Z -> prow) (i : nat) :
  (Z.of_nat i < n)%Z ->
  future_rows last_year n row !! i = Some (row i (last_year + 1 + Z.of_nat i)%Z).
Proof.
  intros Hi. unfold future_rows, PyNum.py_range.
  rewrite list_lookup_imap, list_lookup_fmap, lookup_seq_lt by lia. reflexivity.
Qed.

(** The loop that each prediction method runs on a frame that has its
    ["year"] and ["value"] columns. *)
Definition method_loop (climate_variable : string)
    : option (list hrow -> Z -> string -> list prow) :=
  if (climate_variable =? "temperature")%string then Some temperature_rows
  else if (climate_variable =? "sea_level")%string then Some sea_level_rows
  else if (climate_variable =? "co2")%string then Some co2_rows
  else if (climate_variable =? "ice_extent")%string then Some ice_extent_rows
  else if (climate_variable =? "extreme_events")%string
  then Some (fun h => extreme_events_rows (last_year_of h))
  else None.

Lemma simulation_methods_loop (v : string) m :
  simulation_methods v = Some m ->
  exists loop, method_loop v = Some loop /\
    forall h n scenario clk,
      m (with_year h) n scenario clk = Returned (loop h n scenario).
Proof.
  unfold simulation_methods, method_loop.
  repeat (destruct (v =? _)%string;
          [intros [= <-]; eexists; split; [reflexivity|]; intros; reflexivity|]).
  discriminate.
Qed.

Lemma method_loop_supported (v : string) :
  is_Some (simulation_methods v) -> is_Some (method_loop v).
Proof.
  intros [m Hm]. destruct (simulation_methods_loop v m Hm) as (loop & Hl & _).
  exists loop. exact Hl.
Qed.

Lemma method_loop_method (v : string) loop :
  method_loop v = Some loop ->
  exists m, simulation_methods v = Some m /\
    forall h n scenario clk,
      m (with_year h) n scenario clk = Returned (loop h n scenario).
Proof.
  unfold simulation_methods, method_loop.
  repeat (destruct (v =? _)%string;
          [intros [= <-]; eexists; split; [reflexivity|]; intros; reflexivity|]).
  discriminate.
Qed.

(** What every prediction loop returns, in terms of its row function. *)
Definition method_rows (m : list hrow -> Z -> string -> list prow) : Prop :=
  forall h n scenario, exists row,
    m h n scenario = future_rows (last_year_of h) n row /\
    forall i y, year (row i y) = y.

Ltac by_scenario :=
  repeat match goal with
         | |- context [(?s =? ?k)%string] => destruct (s =? k)%string
         end.

Lemma simulation_methods_rows (v : string) m :
  method_loop v = Some m -> method_rows m.
Proof.
  unfold method_loop.
  repeat (destruct (v =? _)%string; [intros [= <-]; intros h n scenario|]);
    try discriminate;
    unfold temperature_rows, sea_level_rows, co2_rows, ice_extent_rows,
      extreme_events_rows;
    by_scenario; eexists; (split; [reflexivity | intros i y; reflexivity]).
Qed.

Lemma quantum_rows_year v (l : list prow) :
  map year (map (quantum_row v) l) = map year l.
Proof. rewrite map_map. apply map_ext. intros r. reflexivity. Qed.

(** What [generate_prediction] does once it has a non-empty history. *)
Lemma generate_prediction_with_history qe v (r : hrow) (h : list hrow) n scenario clk g m :
  method_loop v = Some m ->
  fst (generate_prediction qe v (Some (with_year (r :: h))) n scenario clk g)
  = if qe then
      match m (r :: h) n scenario with
      | [] => Raised KeyError
      | _ => Returned (Some (_apply_quantum_advantage
                               (mk_table (m (r :: h) n scenario) false false) v))
      end
    else Returned (Some (mk_table (m (r :: h) n scenario) false false)).
Proof.
  intros Hm. destruct (method_loop_method v m Hm) as (m' & Hm' & Hrun).
  unfold generate_prediction, historical_or_simulated. rewrite Hm'.
  cbv beta iota delta [is_empty]. rewrite Hrun.
  destruct qe; simpl; [|reflexivity].
  destruct (m (r :: h) n scenario); reflexivity.
Qed.

(** Shape of a prediction.  For a supported variable, a history with at
    least one row and a horizon of at least one year, [generate_prediction]
    returns a frame with one row per year of the horizon, for the years
    that follow the last historical year, in order. *)
Theorem prediction_shape (quantum_enabled : bool) (climate_variable : string)
    (r : hrow) (h : list hrow) (years_to_predict : Z) (scenario : string)
    (clk : clock) (g : rng) :
  is_Some (simulation_methods climate_variable) ->
  (1 <= years_to_predict)%Z ->
  exists predictions,
    fst (generate_prediction quantum_enabled climate_variable (Some (with_year (r :: h)))
           years_to_predict scenario clk g) = Returned (Some predictions) /\
    length (rows predictions) = Z.to_nat years_to_predict /\
    Interventions.contiguous_from (last_year_of (r :: h) + 1) (rows predictions).
Proof.
  intros Hs Hn. destruct (method_loop_supported _ Hs) as [m Hm].
  rewrite (generate_prediction_with_history _ _ _ _ _ _ _ _ m Hm).
  destruct (simulation_methods_rows _ _ Hm (r :: h) years_to_predict scenario)
    as (row & Hrows & Hyear).
  assert (length (m (r :: h) years_to_predict scenario) = Z.to_nat years_to_predict)
    as Hlen by (rewrite Hrows; apply future_rows_length).
  assert (Interventions.contiguous_from (last_year_of (r :: h) + 1)
            (m (r :: h) years_to_predict scenario)) as Hcont.
  { intros i x Hx. rewrite Hrows in Hx.
    apply future_rows_lookup in Hx as [_ ->]. apply Hyear. }
  destruct quantum_enabled.
  - destruct (m (r :: h) years_to_predict scenario) as [|x l] eqn:E;
      [simpl in Hlen; lia|].
    eexists. split; [reflexivity|].
    change (rows (_apply_quantum_advantage (mk_table (x :: l) false false)
                                           climate_variable))
      with (map (quantum_row climate_variable) (x :: l)).
    split.
    + rewrite length_map. exact Hlen.
    + intros i y Hy. rewrite list_lookup_fmap in Hy.
      destruct ((x :: l) !! i) as [x'|] eqn:Ex; [|discriminate].
      injection Hy as <-. simpl. apply (Hcont i x' Ex).
  - eexists. split; [reflexivity|]. split; assumption.
Qed.

Lemma prediction_shape_witness :
  exists predictions,
    fst (generate_prediction true "co2" (Some (with_year [mk_hrow 2025 420; mk_hrow 2026 424]))
           3 "moderate" clock_nov_2026 (fun _ => 0)) = Returned (Some predictions) /\
    length (rows predictions) = 3%nat /\
    Interventions.contiguous_from 2027 (rows predictions).
Proof.
  apply (prediction_shape true "co2" (mk_hrow 2025 420) [mk_hrow 2026 424] 3
           "moderate" clock_nov_2026 (fun _ => 0)).
  - eexists. reflexivity.
  - lia.
Defined.

(** ** Uncertainty bands of temperature, sea level and CO2 *)

(** A row whose uncertainty grows with the square root of the step, with
    the 95% band around its value. *)
Definition band_row (c : R) (val : nat -> R) (i : nat) (y : Z) : prow :=
  let u := c * sqrt (INR i + 1) in
  mk_prow y (val i) (val i - 1.96 * u) (val i + 1.96 * u) u.

Lemma future_rows_ext last_year n (row row' : nat -> Z -> prow) :
  (forall i y, row i y = row' i y) ->
  future_rows last_year n row = future_rows last_year n row'.
Proof. intros H. unfold future_rows. apply imap_ext. intros i y _. apply H. Qed.

(** The value columns of the three methods, by scenario. *)
Definition temperature_value (last_value : R) (scenario : string) (i : nat) : R :=
  let '(trend, acceleration) :=
    if (scenario =? "low_emissions")%string then (0.01, 0.0001)
    else if (scenario =? "moderate")%string then (0.025, 0.0005)
    else if (scenario =? "high_emissions")%string then (0.04, 0.001)
    else (0.025, 0.0005) in
  last_value + py_sum (map (fun j => trend + acceleration * INR j) (seq 0 (i + 1))).

Definition sea_level_value (last_value : R) (scenario : string) (i : nat) : R :=
  let '(initial_rate, acceleration) :=
    if (scenario =? "low_emissions")%string then (3.0, 0.02)
    else if (scenario =? "moderate")%string then (3.5, 0.05)
    else if (scenario =? "high_emissions")%string then (4.0, 0.1)
    else (3.5, 0.05) in
  last_value + initial_rate * (INR i + 1) + 0.5 * acceleration * (INR i + 1) ^ 2.

Definition co2_value (last_value : R) (scenario : string) (i : nat) : R :=
  let '(trend, rate_change) :=
    if (scenario =? "low_emissions")%string then (1.5, -0.02)
    else if (scenario =? "moderate")%string then (2.5, 0.0)
    else if (scenario =? "high_emissions")%string then (3.5, 0.05)
    else (2.5, 0.0) in
  fold_left (fun acc j => acc + trend * (1 + rate_change * INR j))
            (seq 0 (i + 1)) last_value.

Lemma temperature_band h n scenario :
  exists c, 0 <= c /\
    temperature_rows h n scenario
    = future_rows (last_year_of h) n
        (band_row c (temperature_value (last_value_of h) scenario)).
Proof.
  unfold temperature_rows, temperature_value, band_row.
  by_scenario; eexists; (split; [|reflexivity]); lra.
Qed.

Lemma sea_level_band h n scenario :
  exists c, 0 <= c /\
    sea_level_rows h n scenario
    = future_rows (last_year_of h) n
        (band_row c (sea_level_value (last_value_of h) scenario)).
Proof.
  unfold sea_level_rows, sea_level_value, band_row.
  by_scenario; eexists; (split; [|reflexivity]); lra.
Qed.

Lemma co2_band h n scenario :
  exists c, 0 <= c /\
    co2_rows h n scenario
    = future_rows (last_year_of h) n
        (band_row c (co2_value (last_value_of h) scenario)).
Proof.
  unfold co2_rows, co2_value, band_row.
  by_scenario; eexists; (split; [|apply future_rows_ext; intros i y;
                                  rewrite plus_INR; reflexivity]); lra.
Qed.

(** The variables whose band is symmetric and never clipped. *)
Definition sqrt_band_variable (v : string) : Prop :=
  v = "temperature"%string \/ v = "sea_level"%string \/ v = "co2"%string.

Definition value_of (v : string) : R -> string -> nat -> R :=
  if (v =? "temperature")%string then temperature_value
  else if (v =? "sea_level")%string then sea_level_value
  else co2_value.

Lemma sqrt_band_method v :
  sqrt_band_variable v ->
  exists m, method_loop v = Some m /\
    forall h n scenario, exists c, 0 <= c /\
      m h n scenario
      = future_rows (last_year_of h) n
          (band_row c (value_of v (last_value_of h) scenario)).
Proof.
  intros [->|[->| ->]]; eexists; (split; [reflexivity|]); intros h n scenario.
  - apply temperature_band.
  - apply sea_level_band.
  - apply co2_band.
Qed.

(** The rows of a prediction of one of these variables, classical or
    quantum-enhanced: [shrink] is 1 or 0.7. *)
Lemma sqrt_band_rows qe v (r : hrow) (h : list hrow) n scenario clk g predictions :
  sqrt_band_variable v ->
  fst (generate_prediction qe v (Some (with_year (r :: h))) n scenario clk g)
    = Returned (Some predictions) ->
  exists c, 0 <= c /\
    forall i row, rows predictions !! i = Some row ->
      (Z.of_nat i < n)%Z /\
      let shrink := if qe then 0.7 else 1 in
      let val := value_of v (last_value_of (r :: h)) scenario i in
      let u := c * sqrt (INR i + 1) * shrink in
      row = mk_prow (last_year_of (r :: h) + 1 + Z.of_nat i) val
                    (val - 1.96 * u) (val + 1.96 * u) u.
Proof.
  intros Hv. destruct (sqrt_band_method v Hv) as (m & Hm & Hrows).
  rewrite (generate_prediction_with_history _ _ _ _ _ _ _ _ m Hm).
  destruct (Hrows (r :: h) n scenario) as (c & Hc & ->).
  assert ((v =? "ice_extent")%string = false) as Hice
    by (destruct Hv as [->|[->| ->]]; reflexivity).
  destruct qe.
  - destruct (future_rows _ _ _) as [|x l] eqn:E; [discriminate|].
    intros [= <-]. exists c. split; [exact Hc|]. intros i row Hrow.
    unfold _apply_quantum_advantage in Hrow. simpl in Hrow.
    change (quantum_row v x :: map (quantum_row v) l)
      with (map (quantum_row v) (x :: l)) in Hrow.
    rewrite <- E, list_lookup_fmap in Hrow.
    destruct (future_rows _ _ _ !! i) as [x'|] eqn:Ex; [|discriminate].
    apply future_rows_lookup in Ex as [Hi ->]. injection Hrow as <-.
    split; [exact Hi|].
    unfold quantum_row, band_row, quantum_reduction_factor. rewrite Hice. simpl.
    reflexivity.
  - intros [= <-]. exists c. split; [exact Hc|]. intros i row Hrow. simpl in Hrow.
    apply future_rows_lookup in Hrow as [Hi ->]. split; [exact Hi|].
    unfold band_row. simpl. rewrite Rmult_1_r. reflexivity.
Qed.

(** Bands of temperature, sea level and CO2 predictions, classical or
    quantum-enhanced: in every row the bounds are value -/+ 1.96 times an
    uncertainty that is not negative, so lower <= value <= upper, and the
    uncertainty does not decrease from one year to the next. *)
Theorem prediction_band_symmetric (quantum_enabled : bool) (climate_variable : string)
    (r : hrow) (h : list hrow) (years_to_predict : Z) (scenario : string)
    (clk : clock) (g : rng) (predictions : table) :
  sqrt_band_variable climate_variable ->
  fst (generate_prediction quantum_enabled climate_variable (Some (with_year (r :: h)))
         years_to_predict scenario clk g) = Returned (Some predictions) ->
  (forall i row, rows predictions !! i = Some row ->
     0 <= uncertainty row /\
     lower_bound row = value row - 1.96 * uncertainty row /\
     upper_bound row = value row + 1.96 * uncertainty row /\
     lower_bound row <= value row <= upper_bound row)
  /\
  (forall i row row', rows predictions !! i = Some row ->
     rows predictions !! S i = Some row' ->
     uncertainty row <= uncertainty row').
Proof.
  intros Hv Hrun.
  destruct (sqrt_band_rows _ _ _ _ _ _ _ _ _ Hv Hrun) as (c & Hc & Hrows).
  assert (0 <= (if quantum_enabled then 0.7 else 1)) as Hs
    by (destruct quantum_enabled; lra).
  split.
  - intros i row Hrow. destruct (Hrows i row Hrow) as [_ ->]. simpl.
    pose proof (sqrt_pos (INR i + 1)) as Hsq.
    assert (0 <= c * sqrt (INR i + 1) * (if quantum_enabled then 0.7 else 1)) as Hu.
    { apply Rmult_le_pos; [apply Rmult_le_pos|]; assumption. }
    repeat split; try reflexivity; lra.
  - intros i row row' Hrow Hrow'.
    destruct (Hrows i row Hrow) as [_ ->]. destruct (Hrows (S i) row' Hrow') as [_ ->].
    cbn [uncertainty]. apply Rmult_le_compat_r; [exact Hs|].
    apply Rmult_le_compat_l; [exact Hc|].
    apply sqrt_le_1_alt. rewrite S_INR. lra.
Qed.

Lemma prediction_band_symmetric_witness :
  exists predictions row,
    fst (generate_prediction true "co2" (Some (with_year [mk_hrow 2025 420; mk_hrow 2026 424]))
           3 "moderate" clock_nov_2026 (fun _ => 0)) = Returned (Some predictions) /\
    rows predictions !! 2%nat = Some row /\
    lower_bound row <= value row <= upper_bound row.
Proof.
  assert (exists predictions row,
            fst (generate_prediction true "co2"
                   (Some (with_year [mk_hrow 2025 420; mk_hrow 2026 424]))
                   3 "moderate" clock_nov_2026 (fun _ => 0))
              = Returned (Some predictions) /\
            rows predictions !! 2%nat = Some row)
    as (predictions & row & Hrun & Hrow)
    by (eexists _, _; split; reflexivity).
  exists predictions, row. split; [exact Hrun|]. split; [exact Hrow|].
  destruct (prediction_band_symmetric true "co2" (mk_hrow 2025 420)
              [mk_hrow 2026 424] 3 "moderate" clock_nov_2026 (fun _ => 0) predictions)
    as [Hband _].
  - right. right. reflexivity.
  - exact Hrun.
  - apply (Hband 2%nat row Hrow).
Defined.

(** ** The quantum band inside the classical one *)

Lemma classical_quantum_rows v (r : hrow) (h : list hrow) n scenario clk g g' cl q :
  fst (generate_prediction false v (Some (with_year (r :: h))) n scenario clk g)
    = Returned (Some cl) ->
  fst (generate_prediction true v (Some (with_year (r :: h))) n scenario clk g')
    = Returned (Some q) ->
  rows q = map (quantum_row v) (rows cl).
Proof.
  destruct (simulation_methods v) as [m'|] eqn:Hm';
    [|unfold generate_prediction; rewrite Hm'; discriminate].
  destruct (simulation_methods_loop v m' Hm') as (m & Hm & _).
  rewrite !(generate_prediction_with_history _ _ _ _ _ _ _ _ m Hm).
  intros [= <-]. destruct (m (r :: h) n scenario); [discriminate|].
  intros [= <-]. reflexivity.
Qed.

(** For temperature, sea level and CO2, the quantum-enhanced prediction
    of the same history has the years and values of the classical one, 0.7
    times its uncertainty, and a band that lies inside the classical
    band. *)
Theorem quantum_band_within_classical (climate_variable : string)
    (r : hrow) (h : list hrow) (years_to_predict : Z) (scenario : string)
    (clk : clock) (g g' : rng) (classical quantum : table) :
  sqrt_band_variable climate_variable ->
  fst (generate_prediction false climate_variable (Some (with_year (r :: h)))
         years_to_predict scenario clk g) = Returned (Some classical) ->
  fst (generate_prediction true climate_variable (Some (with_year (r :: h)))
         years_to_predict scenario clk g') = Returned (Some quantum) ->
  Forall2 (fun c q =>
             year q = year c /\ value q = value c /\
             uncertainty q = uncertainty c * 0.7 /\
             lower_bound c <= lower_bound q /\ upper_bound q <= upper_bound c)
          (rows classical) (rows quantum).
Proof.
  intros Hv Hc Hq.
  rewrite (classical_quantum_rows _ _ _ _ _ _ _ _ _ _ Hc Hq).
  destruct (sqrt_band_rows _ _ _ _ _ _ _ _ _ Hv Hc) as (c & Hc0 & Hrows).
  assert ((climate_variable =? "ice_extent")%string = false) as Hice
    by (destruct Hv as [->|[->| ->]]; reflexivity).
  apply Forall2_fmap_r, Forall_Forall2_diag, Forall_lookup.
  intros i a Ha. destruct (Hrows i a Ha) as [_ ->].
  unfold quantum_row, quantum_reduction_factor. rewrite Hice.
  cbn [year value uncertainty lower_bound upper_bound].
  pose proof (sqrt_pos (INR i + 1)) as Hsq.
  assert (0 <= c * sqrt (INR i + 1)) as Hu by (apply Rmult_le_pos; assumption).
  rewrite ?Rmult_1_r. simpl. repeat split; try reflexivity; lra.
Qed.

Lemma quantum_band_within_classical_witness :
  exists classical quantum,
    fst (generate_prediction false "temperature" (Some (with_year [mk_hrow 2026 1.2]))
           2 "moderate" clock_nov_2026 (fun _ => 0)) = Returned (Some classical) /\
    fst (generate_prediction true "temperature" (Some (with_year [mk_hrow 2026 1.2]))
           2 "moderate" clock_nov_2026 (fun _ => 0)) = Returned (Some quantum) /\
    Forall2 (fun c q => lower_bound c <= lower_bound q /\ upper_bound q <= upper_bound c)
            (rows classical) (rows quantum).
Proof.
  eexists _, _. split; [reflexivity|]. split; [reflexivity|].
  eapply Forall2_impl.
  - apply (quantum_band_within_classical "temperature" (mk_hrow 2026 1.2) [] 2
             "moderate" clock_nov_2026 (fun _ => 0) (fun _ => 0));
      [left; reflexivity | reflexivity | reflexivity].
  - simpl. intros c q (_ & _ & _ & H1 & H2). split; assumption.
Defined.

(** ** Extreme events: a negative lower bound after the quantum step *)

Lemma sqrt_24_bound (t : nat) : (24 <= t)%nat -> 4.86 <= sqrt (INR t).
Proof.
  intros Ht. apply le_INR in Ht.
  replace 4.86 with (sqrt (4.86 * 4.86)) by (apply sqrt_square; lra).
  apply sqrt_le_1_alt.
  rewrite (INR_IZR_INZ 24) in Ht. change (Z.of_nat 24) with 24%Z in Ht. lra.
Qed.

(** The classical extreme-events prediction clips its lower bound at 0,
    the quantum step recomputes it without the clip: under the moderate
    scenario, from the 24th predicted year on, the quantum-enhanced lower
    bound of the (positive) number of events is negative, where the
    classical one is 0. *)
Theorem extreme_events_negative_lower_bound
    (r : hrow) (h : list hrow) (years_to_predict : Z)
    (clk : clock) (g g' : rng) (classical quantum : table)
    (i : nat) (c q : prow) :
  fst (generate_prediction false "extreme_events" (Some (with_year (r :: h)))
         years_to_predict "moderate" clk g) = Returned (Some classical) ->
  fst (generate_prediction true "extreme_events" (Some (with_year (r :: h)))
         years_to_predict "moderate" clk g') = Returned (Some quantum) ->
  (23 <= i)%nat ->
  rows classical !! i = Some c ->
  rows quantum !! i = Some q ->
  lower_bound c = 0 /\ lower_bound q < 0 /\ 0 < value q /\ value q = value c.
Proof.
  intros Hc Hq Hi Hci Hqi.
  rewrite (classical_quantum_rows _ _ _ _ _ _ _ _ _ _ Hc Hq) in Hqi.
  rewrite list_lookup_fmap, Hci in Hqi. injection Hqi as <-.
  unfold generate_prediction in Hc. simpl in Hc. injection Hc as <-.
  simpl in Hci. apply future_rows_lookup in Hci as [_ ->].
  unfold quantum_row, quantum_reduction_factor.
  cbn [year value uncertainty lower_bound upper_bound String.eqb Ascii.eqb Bool.eqb].
  pose proof (sqrt_24_bound (i + 1) ltac:(lia)) as Hsq.
  assert (0 < 12 * (1 + 0.04) ^ (i + 1)) as He
    by (apply Rmult_lt_0_compat; [lra | apply pow_lt; lra]).
  set (e := 12 * (1 + 0.04) ^ (i + 1)) in *.
  set (s := sqrt (INR (i + 1))) in *.
  assert (0 < e * s) as Hes by (apply Rmult_lt_0_compat; lra).
  assert (4.86 * e <= e * s) as Hes' by nra.
  repeat split.
  - unfold PyNum.py_max. apply Rmax_left. nra.
  - nra.
  - exact He.
Qed.

Lemma extreme_events_negative_lower_bound_witness :
  exists classical quantum c q,
    fst (generate_prediction false "extreme_events" (Some (with_year [mk_hrow 2026 0]))
           24 "moderate" clock_nov_2026 (fun _ => 0)) = Returned (Some classical) /\
    fst (generate_prediction true "extreme_events" (Some (with_year [mk_hrow 2026 0]))
           24 "moderate" clock_nov_2026 (fun _ => 0)) = Returned (Some quantum) /\
    rows classical !! 23%nat = Some c /\ rows quantum !! 23%nat = Some q /\
    lower_bound c = 0 /\ lower_bound q < 0.
Proof.
  assert (exists classical quantum c q,
    fst (generate_prediction false "extreme_events" (Some (with_year [mk_hrow 2026 0]))
           24 "moderate" clock_nov_2026 (fun _ => 0)) = Returned (Some classical) /\
    fst (generate_prediction true "extreme_events" (Some (with_year [mk_hrow 2026 0]))
           24 "moderate" clock_nov_2026 (fun _ => 0)) = Returned (Some quantum) /\
    rows classical !! 23%nat = Some c /\ rows quantum !! 23%nat = Some q)
    as (classical & quantum & c & q & Hc & Hq & Hci & Hqi)
    by (eexists _, _, _, _; repeat split; reflexivity).
  exists classical, quantum, c, q.
  destruct (extreme_events_negative_lower_bound (mk_hrow 2026 0) [] 24
              clock_nov_2026 (fun _ => 0) (fun _ => 0) classical quantum 23%nat c q
              Hc Hq ltac:(lia) Hci Hqi) as (H1 & H2 & _).
  repeat split; assumption.
Defined.

(** ** Sea-ice extent: the floor *)

(** The trend, the uncertainty and the minimum extent of a scenario. *)
Definition ice_settings (scenario : string) : R * R * R :=
  if (scenario =? "low_emissions")%string then (-0.05, 0.2, 1.0)
  else if (scenario =? "moderate")%string then (-0.1, 0.3, 0.5)
  else if (scenario =? "high_emissions")%string then (-0.15, 0.5, 0.1)
  else (-0.1, 0.3, 0.5).

Definition ice_min_extent (scenario : string) : R := snd (ice_settings scenario).

Definition ice_row (last_value trend unc min_extent : R) (i : nat) (y : Z) : prow :=
  let t := INR i + 1 in
  let v := PyNum.py_max (last_value + trend * t) min_extent in
  let approaching_min :=
    PyNum.py_max 0 (1 - (v - min_extent) / (last_value - min_extent)) in
  let year_uncertainty := unc * sqrt t * (1 - 0.5 * approaching_min) in
  mk_prow y v (PyNum.py_max (v - 1.96 * year_uncertainty) 0)
          (v + 1.96 * year_uncertainty) year_uncertainty.

Lemma ice_rows h n scenario :
  ice_extent_rows h n scenario
  = future_rows (last_year_of h) n
      (ice_row (last_value_of h) (fst (fst (ice_settings scenario)))
               (snd (fst (ice_settings scenario))) (ice_min_extent scenario)).
Proof.
  unfold ice_extent_rows, ice_min_extent, ice_settings.
  by_scenario; reflexivity.
Qed.

Lemma ice_settings_signs scenario :
  fst (fst (ice_settings scenario)) < 0 /\
  0 < snd (fst (ice_settings scenario)) /\
  0 < ice_min_extent scenario.
Proof.
  unfold ice_min_extent, ice_settings. by_scenario; simpl; lra.
Qed.

Lemma ice_row_facts (L trend unc m : R) (i : nat) (y : Z) :
  trend < 0 -> 0 < unc -> L <> m ->
  let row := ice_row L trend unc m i y in
  m <= value row /\ value row <= Rmax L m /\
  0 <= uncertainty row /\
  upper_bound row = value row + 1.96 * uncertainty row /\
  lower_bound row = Rmax (value row - 1.96 * uncertainty row) 0.
Proof.
  intros Ht Hu HL. unfold ice_row. cbn [value uncertainty upper_bound lower_bound].
  unfold PyNum.py_max.
  pose proof (pos_INR i) as Hi.
  set (v := Rmax (L + trend * (INR i + 1)) m).
  assert (m <= v) as Hmv by apply Rmax_r.
  assert (v <= Rmax L m) as HvL.
  { unfold v. apply Rmax_lub; [|apply Rmax_r].
    apply Rle_trans with L; [nra | apply Rmax_l]. }
  assert (0 <= (v - m) / (L - m)) as Hratio.
  { destruct (Rlt_le_dec m L) as [Hlt|Hle].
    - apply Rmult_le_pos; [lra|]. apply Rlt_le, Rinv_0_lt_compat. lra.
    - assert (v = m) as ->.
      { unfold v. apply Rmax_right. nra. }
      unfold Rdiv. rewrite Rminus_diag. lra. }
  set (a := Rmax 0 (1 - (v - m) / (L - m))).
  assert (0 <= a <= 1) as Ha.
  { unfold a. split; [apply Rmax_l | apply Rmax_lub; lra]. }
  pose proof (sqrt_pos (INR i + 1)) as Hs.
  assert (0 <= unc * sqrt (INR i + 1)) as Hus by (apply Rmult_le_pos; lra).
  repeat split; try assumption; try reflexivity.
  apply Rmult_le_pos; lra.
Qed.

Lemma ice_row_decreasing (L trend unc m : R) (i : nat) (y y' : Z) :
  trend < 0 ->
  value (ice_row L trend unc m (S i) y') <= value (ice_row L trend unc m i y).
Proof.
  intros Ht. unfold ice_row. cbn [value]. unfold PyNum.py_max.
  rewrite S_INR. apply Rmax_lub; [|apply Rmax_r].
  apply Rle_trans with (L + trend * (INR i + 1)); [nra | apply Rmax_l].
Qed.

(** The sea-ice prediction, with or without the quantum step, for a
    history whose last value is not the scenario's minimum extent: every
    predicted extent is at least the minimum extent of the scenario and at
    most the larger of the last observed value and that minimum; the lower
    bound is never negative and never above the value; the upper bound is
    never below it; and the predicted extent never grows from one year to
    the next. *)
Theorem ice_extent_floor (quantum_enabled : bool)
    (r : hrow) (h : list hrow) (years_to_predict : Z) (scenario : string)
    (clk : clock) (g : rng) (predictions : table) :
  last_value_of (r :: h) <> ice_min_extent scenario ->
  fst (generate_prediction quantum_enabled "ice_extent" (Some (with_year (r :: h)))
         years_to_predict scenario clk g) = Returned (Some predictions) ->
  (forall i row, rows predictions !! i = Some row ->
     ice_min_extent scenario <= value row /\
     value row <= Rmax (last_value_of (r :: h)) (ice_min_extent scenario) /\
     0 <= lower_bound row /\ lower_bound row <= value row /\
     value row <= upper_bound row) /\
  (forall i row row', rows predictions !! i = Some row ->
     rows predictions !! S i = Some row' -> value row' <= value row).
Proof.
  intros HL.
  rewrite (generate_prediction_with_history _ "ice_extent" _ _ _ _ _ _
             ice_extent_rows eq_refl).
  rewrite ice_rows.
  destruct (ice_settings_signs scenario) as (Ht & Hu & Hm).
  set (row_of := ice_row _ _ _ _).
  assert (forall i row,
            (if quantum_enabled
             then map (quantum_row "ice_extent")
                      (future_rows (last_year_of (r :: h)) years_to_predict row_of)
             else future_rows (last_year_of (r :: h)) years_to_predict row_of)
              !! i = Some row ->
            exists y, value row = value (row_of i y) /\
              uncertainty row
              = uncertainty (row_of i y) * (if quantum_enabled then 0.7 else 1) /\
              lower_bound row = Rmax (value row - 1.96 * uncertainty row) 0 /\
              upper_bound row = value row + 1.96 * uncertainty row) as Hrow.
  { intros i row. destruct quantum_enabled.
    - rewrite list_lookup_fmap.
      destruct (future_rows _ _ _ !! i) as [c|] eqn:E; [|discriminate].
      apply future_rows_lookup in E as [_ ->]. intros [= <-].
      exists (last_year_of (r :: h) + 1 + Z.of_nat i)%Z. repeat split.
    - intros E. apply future_rows_lookup in E as [_ ->].
      exists (last_year_of (r :: h) + 1 + Z.of_nat i)%Z.
      split; [reflexivity|]. split; [lra|].
      destruct (ice_row_facts (last_value_of (r :: h)) _ _ _ i
                  (last_year_of (r :: h) + 1 + Z.of_nat i) Ht Hu HL)
        as (_ & _ & _ & H1 & H2).
      split; assumption. }
  intros Hret.
  assert (rows predictions
          = if quantum_enabled
            then map (quantum_row "ice_extent")
                     (future_rows (last_year_of (r :: h)) years_to_predict row_of)
            else future_rows (last_year_of (r :: h)) years_to_predict row_of)
    as ->.
  { destruct quantum_enabled.
    - destruct (future_rows _ _ _); [discriminate|]. injection Hret as <-. reflexivity.
    - injection Hret as <-. reflexivity. }
  split.
  - intros i row E. destruct (Hrow i row E) as (y & Hv & Hu' & Hlo & Hhi).
    destruct (ice_row_facts (last_value_of (r :: h)) _ _ _ i y Ht Hu HL)
      as (F1 & F2 & F3 & _ & _).
    fold row_of in F1, F2, F3.
    assert (0 <= uncertainty row)
      by (rewrite Hu'; apply Rmult_le_pos; [assumption | destruct quantum_enabled; lra]).
    rewrite Hlo, Hhi, Hv. repeat split; try assumption.
    + apply Rmax_r.
    + apply Rmax_lub; lra.
    + lra.
  - intros i row row' E E'.
    destruct (Hrow i row E) as (y & -> & _).
    destruct (Hrow (S i) row' E') as (y' & -> & _).
    apply ice_row_decreasing, Ht.
Qed.

Lemma ice_extent_floor_witness :
  exists predictions row,
    fst (generate_prediction true "ice_extent" (Some (with_year [mk_hrow 2026 4.2]))
           40 "high_emissions" clock_nov_2026 (fun _ => 0))
      = Returned (Some predictions) /\
    rows predictions !! 39%nat = Some row /\
    ice_min_extent "high_emissions" <= value row /\ 0 <= lower_bound row.
Proof.
  assert (exists predictions row,
    fst (generate_prediction true "ice_extent" (Some (with_year [mk_hrow 2026 4.2]))
           40 "high_emissions" clock_nov_2026 (fun _ => 0))
      = Returned (Some predictions) /\
    rows predictions !! 39%nat = Some row)
    as (predictions & row & Hrun & Hrow)
    by (eexists _, _; split; reflexivity).
  exists predictions, row. split; [exact Hrun|]. split; [exact Hrow|].
  assert (last_value_of [mk_hrow 2026 4.2] <> ice_min_extent "high_emissions") as HL.
  { unfold last_value_of, ice_min_extent. simpl.
    unfold mean, py_sum. simpl. lra. }
  destruct (ice_extent_floor true (mk_hrow 2026 4.2) [] 40 "high_emissions"
              clock_nov_2026 (fun _ => 0) predictions HL Hrun) as [Hall _].
  destruct (Hall _ _ Hrow) as (H1 & _ & H2 & _).
  split; assumption.
Defined.

(** ** Scenarios *)

Lemma fold_left_lt {A} (F G : R -> A -> R) (l : list A) (a b : R) :
  (forall x y j, x <= y -> F x j < G y j) ->
  l <> [] -> a <= b -> fold_left F l a < fold_left G l b.
Proof.
  intros HFG. revert a b. induction l as [|j l IH]; intros a b Hl Hab;
    [contradiction|].
  destruct l as [|j' l'].
  - simpl. apply HFG, Hab.
  - change (fold_left F (j' :: l') (F a j) < fold_left G (j' :: l') (G b j)).
    apply IH; [discriminate|]. apply Rlt_le, HFG, Hab.
Qed.

Lemma fold_left_Rplus_map {A} (f : A -> R) (l : list A) (a : R) :
  fold_left Rplus (map f l) a = fold_left (fun acc j => acc + f j) l a.
Proof. revert a. induction l as [|j l IH]; intros a; simpl; [reflexivity | apply IH]. Qed.

Lemma seq_succ_nonempty (i : nat) : seq 0 (i + 1) <> [].
Proof. rewrite Nat.add_1_r. discriminate. Qed.

Lemma value_of_scenarios (v : string) (last_value : R) (i : nat) :
  sqrt_band_variable v ->
  value_of v last_value "low_emissions" i < value_of v last_value "moderate" i
  /\ value_of v last_value "moderate" i < value_of v last_value "high_emissions" i.
Proof.
  intros [->|[->| ->]]; unfold value_of; simpl.
  - unfold temperature_value, py_sum. simpl (_ =? _)%string. cbv iota beta.
    rewrite !fold_left_Rplus_map.
    split; apply Rplus_lt_compat_l;
      (apply fold_left_lt; [|apply seq_succ_nonempty | lra]);
      intros x y j Hxy; pose proof (pos_INR j); nra.
  - unfold sea_level_value. simpl (_ =? _)%string. cbv iota beta.
    pose proof (pos_INR i). split; nra.
  - unfold co2_value. simpl (_ =? _)%string. cbv iota beta.
    split; (apply fold_left_lt; [|apply seq_succ_nonempty | lra]);
      intros x y j Hxy; pose proof (pos_INR j); nra.
Qed.

(** For temperature, sea level and CO2, predictions of one history under
    the three named scenarios are ordered year by year: the low-emissions
    value is below the moderate one, which is below the high-emissions
    one, with or without the quantum step. *)
Theorem scenario_ordering (climate_variable : string)
    (r : hrow) (h : list hrow) (years_to_predict : Z) (clk : clock)
    (qe_low qe_mod qe_high : bool) (g_low g_mod g_high : rng)
    (low moderate high : table) :
  sqrt_band_variable climate_variable ->
  fst (generate_prediction qe_low climate_variable (Some (with_year (r :: h)))
         years_to_predict "low_emissions" clk g_low) = Returned (Some low) ->
  fst (generate_prediction qe_mod climate_variable (Some (with_year (r :: h)))
         years_to_predict "moderate" clk g_mod) = Returned (Some moderate) ->
  fst (generate_prediction qe_high climate_variable (Some (with_year (r :: h)))
         years_to_predict "high_emissions" clk g_high) = Returned (Some high) ->
  forall i a b c,
    rows low !! i = Some a -> rows moderate !! i = Some b ->
    rows high !! i = Some c ->
    year a = year b /\ year b = year c /\ value a < value b /\ value b < value c.
Proof.
  intros Hv Hl Hm Hh i a b c Ha Hb Hc.
  destruct (sqrt_band_rows _ _ _ _ _ _ _ _ _ Hv Hl) as (cl & _ & Hlr).
  destruct (sqrt_band_rows _ _ _ _ _ _ _ _ _ Hv Hm) as (cm & _ & Hmr).
  destruct (sqrt_band_rows _ _ _ _ _ _ _ _ _ Hv Hh) as (ch & _ & Hhr).
  destruct (Hlr i a Ha) as [_ ->]. destruct (Hmr i b Hb) as [_ ->].
  destruct (Hhr i c Hc) as [_ ->]. cbn [year value].
  destruct (value_of_scenarios climate_variable (last_value_of (r :: h)) i Hv).
  repeat split; assumption.
Qed.

Lemma scenario_ordering_witness :
  exists low moderate high a b c,
    fst (generate_prediction true "co2" (Some (with_year [mk_hrow 2026 424]))
           5 "low_emissions" clock_nov_2026 (fun _ => 0)) = Returned (Some low) /\
    fst (generate_prediction true "co2" (Some (with_year [mk_hrow 2026 424]))
           5 "moderate" clock_nov_2026 (fun _ => 0)) = Returned (Some moderate) /\
    fst (generate_prediction true "co2" (Some (with_year [mk_hrow 2026 424]))
           5 "high_emissions" clock_nov_2026 (fun _ => 0)) = Returned (Some high) /\
    rows low !! 4%nat = Some a /\ rows moderate !! 4%nat = Some b /\
    rows high !! 4%nat = Some c /\ value a < value b /\ value b < value c.
Proof.
  assert (exists low moderate high a b c,
    fst (generate_prediction true "co2" (Some (with_year [mk_hrow 2026 424]))
           5 "low_emissions" clock_nov_2026 (fun _ => 0)) = Returned (Some low) /\
    fst (generate_prediction true "co2" (Some (with_year [mk_hrow 2026 424]))
           5 "moderate" clock_nov_2026 (fun _ => 0)) = Returned (Some moderate) /\
    fst (generate_prediction true "co2" (Some (with_year [mk_hrow 2026 424]))
           5 "high_emissions" clock_nov_2026 (fun _ => 0)) = Returned (Some high) /\
    rows low !! 4%nat = Some a /\ rows moderate !! 4%nat = Some b /\
    rows high !! 4%nat = Some c)
    as (low & moderate & high & a & b & c & Hl & Hm & Hh & Ha & Hb & Hc)
    by (eexists _, _, _, _, _, _; repeat split; reflexivity).
  exists low, moderate, high, a, b, c.
  destruct (scenario_ordering "co2" (mk_hrow 2026 424) [] 5 clock_nov_2026
              true true true (fun _ => 0) (fun _ => 0) (fun _ => 0)
              low moderate high (or_intror (or_intror eq_refl)) Hl Hm Hh
              4%nat a b c Ha Hb Hc) as (_ & _ & H1 & H2).
  repeat split; assumption.
Defined.

Lemma method_unknown_scenario (v : string) m (d : history) n
    (scenario : string) (clk : clock) :
  simulation_methods v = Some m ->
  scenario <> "low_emissions"%string -> scenario <> "moderate"%string ->
  scenario <> "high_emissions"%string ->
  m d n scenario clk = m d n "moderate"%string clk.
Proof.
  intros Hm H1 H2 H3.
  apply String.eqb_neq in H1, H2, H3.
  unfold simulation_methods in Hm.
  repeat (destruct (v =? _)%string; [injection Hm as <-|]); try discriminate;
    unfold _simulate_temperature_prediction, _simulate_sea_level_prediction,
      _simulate_co2_prediction, _simulate_ice_extent_prediction,
      _simulate_extreme_events_prediction;
    destruct d as [h|ys|k]; try reflexivity; cbn [year_and_value obind];
    unfold temperature_rows, sea_level_rows, co2_rows, ice_extent_rows,
      extreme_events_rows;
    rewrite H1, H2, H3; reflexivity.
Qed.

(** A scenario name that is none of the three known ones never fails and
    is never reported: for every variable, history and flag the call
    behaves exactly as the same call with the moderate scenario. *)
Theorem unknown_scenario_is_moderate (quantum_enabled : bool)
    (climate_variable : string) (historical_data : option history)
    (years_to_predict : Z) (scenario : string) (clk : clock) (g : rng) :
  scenario <> "low_emissions"%string -> scenario <> "moderate"%string ->
  scenario <> "high_emissions"%string ->
  generate_prediction quantum_enabled climate_variable historical_data
    years_to_predict scenario clk g
  = generate_prediction quantum_enabled climate_variable historical_data
      years_to_predict "moderate" clk g.
Proof.
  intros H1 H2 H3. unfold generate_prediction.
  destruct (simulation_methods climate_variable) as [m|] eqn:Hm; [|reflexivity].
  destruct (historical_or_simulated historical_data climate_variable clk g)
    as [d g0].
  rewrite (method_unknown_scenario _ m d years_to_predict scenario clk Hm H1 H2 H3).
  reflexivity.
Qed.

Lemma unknown_scenario_is_moderate_witness :
  generate_prediction true "sea_level" (Some (with_year [mk_hrow 2026 95])) 3 "net_zero"
    clock_nov_2026 (fun _ => 0)
  = generate_prediction true "sea_level" (Some (with_year [mk_hrow 2026 95])) 3 "moderate"
      clock_nov_2026 (fun _ => 0).
Proof.
  apply (unknown_scenario_is_moderate true "sea_level" (Some (with_year [mk_hrow 2026 95])) 3
           "net_zero" clock_nov_2026 (fun _ => 0)); discriminate.
Defined.

(** ** A horizon without years *)

Lemma future_rows_empty (last_year n : Z) (row : nat -> Z -> prow) :
  (n <= 0)%Z -> future_rows last_year n row = [].
Proof.
  intros Hn. apply length_zero_iff_nil. rewrite future_rows_length. lia.
Qed.

Lemma simulated_history_nonempty (v : string) (clk : clock) (g : rng) :
  month_ends clk <> [] ->
  exists r h, fst (_generate_simulated_historical_data v clk g) = r :: h.
Proof.
  intros Hd. unfold _generate_simulated_historical_data, random_normal.
  destruct (month_ends clk) as [|d ds]; [contradiction|].
  by_scenario; simpl; eexists _, _; reflexivity.
Qed.

Lemma empty_horizon_run (qe : bool) (v : string) (historical_data : option (list hrow))
    (n : Z) (scenario : string) (clk : clock) (g : rng) :
  is_Some (simulation_methods v) ->
  (n <= 0)%Z ->
  (historical_data = None \/ historical_data = Some [] -> month_ends clk <> []) ->
  fst (generate_prediction qe v (with_year <$> historical_data) n scenario clk g)
  = if qe then Raised KeyError else Returned (Some (mk_table [] false false)).
Proof.
  intros Hs Hn Hclk. destruct Hs as [m' Hm'].
  destruct (simulation_methods_loop v m' Hm') as (m & Hm & Hrun).
  unfold generate_prediction. rewrite Hm'.
  pose proof (simulation_methods_rows v m Hm) as Hrows.
  assert (exists r h,
            fst (historical_or_simulated (with_year <$> historical_data) v clk g)
            = with_year (r :: h)) as (r & h & Hh).
  { unfold historical_or_simulated.
    destruct historical_data as [[|r h]|]; cbn [fmap option_fmap option_map is_empty].
    - destruct (simulated_history_nonempty v clk g) as (r & h & Hh);
        [apply Hclk; right; reflexivity|].
      destruct (_generate_simulated_historical_data v clk g) as [h0 g0].
      simpl in Hh. subst h0. exists r, h. reflexivity.
    - exists r, h. reflexivity.
    - destruct (simulated_history_nonempty v clk g) as (r & h & Hh);
        [apply Hclk; left; reflexivity|].
      destruct (_generate_simulated_historical_data v clk g) as [h0 g0].
      simpl in Hh. subst h0. exists r, h. reflexivity. }
  destruct (historical_or_simulated (with_year <$> historical_data) v clk g)
    as [d g0].
  simpl in Hh. subst d. cbv beta iota delta [is_empty]. rewrite Hrun.
  destruct (Hrows (r :: h) n scenario) as (row & -> & _).
  rewrite future_rows_empty by exact Hn. destruct qe; reflexivity.
Qed.

(** Asking for no years (or a negative number of them) of a supported
    variable: without the quantum step the result is a frame without rows;
    with it the call raises [KeyError], since the frame built from an empty
    list has no ["uncertainty"] column.  This holds with a history that
    has its ["year"] and ["value"] columns, and without one as soon as the
    clock gives simulated months. *)
Theorem empty_horizon (climate_variable : string)
    (historical_data : option (list hrow)) (years_to_predict : Z)
    (scenario : string) (clk : clock) (g : rng) :
  is_Some (simulation_methods climate_variable) ->
  (years_to_predict <= 0)%Z ->
  (historical_data = None \/ historical_data = Some [] -> month_ends clk <> []) ->
  fst (generate_prediction true climate_variable (with_year <$> historical_data)
         years_to_predict scenario clk g) = Raised KeyError /\
  fst (generate_prediction false climate_variable (with_year <$> historical_data)
         years_to_predict scenario clk g)
  = Returned (Some (mk_table [] false false)).
Proof.
  intros Hv Hn Hclk.
  split; [apply (empty_horizon_run true) | apply (empty_horizon_run false)];
    assumption.
Qed.

Lemma empty_horizon_witness :
  fst (generate_prediction true "temperature" None 0 "moderate"
         clock_nov_2026 (fun _ => 0)) = Raised KeyError /\
  fst (generate_prediction false "temperature" None 0 "moderate"
         clock_nov_2026 (fun _ => 0))
  = Returned (Some (mk_table [] false false)).
Proof.
  apply (empty_horizon "temperature" None 0 "moderate" clock_nov_2026 (fun _ => 0)).
  - eexists. reflexivity.
  - lia.
  - intros _. discriminate.
Defined.

Lemma known_intervention_first_variable (id : string) info :
  Interventions.intervention_effects !! id = Some info ->
  exists e rest,
    Interventions.effects info = ("co2"%string, e) :: rest.
Proof.
  intros H. unfold Interventions.intervention_effects in H.
  apply elem_of_list_to_map_2 in H.
  repeat (apply elem_of_cons in H as [H|H];
          [injection H as -> ->; eexists _, _; reflexivity|]).
  apply elem_of_nil in H. contradiction.
Qed.

(** The intervention simulator asks its quantum-enabled predictor for the
    baselines, so for every known intervention a simulation over no years
    (or a negative number) raises [KeyError] instead of returning an empty
    result. *)
Theorem simulate_intervention_empty_horizon (intervention_type : string)
    (custom_parameters : option (gmap string R)) (years_to_simulate : Z)
    (baseline_scenario : string) (clk : clock) (g : rng) :
  is_Some (Interventions.intervention_effects !! intervention_type) ->
  (years_to_simulate <= 0)%Z ->
  month_ends clk <> [] ->
  fst (Interventions.simulate_intervention intervention_type custom_parameters
         years_to_simulate baseline_scenario clk g) = Raised KeyError.
Proof.
  intros [info Hinfo] Hn Hclk. unfold Interventions.simulate_intervention.
  rewrite Hinfo.
  destruct (known_intervention_first_variable _ _ Hinfo) as (e & rest & ->).
  cbn [map fst Interventions.generate_baselines].
  pose proof (empty_horizon_run true "co2" None years_to_simulate
                baseline_scenario clk g ltac:(eexists; reflexivity) Hn
                ltac:(intros _; exact Hclk)) as Hrun.
  change (with_year <$> None) with (@None history) in Hrun.
  destruct (generate_prediction true "co2" None years_to_simulate
              baseline_scenario clk g) as [o g0].
  simpl in Hrun. subst o. reflexivity.
Qed.

Lemma simulate_intervention_empty_horizon_witness :
  fst (Interventions.simulate_intervention "reforestation" None 0 "moderate"
         clock_nov_2026 (fun _ => 0)) = Raised KeyError.
Proof.
  apply (simulate_intervention_empty_horizon "reforestation" None 0 "moderate"
           clock_nov_2026 (fun _ => 0)).
  - eexists. reflexivity.
  - lia.
  - discriminate.
Defined.

End PredictionFacts.

(** * Intervention timing ([utils/climate_simulator.py])

    [generate_intervention_simulation] and [compare_intervention_strategies]
    run the differential-equation model twice: a base scenario up to the
    intervention year with the function's own default parameters, then
    strong mitigation with a copy of [DEFAULT_PARAMS], the dictionary of the
    annual-increment model, which lacks keys that the
    differential-equation model reads. *)

Module InterventionTiming.
Import ClimateSimulator.

(** [DEFAULT_PARAMS], as the dictionary it is. *)
Definition params_dict (p : params) : gmap string R :=
  <["initial_temperature"%string := initial_temperature p]>
  (<["co2_sensitivity"%string := co2_sensitivity p]>
  (<["climate_sensitivity"%string := climate_sensitivity p]>
  (<["ocean_heat_capacity"%string := ocean_heat_capacity p]>
  (<["baseline_co2"%string := baseline_co2 p]>
  (<["current_co2"%string := current_co2 p]> ∅))))).

(** The frames of this module: the model's columns and, once
    [generate_intervention_simulation] has added it, ["intervention"]. *)
Record timed_frame : Type := mk_timed_frame {
  frame : adv_frame;
  intervention : list bool
}.

(** [pd.DataFrame()] and [.empty] *)
Definition empty_frame : adv_frame := mk_adv_frame [] [] [] [] [] [] [].

Definition is_empty (f : adv_frame) : bool :=
  match adv_year_col f with [] => true | _ => false end.

(** [pd.concat([a, b])] *)
Definition concat_frames (a b : adv_frame) : adv_frame :=
  mk_adv_frame (adv_year_col a ++ adv_year_col b) (adv_co2 a ++ adv_co2 b)
    (adv_temperature a ++ adv_temperature b)
    (adv_deep_ocean_temperature a ++ adv_deep_ocean_temperature b)
    (adv_sea_level_rise a ++ adv_sea_level_rise b)
    (adv_arctic_ice a ++ adv_arctic_ice b)
    (adv_extreme_weather_index a ++ adv_extreme_weather_index b).

(** What [compare_intervention_strategies] returns. *)
Record strategies : Type := mk_strategies {
  early : timed_frame;
  medium : timed_frame;
  late : timed_frame;
  none : adv_frame
}.

Section PySolver.

(** [scipy.integrate.odeint], as in [ClimateSimulator]. *)
Variable odeint :
  (R * R -> R -> outcome (R * R)) -> R * R -> list R -> outcome (list (R * R)).

(** [generate_intervention_simulation]; [current_year] is
    [datetime.now().year]. *)
Definition generate_intervention_simulation (current_year : Z)
    (base_scenario : string) (intervention_year : Z) : outcome timed_frame :=
  let years_before := (intervention_year - current_year)%Z in
  let years_before := if (years_before <? 0)%Z then 0%Z else years_before in
  let* base_results :=
    if (0 <? years_before)%Z
    then run_advanced_climate_simulation odeint current_year base_scenario
           years_before None
    else Returned empty_frame in
  let* intervention_params :=
    if is_empty base_results then Returned (params_dict DEFAULT_PARAMS)
    else
      let* temperature := or_raise (last (adv_temperature base_results)) IndexError in
      let* co2 := or_raise (last (adv_co2 base_results)) IndexError in
      Returned (<["current_co2"%string := co2]>
                (<["initial_temperature"%string := temperature]>
                 (params_dict DEFAULT_PARAMS))) in
  let future_years := (80 - years_before)%Z in
  let* future_results :=
    run_advanced_climate_simulation odeint current_year "strong_mitigation"
      future_years (Some intervention_params) in
  let combined_results :=
    if is_empty base_results then future_results
    else concat_frames base_results future_results in
  Returned (mk_timed_frame combined_results
              (map (fun y => (y =? intervention_year)%Z)
                   (adv_year_col combined_results))).

(** [compare_intervention_strategies] *)
Definition compare_intervention_strategies (current_year : Z) : outcome strategies :=
  let early_year := (current_year + 5)%Z in
  let medium_year := (current_year + 15)%Z in
  let late_year := (current_year + 25)%Z in
  let* early_results :=
    generate_intervention_simulation current_year "business_as_usual" early_year in
  let* medium_results :=
    generate_intervention_simulation current_year "business_as_usual" medium_year in
  let* late_results :=
    generate_intervention_simulation current_year "business_as_usual" late_year in
  let* no_intervention :=
    run_advanced_climate_simulation odeint current_year "business_as_usual" 80 None in
  Returned (mk_strategies early_results medium_results late_results no_intervention).

(** ** The mitigation run cannot start *)

Lemma mitigation_params_lookup (p : gmap string R) :
  p = params_dict DEFAULT_PARAMS
  \/ (exists co2 temperature,
        p = <["current_co2"%string := co2]>
            (<["initial_temperature"%string := temperature]>
             (params_dict DEFAULT_PARAMS))) ->
  p !! "deep_ocean_temperature"%string = None /\
  is_Some (p !! "current_co2"%string) /\
  is_Some (p !! "initial_temperature"%string).
Proof.
  intros [->|(co2 & temperature & ->)]; unfold params_dict;
    repeat split;
    repeat (rewrite lookup_insert; case_decide;
            try discriminate; try congruence; eauto).
Qed.

Lemma strong_mitigation_run (current_year years : Z) (p : gmap string R) :
  p !! "deep_ocean_temperature"%string = None ->
  is_Some (p !! "current_co2"%string) ->
  is_Some (p !! "initial_temperature"%string) ->
  run_advanced_climate_simulation odeint current_year "strong_mitigation" years (Some p)
  = Raised (if (years + 1 <? 0)%Z then ValueError else KeyError).
Proof.
  intros Hd [c Hc] [T HT]. unfold run_advanced_climate_simulation.
  change (effective_scenario "strong_mitigation") with "strong_mitigation"%string.
  assert (EMISSION_SCENARIOS !! "strong_mitigation"%string
          = Some (mk_scenario 0.5 None None)) as Hs by reflexivity.
  rewrite Hs. change (default _ (Some p)) with p. cbn [or_raise obind].
  destruct (years + 1 <? 0)%Z; [reflexivity|].
  unfold reads. rewrite Hc, HT, Hd. cbn [or_raise obind].
  destruct (co2_levels_loop_returns "strong_mitigation" _ current_year
              (PyNum.py_range 1 (years + 1)) c Hs) as (tl & -> & _).
  reflexivity.
Qed.

Lemma intervention_run_raises (current_year : Z) (base_scenario : string)
    (intervention_year : Z) :
  exists e,
    generate_intervention_simulation current_year base_scenario intervention_year
    = Raised e.
Proof.
  unfold generate_intervention_simulation.
  set (years_before := if (intervention_year - current_year <? 0)%Z
                       then 0%Z else (intervention_year - current_year)%Z).
  destruct (if (0 <? years_before)%Z
            then run_advanced_climate_simulation odeint current_year base_scenario
                   years_before None
            else Returned empty_frame) as [base|e]; [|exists e; reflexivity].
  cbn [obind].
  destruct (is_empty base).
  - cbn [obind].
    destruct (mitigation_params_lookup (params_dict DEFAULT_PARAMS) (or_introl eq_refl))
      as (Hd & Hc & HT).
    rewrite (strong_mitigation_run _ _ _ Hd Hc HT). eexists. reflexivity.
  - destruct (last (adv_temperature base)) as [temperature|];
      [|eexists; reflexivity].
    destruct (last (adv_co2 base)) as [co2|]; [|eexists; reflexivity].
    cbn [or_raise obind].
    destruct (mitigation_params_lookup _
                (or_intror (ex_intro _ co2 (ex_intro _ temperature eq_refl))))
      as (Hd & Hc & HT).
    rewrite (strong_mitigation_run _ _ _ Hd Hc HT). eexists. reflexivity.
Qed.

(** Whatever the solver, the clock and the arguments,
    [generate_intervention_simulation] does not return: its mitigation run
    is given a copy of [DEFAULT_PARAMS], which has no
    ["deep_ocean_temperature"], so it raises before the solver is called
    (unless the base run has raised already).  With an intervention year
    that is not in the future the exception is [KeyError].  Hence
    [compare_intervention_strategies] does not return either. *)
Theorem intervention_simulation_never_returns (current_year : Z)
    (base_scenario : string) (intervention_year : Z) :
  (exists e,
     generate_intervention_simulation current_year base_scenario intervention_year
     = Raised e) /\
  ((intervention_year <= current_year)%Z ->
   generate_intervention_simulation current_year base_scenario intervention_year
   = Raised KeyError) /\
  (exists e, compare_intervention_strategies current_year = Raised e).
Proof.
  split; [apply intervention_run_raises|]. split.
  - intros Hy. unfold generate_intervention_simulation.
    assert ((if (intervention_year - current_year <? 0)%Z
             then 0%Z else (intervention_year - current_year)%Z) = 0%Z) as ->
      by (destruct (Z.ltb_spec (intervention_year - current_year) 0); lia).
    cbn [Z.ltb Z.compare obind is_empty empty_frame adv_year_col].
    destruct (mitigation_params_lookup (params_dict DEFAULT_PARAMS) (or_introl eq_refl))
      as (Hd & Hc & HT).
    rewrite (strong_mitigation_run _ _ _ Hd Hc HT). reflexivity.
  - unfold compare_intervention_strategies.
    destruct (intervention_run_raises current_year "business_as_usual"
                (current_year + 5)) as [e ->].
    exists e. reflexivity.
Qed.

End PySolver.

End InterventionTiming.

(** * More on the two simulations of [utils/climate_simulator.py] *)

Module SimulationFacts.
Import ClimateSimulator.

(** Rounding to [n] decimals does not cross a number with [n] decimals. *)
Lemma py_round_le_grid (x : R) (n : nat) (k : Z) :
  x <= IZR k / 10 ^ n -> PyNum.py_round x n <= IZR k / 10 ^ n.
Proof.
  intros Hx. unfold PyNum.py_round.
  pose proof (PyNum.pow10_pos n) as Hp.
  pose proof (PyNum.round_half_even_close (x * 10 ^ n)) as [_ Hhi].
  assert (x * 10 ^ n <= IZR k) as Hs.
  { apply (Rmult_le_compat_r (10 ^ n)) in Hx; [|lra].
    unfold Rdiv in Hx. rewrite Rmult_assoc, Rinv_l, Rmult_1_r in Hx by lra.
    exact Hx. }
  assert (IZR (PyNum.round_half_even (x * 10 ^ n)) < IZR (k + 1)) as Hz
    by (rewrite plus_IZR; lra).
  apply lt_IZR in Hz.
  assert (IZR (PyNum.round_half_even (x * 10 ^ n)) <= IZR k) as Hr
    by (apply IZR_le; lia).
  unfold Rdiv. apply Rmult_le_compat_r; [|exact Hr].
  left. apply Rinv_0_lt_compat. exact Hp.
Qed.

Lemma clamped_index_range (w : R) :
  0 <= PyNum.py_round (Rmin 100 (PyNum.py_max 0 w)) 1 <= 100.
Proof.
  unfold PyNum.py_max.
  assert (0 <= Rmin 100 (Rmax 0 w) <= 100) as [Hlo Hhi].
  { split; [apply Rmin_glb; [lra | apply Rmax_l] | apply Rmin_l]. }
  split; [apply PyNum.py_round_nonneg, Hlo|].
  replace 100 with (IZR 1000 / 10 ^ 1) at 2 by (simpl; lra).
  apply py_round_le_grid. simpl. lra.
Qed.

Lemma adv_ice_extent_nonneg (initial_temperature temp : R) :
  0 <= adv_ice_extent_at initial_temperature temp.
Proof.
  unfold adv_ice_extent_at. apply PyNum.py_round_nonneg.
  unfold PyNum.py_max. cbv zeta.
  match goal with
  | |- context [Rmax 0 ?x] => pose proof (Rmax_l 0 x) as Hm; set (m := Rmax 0 x) in *
  end.
  case_decide; lra.
Qed.

(** What a returned frame of the differential-equation model is made of. *)
Lemma run_advanced_inv odeint cy s years (params : option (gmap string R)) adf :
  run_advanced_climate_simulation odeint cy s years params = Returned adf ->
  exists d c T0 tl ys,
    EMISSION_SCENARIOS !! effective_scenario s = Some d /\
    (0 <= years + 1)%Z /\
    default default_adv_params params !! "current_co2"%string = Some c /\
    default default_adv_params params !! "initial_temperature"%string = Some T0 /\
    co2_levels_loop (effective_scenario s) d cy (PyNum.py_range 1 (years + 1)) c
      = Returned tl /\
    adf = mk_adv_frame (PyNum.py_range cy (cy + years + 1))
            (c :: tl)
            (map (fun x => PyNum.py_round x 2) (map fst ys))
            (map (fun x => PyNum.py_round (snd x) 2) ys)
            (adv_sea_levels T0 0 0 (map fst ys))
            (map (adv_ice_extent_at T0) (map fst ys))
            (map (adv_extreme_weather_at T0) (map fst ys)).
Proof.
  unfold run_advanced_climate_simulation.
  set (p := default default_adv_params params).
  destruct (EMISSION_SCENARIOS !! effective_scenario s) as [d|]; [|discriminate].
  cbn [or_raise obind].
  destruct (Z.ltb_spec (years + 1) 0); [discriminate|].
  unfold reads.
  destruct (p !! "current_co2"%string) as [c|]; [|discriminate].
  cbn [or_raise obind].
  destruct (co2_levels_loop _ _ _ _ _) as [tl|] eqn:Etl; [|discriminate].
  cbn [obind].
  destruct (p !! "initial_temperature"%string) as [T0|]; [|discriminate].
  cbn [or_raise obind].
  destruct (p !! "deep_ocean_temperature"%string) as [Td|]; [|discriminate].
  cbn [or_raise obind].
  destruct (odeint _ _ _) as [ys|]; [|discriminate]. cbn [obind].
  destruct (same_length _ _); [|discriminate].
  intros [= <-]. exists d, c, T0, tl, ys.
  split; [reflexivity|]. split; [lia|]. repeat (split; [reflexivity|]).
  split; [exact Etl | reflexivity].
Qed.

(** The derived columns of both simulations stay in their ranges, whatever
    the scenario, the parameters and the solver's output: the
    extreme-weather index is within 0..100 in both; in the
    differential-equation model the Arctic ice is never negative, the
    sea-level rise of the first row is 0 and the CO2 of the first row is
    the [current_co2] of the dictionary in effect. *)
Theorem derived_columns_in_range
    (odeint : (R * R -> R -> outcome (R * R)) -> R * R -> list R
              -> outcome (list (R * R)))
    (current_year : Z) (scenario : string) (years : Z)
    (p : params) (ap : option (gmap string R)) (df : frame) (adf : adv_frame) :
  run_climate_simulation current_year scenario years p = Returned df ->
  run_advanced_climate_simulation odeint current_year scenario years ap
    = Returned adf ->
  Forall (fun w => 0 <= w <= 100) (extreme_weather_index df) /\
  Forall (fun w => 0 <= w <= 100) (adv_extreme_weather_index adf) /\
  Forall (fun x => 0 <= x) (adv_arctic_ice adf) /\
  (forall s0, head (adv_sea_level_rise adf) = Some s0 -> s0 = 0) /\
  head (adv_co2 adf) = default default_adv_params ap !! "current_co2"%string.
Proof.
  intros Hdf Hadf.
  destruct (run_climate_simulation_inv _ _ _ _ _ Hdf) as (d & ts & _ & _ & _ & ->).
  destruct (run_advanced_inv _ _ _ _ _ _ Hadf)
    as (d' & c & T0 & tl & ys & _ & _ & Hc & _ & _ & ->).
  cbn [extreme_weather_index adv_extreme_weather_index adv_arctic_ice
       adv_sea_level_rise adv_co2].
  rewrite Hc.
  repeat split.
  - apply Forall_fmap, Forall_forall. intros t _. apply clamped_index_range.
  - apply Forall_fmap, Forall_forall. intros t _.
    unfold adv_extreme_weather_at. simpl. apply clamped_index_range.
  - apply Forall_fmap, Forall_forall. intros t _. apply adv_ice_extent_nonneg.
  - destruct (map fst ys) as [|t rest]; [discriminate|].
    cbn [adv_sea_levels Nat.eqb head]. intros s0 [= <-].
    unfold PyNum.py_round. rewrite Rmult_0_l.
    change 0 with (IZR 0) at 1. rewrite PyNum.round_half_even_IZR.
    unfold Rdiv. apply Rmult_0_l.
Qed.

Lemma derived_columns_in_range_witness :
  exists df adf,
    run_climate_simulation 2026 "net_zero" 80 DEFAULT_PARAMS = Returned df /\
    run_advanced_climate_simulation euler_solver 2026 "net_zero" 80
      None = Returned adf /\
    Forall (fun w => 0 <= w <= 100) (extreme_weather_index df) /\
    Forall (fun w => 0 <= w <= 100) (adv_extreme_weather_index adf).
Proof.
  destruct (run_climate_simulation_returns 2026 "net_zero" 80 DEFAULT_PARAMS)
    as [df Hdf]; [simpl; lra|].
  destruct (run_advanced_returns euler_solver 2026 "net_zero" 80
              None euler_solver_returns (proj1 default_adv_params_complete)
              (proj2 default_adv_params_complete)) as (adf & Hadf & _).
  exists df, adf.
  destruct (derived_columns_in_range euler_solver 2026 "net_zero" 80
              DEFAULT_PARAMS None df adf Hdf Hadf) as (H1 & H2 & _).
  repeat split; assumption.
Defined.

(** ** Net zero *)

(** A year whose increment is zero repeats the CO2 of the year before. *)
Lemma co2_loop_plateau s d cy idx lvl l (j : nat) (k : Z) (c c' : R) :
  co2_loop s d cy idx lvl = Returned l ->
  idx !! S j = Some k ->
  annual_increase_at s d cy k (cy + k) = Returned 0 ->
  l !! j = Some c -> l !! S j = Some c' -> c' = c.
Proof.
  revert lvl l j. induction idx as [|i idx IH]; intros lvl l j; [discriminate|].
  simpl co2_loop.
  destruct (annual_increase_at s d cy i (cy + i)) as [inc|]; [|discriminate].
  cbn [obind].
  destruct (co2_loop s d cy idx (lvl + inc)) as [tl|] eqn:E; [|discriminate].
  cbn [obind]. intros [= <-] Hk Hzero. destruct j as [|j].
  - destruct idx as [|i' idx']; [discriminate|]. injection Hk as ->.
    simpl in E. rewrite Hzero in E. cbn [obind] in E.
    destruct (co2_loop s d cy idx' _) as [tl'|]; [|discriminate].
    injection E as <-. simpl. intros [= <-] [= <-].
    rewrite Rplus_0_r. reflexivity.
  - simpl. intros Hc Hc'. exact (IH _ _ _ E Hk Hzero Hc Hc').
Qed.

Lemma co2_levels_loop_plateau s d cy idx lvl l (j : nat) (k : Z) (c c' : R) :
  co2_levels_loop s d cy idx lvl = Returned l ->
  idx !! j = Some k ->
  annual_increase_at s d cy k (cy + k) = Returned 0 ->
  (lvl :: l) !! j = Some c -> (lvl :: l) !! S j = Some c' -> c' = c.
Proof.
  revert lvl l j. induction idx as [|i idx IH]; intros lvl l j; [discriminate|].
  simpl co2_levels_loop.
  destruct (annual_increase_at s d cy i (cy + i)) as [inc|] eqn:Einc; [|discriminate].
  cbn [obind].
  destruct (co2_levels_loop s d cy idx (lvl + inc)) as [tl|] eqn:E; [|discriminate].
  cbn [obind]. intros [= <-] Hk Hzero. destruct j as [|j].
  - injection Hk as ->. rewrite Hzero in Einc. injection Einc as <-.
    simpl. intros [= <-] [= <-]. apply Rplus_0_r.
  - simpl. intros Hc Hc'. exact (IH _ _ _ E Hk Hzero Hc Hc').
Qed.

Lemma net_zero_increment (cy k : Z) :
  (2050 <= cy + k)%Z ->
  annual_increase_at "net_zero" (mk_scenario 1.0 (Some 2050%Z) None) cy k (cy + k)
  = Returned 0.
Proof.
  intros Hk. unfold annual_increase_at. simpl.
  destruct (Z.ltb_spec (cy + k) 2050); [lia | reflexivity].
Qed.

Lemma py_range_lookup (a b : Z) (j : nat) (k : Z) :
  PyNum.py_range a b !! j = Some k -> k = (a + Z.of_nat j)%Z.
Proof.
  unfold PyNum.py_range. rewrite list_lookup_fmap.
  destruct (seq 0 _ !! j) as [n|] eqn:E; [|discriminate].
  apply lookup_seq in E as [-> _]. intros [= <-]. reflexivity.
Qed.

Lemma py_range_lookup_lt (a b : Z) (j : nat) :
  (Z.of_nat j < b - a)%Z -> PyNum.py_range a b !! j = Some (a + Z.of_nat j)%Z.
Proof.
  intros Hj. unfold PyNum.py_range.
  rewrite list_lookup_fmap, lookup_seq_lt by lia. reflexivity.
Qed.

(** Net zero by 2050, in both simulations: a row whose year is 2050 or
    later has the CO2 of the row before it. *)
Theorem net_zero_plateau
    (odeint : (R * R -> R -> outcome (R * R)) -> R * R -> list R
              -> outcome (list (R * R)))
    (current_year years : Z) (p : params) (ap : option (gmap string R))
    (df : frame) (adf : adv_frame) :
  run_climate_simulation current_year "net_zero" years p = Returned df ->
  run_advanced_climate_simulation odeint current_year "net_zero" years ap
    = Returned adf ->
  forall (i : nat) (y : Z), (2050 <= y)%Z ->
    (year_col df !! S i = Some y ->
     forall c c', co2 df !! i = Some c -> co2 df !! S i = Some c' -> c' = c) /\
    (adv_year_col adf !! S i = Some y ->
     forall c c', adv_co2 adf !! i = Some c -> adv_co2 adf !! S i = Some c' ->
                  c' = c).
Proof.
  intros Hdf Hadf i y Hy.
  destruct (run_climate_simulation_inv _ _ _ _ _ Hdf) as (d & ts & Hd & Hc & _ & Heq).
  destruct (run_advanced_inv _ _ _ _ _ _ Hadf)
    as (d' & c0 & T0 & tl & ys & Hd' & _ & _ & _ & Htl & ->).
  change (effective_scenario "net_zero") with "net_zero"%string in *.
  assert (d = mk_scenario 1.0 (Some 2050%Z) None) as ->
    by (change (Some (mk_scenario 1.0 (Some 2050%Z) None) = Some d) in Hd; congruence).
  assert (d' = mk_scenario 1.0 (Some 2050%Z) None) as ->
    by (change (Some (mk_scenario 1.0 (Some 2050%Z) None) = Some d') in Hd'; congruence).
  split.
  - assert (year_col df = PyNum.py_range current_year (current_year + years))
      as Hyc by (rewrite Heq; reflexivity).
    rewrite Hyc. intros Hyear c c' Hci Hci'.
    apply py_range_lookup in Hyear.
    assert (length (co2 df) = length (PyNum.py_range 0 years)) as Hlen.
    { destruct (co2_loop_returns "net_zero" _ current_year (PyNum.py_range 0 years)
                  (current_co2 p) Hd) as (l & Hl & Hll).
      rewrite Hl in Hc. injection Hc as <-. exact Hll. }
    pose proof (lookup_lt_Some _ _ _ Hci') as Hlt.
    rewrite Hlen, py_range_length in Hlt.
    eapply (co2_loop_plateau _ _ _ _ _ _ i (0 + Z.of_nat (S i))%Z);
      [exact Hc | apply py_range_lookup_lt; lia | apply net_zero_increment; lia
      | exact Hci | exact Hci'].
  - cbn [adv_year_col adv_co2]. intros Hyear c c' Hci Hci'.
    apply py_range_lookup in Hyear.
    destruct (co2_levels_loop_returns "net_zero" _ current_year
                (PyNum.py_range 1 (years + 1)) c0 Hd')
      as (l & Hl & Hll).
    rewrite Hl in Htl. injection Htl as <-.
    pose proof (lookup_lt_Some _ _ _ Hci') as Hlt. simpl in Hlt.
    rewrite Hll, py_range_length in Hlt.
    eapply (co2_levels_loop_plateau _ _ _ _ _ _ i (1 + Z.of_nat i)%Z);
      [exact Hl | apply py_range_lookup_lt; lia | apply net_zero_increment; lia
      | exact Hci | exact Hci'].
Qed.

Lemma net_zero_plateau_witness :
  exists df adf c c',
    run_climate_simulation 2026 "net_zero" 80 DEFAULT_PARAMS = Returned df /\
    run_advanced_climate_simulation euler_solver 2026 "net_zero" 80
      None = Returned adf /\
    year_col df !! 30%nat = Some 2056%Z /\
    co2 df !! 29%nat = Some c /\ co2 df !! 30%nat = Some c' /\ c' = c.
Proof.
  destruct (run_climate_simulation_returns 2026 "net_zero" 80 DEFAULT_PARAMS)
    as [df Hdf]; [simpl; lra|].
  destruct (run_advanced_returns euler_solver 2026 "net_zero" 80
              None euler_solver_returns (proj1 default_adv_params_complete)
              (proj2 default_adv_params_complete)) as (adf & Hadf & _).
  destruct (run_climate_simulation_length _ _ _ _ _ Hdf) as (Hyc & _ & Hlen & _).
  assert (year_col df !! 30%nat = Some 2056%Z) as Hyear
    by (rewrite Hyc; reflexivity).
  destruct (lookup_lt_is_Some_2 (co2 df) 29) as [c Hc]; [rewrite Hlen; simpl; lia|].
  destruct (lookup_lt_is_Some_2 (co2 df) 30) as [c' Hc']; [rewrite Hlen; simpl; lia|].
  exists df, adf, c, c'. repeat split; try assumption.
  destruct (net_zero_plateau euler_solver 2026 80 DEFAULT_PARAMS
              None df adf Hdf Hadf 29%nat 2056%Z ltac:(lia))
    as [Hbasic _].
  exact (Hbasic Hyear c c' Hc Hc').
Defined.

End SimulationFacts.

(** * The risk map ([generate_climate_risk_map])

    The two columns the function reads from [simulation_results] are given
    as one pair (temperature, sea_level_rise) per row.  The draws of NumPy's
    global generator are the stream [g], in the order the calls are made:
    per grid cell one [np.random.random()] and one
    [np.random.normal(0, 0.5)]. *)

Module RiskMap.
Import ClimateSimulator.

Definition rng : Type := nat -> R.

(** [np.arange(start, stop, step)] over integers, for a positive step. *)
Definition np_arange (start stop step : Z) : list Z :=
  map (fun k => (start + step * Z.of_nat k)%Z)
      (seq 0 (Z.to_nat ((stop - start + step - 1) / step))).

Definition lats : list Z := np_arange (-85) 86 10.
Definition lons : list Z := np_arange (-180) 181 20.

Record cell : Type := mk_cell {
  lat : Z;
  lon : Z;
  risk : R;
  temperature_risk : R;
  sea_level_risk : R;
  drought_risk : R
}.

(** "Skip points in Antarctica" *)
Definition skipped (lat lon : Z) : bool :=
  (lat <? -60)%Z && ((-180 <=? lon)%Z && (lon <=? 180)%Z).

(** The body of the two loops for one grid point that is not skipped;
    [u] and [e] are the two draws. *)
Definition cell_at (temp_anomaly sea_level_rise : R) (lat lon : Z) (u e : R) : cell :=
  let base_risk := temp_anomaly * 2 in
  let risk_factor :=
    if (Z.abs lat <? 30)%Z then base_risk * 1.3
    else if (60 <? Z.abs lat)%Z then base_risk * 1.5
    else base_risk * 1.0 in
  let coastal := bool_decide (u < 0.3) in
  let sea_level_risk := if coastal then sea_level_rise * 0.1 else 0 in
  let drought_risk :=
    if ((10 <=? Z.abs lat)%Z && (Z.abs lat <=? 40)%Z)%bool then base_risk * 1.2
    else base_risk * 0.7 in
  let total_risk := risk_factor + sea_level_risk + drought_risk in
  let total_risk := total_risk + e in
  let total_risk := PyNum.py_max 0 (Rmin 10 total_risk) in
  mk_cell lat lon (PyNum.py_round total_risk 1) (PyNum.py_round risk_factor 1)
          (PyNum.py_round sea_level_risk 1) (PyNum.py_round drought_risk 1).

(** The nested loops over [lats] and [lons], in order. *)
Definition grid_points : list (Z * Z) :=
  flat_map (fun lat => map (fun lon => (lat, lon)) lons) lats.

Fixpoint grid_loop (points : list (Z * Z)) (temp_anomaly sea_level_rise : R)
    (g : rng) : list cell * rng :=
  match points with
  | [] => ([], g)
  | (lat, lon) :: rest =>
      if skipped lat lon then grid_loop rest temp_anomaly sea_level_rise g
      else
        let c := cell_at temp_anomaly sea_level_rise lat lon (g 0%nat) (g 1%nat) in
        let '(cs, g') :=
          grid_loop rest temp_anomaly sea_level_rise (fun k => g (2 + k)%nat) in
        (c :: cs, g')
  end.

(** [generate_climate_risk_map] *)
Definition generate_climate_risk_map (simulation_results : list (R * R))
    (year_index : Z) (g : rng) : outcome (list cell) * rng :=
  let n := Z.of_nat (length simulation_results) in
  let year_index := if (n <=? year_index)%Z then (n - 1)%Z else year_index in
  match PyNum.py_index simulation_results year_index with
  | None => (Raised IndexError, g)
  | Some (temperature, sea_level_rise) =>
      let temp_anomaly := temperature - initial_temperature DEFAULT_PARAMS in
      let '(grid_data, g') := grid_loop grid_points temp_anomaly sea_level_rise g in
      (Returned grid_data, g')
  end.

(** The two columns of a simulation frame. *)
Definition columns_of (df : frame) : list (R * R) :=
  zip (temperature df) (sea_level_rise df).

(** ** The grid *)

Lemma grid_loop_cells points ta slr g :
  map (fun c => (lat c, lon c)) (fst (grid_loop points ta slr g))
  = List.filter (fun p => negb (skipped (fst p) (snd p))) points.
Proof.
  revert g. induction points as [|[la lo] rest IH]; intros g; [reflexivity|].
  simpl. destruct (skipped la lo); simpl; [apply IH|].
  specialize (IH (fun k => g (S (S k)))).
  destruct (grid_loop rest ta slr _) as [cs g']. simpl in *.
  f_equal. exact IH.
Qed.

Lemma cell_risk_range ta slr la lo u e :
  0 <= risk (cell_at ta slr la lo u e) <= 10.
Proof.
  unfold cell_at. cbn [risk]. unfold PyNum.py_max.
  match goal with
  | |- context [Rmax 0 (Rmin 10 ?x)] =>
      assert (0 <= Rmax 0 (Rmin 10 x) <= 10) as [Hlo Hhi]
        by (split; [apply Rmax_l | apply Rmax_lub; [lra | apply Rmin_l]]);
      set (m := Rmax 0 (Rmin 10 x)) in *
  end.
  split; [apply PyNum.py_round_nonneg, Hlo|].
  apply Rle_trans with (IZR 100 / 10 ^ 1);
    [apply SimulationFacts.py_round_le_grid | ]; simpl; lra.
Qed.

Lemma grid_loop_risk points ta slr g :
  Forall (fun c => 0 <= risk c <= 10) (fst (grid_loop points ta slr g)).
Proof.
  revert g. induction points as [|[la lo] rest IH]; intros g; [constructor|].
  simpl. destruct (skipped la lo); [apply IH|].
  specialize (IH (fun k => g (S (S k)))).
  destruct (grid_loop rest ta slr _) as [cs g']. simpl in *.
  constructor; [apply cell_risk_range | exact IH].
Qed.

Lemma kept_points :
  length (List.filter (fun p => negb (skipped (fst p) (snd p))) grid_points) = 285%nat
  /\ forallb (fun p => (-60 <? fst p)%Z)
              (List.filter (fun p => negb (skipped (fst p) (snd p))) grid_points)
     = true.
Proof. split; vm_compute; reflexivity. Qed.

(** The row [iloc] reads, after the clamp of [year_index]. *)
Definition selected_row (simulation_results : list (R * R)) (year_index : Z)
    : option (R * R) :=
  let n := Z.of_nat (length simulation_results) in
  PyNum.py_index simulation_results
    (if (n <=? year_index)%Z then (n - 1)%Z else year_index).

Lemma selected_row_spec (rows : list (R * R)) (year_index : Z) :
  selected_row rows year_index = None
  <-> rows = [] \/ (year_index < - Z.of_nat (length rows))%Z.
Proof.
  unfold selected_row, PyNum.py_index.
  set (n := Z.of_nat (length rows)).
  assert (rows = [] <-> n = 0%Z) as Hempty.
  { unfold n. destruct rows; simpl; split; intros; try discriminate;
      try reflexivity; lia. }
  destruct (Z.leb_spec n year_index) as [Hge|Hlt].
  - destruct (Z.leb_spec 0 (n - 1)) as [Hpos|Hneg].
    + rewrite lookup_ge_None. unfold n in *. split; [lia|].
      intros [H|H]; [apply Hempty in H|]; lia.
    + destruct (Z.leb_spec 0 (n + (n - 1))); [unfold n in *; lia|].
      split; [intros _; left; apply Hempty; unfold n in *; lia | reflexivity].
  - destruct (Z.leb_spec 0 year_index) as [Hpos|Hneg].
    + rewrite lookup_ge_None. unfold n in *. split; [lia|].
      intros [H|H]; [apply Hempty in H|]; lia.
    + destruct (Z.leb_spec 0 (n + year_index)) as [Hin|Hout].
      * rewrite lookup_ge_None. unfold n in *. split; [lia|].
        intros [H|H]; [apply Hempty in H|]; lia.
      * split; [intros _; right; lia | reflexivity].
Qed.

Lemma risk_map_outcome (rows : list (R * R)) (year_index : Z) (g : rng) :
  fst (generate_climate_risk_map rows year_index g)
  = match selected_row rows year_index with
    | None => Raised IndexError
    | Some (temperature, sea_level_rise) =>
        Returned (fst (grid_loop grid_points
                         (temperature - initial_temperature DEFAULT_PARAMS)
                         sea_level_rise g))
    end.
Proof.
  unfold generate_climate_risk_map, selected_row.
  destruct (PyNum.py_index rows _) as [[t s]|]; [|reflexivity].
  destruct (grid_loop grid_points _ _ g) as [cs g']. reflexivity.
Qed.

(** On a frame with at least one row and an index that is not below
    [-len], the risk map is returned whatever the generator draws: it has
    285 cells (18 latitudes by 19 longitudes, without the three Antarctic
    latitudes), none south of 60 degrees south, and every risk is within
    0..10.  An index at or past the end stands for the last row. *)
Theorem risk_map_grid (simulation_results : list (R * R)) (year_index : Z) (g : rng) :
  simulation_results <> [] ->
  (- Z.of_nat (length simulation_results) <= year_index)%Z ->
  (exists grid,
     fst (generate_climate_risk_map simulation_results year_index g) = Returned grid /\
     length grid = 285%nat /\
     Forall (fun c => 0 <= risk c <= 10 /\ (-60 < lat c)%Z) grid) /\
  ((Z.of_nat (length simulation_results) <= year_index)%Z ->
   generate_climate_risk_map simulation_results year_index g
   = generate_climate_risk_map simulation_results
       (Z.of_nat (length simulation_results) - 1) g).
Proof.
  intros Hne Hidx. split.
  - rewrite risk_map_outcome.
    destruct (selected_row simulation_results year_index) as [[t s]|] eqn:E.
    + eexists. split; [reflexivity|].
      pose proof (grid_loop_cells grid_points
                    (t - initial_temperature DEFAULT_PARAMS) s g) as Hcells.
      pose proof (grid_loop_risk grid_points
                    (t - initial_temperature DEFAULT_PARAMS) s g) as Hrisk.
      destruct kept_points as [Hlen Hlat].
      set (grid := fst (grid_loop grid_points _ s g)) in *.
      split.
      * rewrite <- Hlen, <- Hcells, length_map. reflexivity.
      * rewrite <- Hcells in Hlat. rewrite forallb_forall in Hlat.
        rewrite Forall_forall in *. intros c Hc. split; [apply Hrisk, Hc|].
        apply Z.ltb_lt.
        apply (Hlat (lat c, lon c)), in_map_iff.
        exists c. split; [reflexivity | apply list_elem_of_In, Hc].
    + apply selected_row_spec in E as [E|E]; [contradiction | lia].
  - intros Hge. unfold generate_climate_risk_map.
    destruct (Z.leb_spec (Z.of_nat (length simulation_results)) year_index); [|lia].
    destruct (Z.leb_spec (Z.of_nat (length simulation_results))
                (Z.of_nat (length simulation_results) - 1)); [lia|].
    reflexivity.
Qed.

Lemma risk_map_grid_witness :
  exists grid,
    fst (generate_climate_risk_map [(14.5, 1.2); (15.1, 3.4)] 30 (fun _ => 0.25))
      = Returned grid /\
    length grid = 285%nat /\
    Forall (fun c => 0 <= risk c <= 10 /\ (-60 < lat c)%Z) grid.
Proof.
  apply (risk_map_grid [(14.5, 1.2); (15.1, 3.4)] 30 (fun _ => 0.25)).
  - discriminate.
  - simpl. lia.
Defined.

(** [generate_climate_risk_map] raises exactly when the frame has no row
    or the index is below [-len]: then it is [IndexError], from [iloc]. *)
Theorem risk_map_index_error (simulation_results : list (R * R))
    (year_index : Z) (g : rng) :
  (simulation_results = []
   \/ (year_index < - Z.of_nat (length simulation_results))%Z)
  <-> fst (generate_climate_risk_map simulation_results year_index g)
      = Raised IndexError.
Proof.
  rewrite risk_map_outcome, <- selected_row_spec.
  destruct (selected_row simulation_results year_index) as [[t s]|]; split;
    try discriminate; reflexivity.
Qed.

End RiskMap.

(** * The page's own simulator ([pages/advanced_simulation.py])

    [SimpleClimateSimulator] steps four NumPy arrays year by year; nothing
    in its loop raises (the arithmetic is NumPy's).  A CO2 value that is
    not positive has no logarithm (NaN in the code), so the statements about
    temperatures below are made where the CO2 stays positive. *)

Module PageSimulator.

(** [self.params] and [self.initial]: [set_parameters] and
    [set_initial_state] only update, so the default keys are always there. *)
Record sim_params : Type := mk_sim_params {
  carbon_sensitivity : R;
  ocean_heat_capacity : R;
  carbon_cycle_feedback : R;
  albedo_feedback : R
}.

Record sim_initial : Type := mk_sim_initial {
  temperature : R;
  co2_concentration : R;
  ice_extent : R
}.

Definition default_params : sim_params := mk_sim_params 3.0 14.0 0.15 0.3.
Definition default_initial : sim_initial := mk_sim_initial 1.1 417 10.5.

Definition emission_rates : gmap string R :=
  <["business_as_usual"%string := 0.018]>
  (<["moderate_mitigation"%string := 0.005]>
  (<["strong_mitigation"%string := -0.02]> ∅)).

(** The four arrays at one index. *)
Record point : Type := mk_point {
  temp_value : R;
  co2_value : R;
  ice_value : R;
  sea_level_value : R
}.

(** One turn of the loop: index [i] from index [i - 1]. *)
Definition step (p : sim_params) (scenario : string) (emission_rate : R)
    (i : nat) (prev : point) : point :=
  let current_rate :=
    if ((scenario =? "moderate_mitigation")%string && (30 <? i)%nat)%bool
    then emission_rate * 0.5 else emission_rate in
  let co2 := co2_value prev * (1 + current_rate)
             + temp_value prev * carbon_cycle_feedback p * 0.5 in
  let forcing := 5.35 * ln (co2 / 280) / ln 2 * carbon_sensitivity p / 3.7 in
  let temp := temp_value prev + forcing / ocean_heat_capacity p * 0.1 in
  let ice_change := - albedo_feedback p * temp_value prev * 0.1 in
  let ice := PyNum.py_max 0 (ice_value prev + ice_change) in
  let sea := sea_level_value prev
             + (0.3 * temp_value prev + 0.05 * (10.5 - ice_value prev)) in
  mk_point temp co2 ice sea.

(** [for i in range(1, len(time_points))], from index [i] on, [n] turns. *)
Fixpoint loop (p : sim_params) (scenario : string) (emission_rate : R)
    (i n : nat) (prev : point) : list point :=
  match n with
  | O => []
  | S n' =>
      let cur := step p scenario emission_rate i prev in
      cur :: loop p scenario emission_rate (S i) n' cur
  end.

(** The DataFrame [run_simulation] returns. *)
Record sim_frame : Type := mk_sim_frame {
  year : list Z;
  temperature_col : list R;
  temperature_lower : list R;
  temperature_upper : list R;
  co2 : list R;
  ice_extent_col : list R;
  sea_level : list R
}.

(** [run_simulation]; [current_year] is [datetime.now().year]. *)
Definition run_simulation (p : sim_params) (initial : sim_initial)
    (current_year years : Z) (scenario : string) : outcome sim_frame :=
  let time_points := PyNum.py_range 0 (years + 1) in
  let years_list := map (fun t => (current_year + t)%Z) time_points in
  (* temp_values[0] = ... on an array without entries *)
  if (length time_points =? 0)%nat then Raised IndexError else
  let first := mk_point (temperature initial) (co2_concentration initial)
                        (ice_extent initial) 0.0 in
  let* emission_rate := or_raise (emission_rates !! scenario) KeyError in
  let points :=
    first :: loop p scenario emission_rate 1 (length time_points - 1) first in
  let temp_uncertainty :=
    map (fun k => 0.2 * sqrt (INR k / 10)) (seq 0 (length time_points)) in
  let temp_values := map temp_value points in
  Returned (mk_sim_frame years_list temp_values
              (zip_with Rminus temp_values temp_uncertainty)
              (zip_with Rplus temp_values temp_uncertainty)
              (map co2_value points) (map ice_value points)
              (map sea_level_value points)).

(** ** Shape and errors *)

Lemma loop_length p scenario rate i n prev :
  length (loop p scenario rate i n prev) = n.
Proof.
  revert i prev. induction n as [|n IH]; intros i prev; simpl; [reflexivity|].
  rewrite IH. reflexivity.
Qed.

Lemma known_rate (scenario : string) (rate : R) :
  emission_rates !! scenario = Some rate ->
  (scenario = "business_as_usual"%string /\ rate = 0.018)
  \/ (scenario = "moderate_mitigation"%string /\ rate = 0.005)
  \/ (scenario = "strong_mitigation"%string /\ rate = -0.02).
Proof.
  unfold emission_rates.
  repeat (rewrite lookup_insert; case_decide;
          [intros [= <-]; subst scenario; tauto|]).
  rewrite lookup_empty. discriminate.
Qed.

(** The points behind a frame. *)
Definition trajectory (p : sim_params) (initial : sim_initial) (years : Z)
    (scenario : string) (emission_rate : R) : list point :=
  let first := mk_point (temperature initial) (co2_concentration initial)
                        (ice_extent initial) 0.0 in
  first :: loop p scenario emission_rate 1 (Z.to_nat (years + 1) - 1) first.

Lemma run_simulation_outcome p initial cy years scenario :
  run_simulation p initial cy years scenario
  = if (years <? 0)%Z then Raised IndexError
    else match emission_rates !! scenario with
         | None => Raised KeyError
         | Some rate =>
             let points := trajectory p initial years scenario rate in
             let unc := map (fun k => 0.2 * sqrt (INR k / 10))
                            (seq 0 (Z.to_nat (years + 1))) in
             Returned (mk_sim_frame (PyNum.py_range cy (cy + years + 1))
                         (map temp_value points)
                         (zip_with Rminus (map temp_value points) unc)
                         (zip_with Rplus (map temp_value points) unc)
                         (map co2_value points) (map ice_value points)
                         (map sea_level_value points))
         end.
Proof.
  unfold run_simulation, trajectory.
  rewrite ClimateSimulator.py_range_length.
  replace (years + 1 - 0)%Z with (years + 1)%Z by lia.
  destruct (Z.ltb_spec years 0) as [Hneg|Hpos].
  - replace (Z.to_nat (years + 1)) with 0%nat by lia. reflexivity.
  - destruct (Nat.eqb_spec (Z.to_nat (years + 1)) 0) as [E|_]; [lia|].
    destruct (emission_rates !! scenario) as [rate|]; [|reflexivity].
    cbn [or_raise obind]. do 2 f_equal.
    unfold PyNum.py_range. rewrite map_map.
    replace (cy + years + 1 - cy)%Z with (years + 1 - 0)%Z by lia.
    apply map_ext. intros k. lia.
Qed.

(** [run_simulation] raises [IndexError] exactly for a negative number of
    years (the arrays have no first entry), and [KeyError] exactly for a
    non-negative number of years with a scenario that is not one of the
    three of [emission_rates]; a scenario of the other simulators, like
    net_zero, is such a name. *)
Theorem run_simulation_errors (p : sim_params) (initial : sim_initial)
    (current_year years : Z) (scenario : string) :
  (run_simulation p initial current_year years scenario = Raised IndexError
   <-> (years < 0)%Z) /\
  (run_simulation p initial current_year years scenario = Raised KeyError
   <-> (0 <= years)%Z /\ scenario <> "business_as_usual"%string
       /\ scenario <> "moderate_mitigation"%string
       /\ scenario <> "strong_mitigation"%string) /\
  run_simulation p initial current_year 80 "net_zero" = Raised KeyError.
Proof.
  rewrite !run_simulation_outcome.
  split; [|split; [|reflexivity]].
  - destruct (Z.ltb_spec years 0); [tauto|].
    destruct (emission_rates !! scenario); cbv zeta; split;
      try discriminate; lia.
  - destruct (Z.ltb_spec years 0) as [Hneg|Hpos].
    + split; [discriminate | lia].
    + destruct (emission_rates !! scenario) as [rate|] eqn:E.
      * cbv zeta. split; [discriminate|]. intros (_ & H1 & H2 & H3).
        destruct (known_rate _ _ E) as [[-> _]|[[-> _]|[-> _]]]; congruence.
      * split; [|reflexivity]. intros _. split; [exact Hpos|].
        repeat split; intros ->; discriminate.
Qed.

Lemma loop_ice_nonneg p scenario rate i n prev :
  Forall (fun q => 0 <= ice_value q) (loop p scenario rate i n prev).
Proof.
  revert i prev. induction n as [|n IH]; intros i prev; simpl; constructor.
  - unfold PyNum.py_max. apply Rmax_l.
  - apply IH.
Qed.

(** A returned frame: every column has [years + 1] entries, the years
    start at the current year, the first row holds the initial state (and
    a sea level of 0), no ice extent after the first row is negative, and
    the temperature band is symmetric around the temperature, of
    half-width [0.2 * sqrt(i / 10)] in row [i]. *)
Theorem page_frame_invariants (p : sim_params) (initial : sim_initial)
    (current_year years : Z) (scenario : string) (df : sim_frame) :
  run_simulation p initial current_year years scenario = Returned df ->
  year df = PyNum.py_range current_year (current_year + years + 1) /\
  Forall (fun n => n = Z.to_nat (years + 1))
         [length (year df); length (temperature_col df);
          length (temperature_lower df); length (temperature_upper df);
          length (co2 df); length (ice_extent_col df); length (sea_level df)] /\
  (head (temperature_col df) = Some (temperature initial) /\
   head (co2 df) = Some (co2_concentration initial) /\
   head (ice_extent_col df) = Some (ice_extent initial) /\
   head (sea_level df) = Some 0.0) /\
  (forall i x, (1 <= i)%nat -> ice_extent_col df !! i = Some x -> 0 <= x) /\
  (forall i t, temperature_col df !! i = Some t ->
     temperature_lower df !! i = Some (t - 0.2 * sqrt (INR i / 10)) /\
     temperature_upper df !! i = Some (t + 0.2 * sqrt (INR i / 10)) /\
     t - 0.2 * sqrt (INR i / 10) <= t <= t + 0.2 * sqrt (INR i / 10)).
Proof.
  rewrite run_simulation_outcome.
  destruct (Z.ltb_spec years 0) as [Hneg|Hpos]; [discriminate|].
  destruct (emission_rates !! scenario) as [rate|]; [|discriminate].
  cbv zeta.
  assert (length (trajectory p initial years scenario rate) = Z.to_nat (years + 1))
    as Hlen.
  { unfold trajectory. simpl. rewrite loop_length. lia. }
  assert (forall i x, (1 <= i)%nat ->
            map ice_value (trajectory p initial years scenario rate) !! i = Some x ->
            0 <= x) as Hice.
  { intros [|i] x Hi; [lia|]. unfold trajectory. simpl.
    rewrite list_lookup_fmap.
    destruct (loop _ _ _ _ _ _ !! i) as [q|] eqn:E; [|discriminate].
    intros [= <-].
    pose proof (loop_ice_nonneg p scenario rate 1
                  (Z.to_nat (years + 1) - 1)
                  (mk_point (temperature initial) (co2_concentration initial)
                     (ice_extent initial) 0.0)) as Hall.
    rewrite Forall_lookup in Hall. exact (Hall i q E). }
  assert (head (map temp_value (trajectory p initial years scenario rate))
            = Some (temperature initial) /\
          head (map co2_value (trajectory p initial years scenario rate))
            = Some (co2_concentration initial) /\
          head (map ice_value (trajectory p initial years scenario rate))
            = Some (ice_extent initial) /\
          head (map sea_level_value (trajectory p initial years scenario rate))
            = Some 0.0) as Hhead by (repeat split).
  remember (trajectory p initial years scenario rate) as points eqn:Hpoints.
  remember (map (fun k => 0.2 * sqrt (INR k / 10)) (seq 0 (Z.to_nat (years + 1))))
    as unc eqn:Hunc.
  intros [= <-]. cbn [year temperature_col temperature_lower
    temperature_upper co2 ice_extent_col sea_level].
  assert (length unc = Z.to_nat (years + 1)) as Hlu
    by (rewrite Hunc, length_map, length_seq; reflexivity).
  split; [reflexivity|]. split.
  - repeat (constructor;
            [rewrite ?length_zip_with, ?length_map,
               ?ClimateSimulator.py_range_length, ?Hlen, ?Hlu; lia|]).
    constructor.
  - split; [exact Hhead|]. split; [exact Hice|].
    intros i t Ht.
    pose proof (lookup_lt_Some _ _ _ Ht) as Hi.
    rewrite length_map, Hlen in Hi.
    rewrite !lookup_zip_with, Ht, Hunc, list_lookup_fmap, lookup_seq_lt by exact Hi.
    simpl. split; [reflexivity|]. split; [reflexivity|].
    pose proof (sqrt_pos (INR i / 10)). lra.
Qed.

Lemma page_frame_invariants_witness :
  exists df,
    run_simulation default_params default_initial 2026 80 "moderate_mitigation"
      = Returned df /\
    length (temperature_col df) = 81%nat /\
    head (co2 df) = Some 417.
Proof.
  assert (exists df,
            run_simulation default_params default_initial 2026 80
              "moderate_mitigation" = Returned df) as [df Hdf].
  { rewrite run_simulation_outcome. eexists. reflexivity. }
  exists df. split; [exact Hdf|].
  destruct (page_frame_invariants default_params default_initial 2026 80
              "moderate_mitigation" df Hdf) as (_ & Hlen & (_ & Hco2 & _) & _).
  split; [|exact Hco2].
  inversion Hlen as [|? ? _ Hrest]. inversion Hrest as [|? ? Ht _].
  rewrite Ht. reflexivity.
Defined.

(** ** Warming under growing emissions *)

(** The temperature step for a CO2 concentration. *)
Definition warming (p : sim_params) (co2 : R) : R :=
  5.35 * ln (co2 / 280) / ln 2 * carbon_sensitivity p / 3.7
  / ocean_heat_capacity p * 0.1.

Lemma ln2_pos : 0 < ln 2.
Proof. rewrite <- ln_1. apply ln_increasing; lra. Qed.

Lemma warming_gain (p : sim_params) (co2 : R) :
  0 < carbon_sensitivity p -> 0 < ocean_heat_capacity p ->
  exists K, 0 < K /\ forall c, warming p c = K * ln (c / 280).
Proof.
  intros Hcs Hohc. pose proof ln2_pos as Hln.
  exists (5.35 / ln 2 * carbon_sensitivity p / 3.7 / ocean_heat_capacity p * 0.1).
  split.
  - assert (0 < 5.35 / ln 2) as H1 by (apply Rdiv_lt_0_compat; lra).
    assert (0 < 5.35 / ln 2 * carbon_sensitivity p) as H2
      by (apply Rmult_lt_0_compat; lra).
    assert (0 < 5.35 / ln 2 * carbon_sensitivity p / 3.7) as H3
      by (apply Rdiv_lt_0_compat; lra).
    assert (0 < 5.35 / ln 2 * carbon_sensitivity p / 3.7 / ocean_heat_capacity p)
      as H4 by (apply Rdiv_lt_0_compat; lra).
    lra.
  - intros c. unfold warming. field. split; lra.
Qed.

Lemma warming_increasing (p : sim_params) (c1 c2 : R) :
  0 < carbon_sensitivity p -> 0 < ocean_heat_capacity p ->
  0 < c1 -> c1 < c2 -> warming p c1 < warming p c2.
Proof.
  intros Hcs Hohc H1 H12.
  destruct (warming_gain p c1 Hcs Hohc) as (K & HK & HKe). rewrite !HKe.
  apply Rmult_lt_compat_l; [exact HK|].
  apply ln_increasing; [apply Rdiv_lt_0_compat; lra|].
  unfold Rdiv. apply Rmult_lt_compat_r; lra.
Qed.

Lemma warming_nonneg (p : sim_params) (c : R) :
  0 < carbon_sensitivity p -> 0 < ocean_heat_capacity p ->
  280 <= c -> 0 <= warming p c.
Proof.
  intros Hcs Hohc Hc.
  destruct (warming_gain p c Hcs Hohc) as (K & HK & HKe). rewrite HKe.
  apply Rmult_le_pos; [lra|].
  rewrite <- ln_1. destruct (Req_dec c 280) as [->|Hne].
  - right. f_equal. field.
  - left. apply ln_increasing; [lra|].
    apply (Rmult_lt_reg_r 280); [lra|]. unfold Rdiv.
    rewrite Rmult_assoc, Rinv_l by lra. lra.
Qed.

(** The rate the loop uses at index [i]. *)
Definition current_rate (scenario : string) (emission_rate : R) (i : nat) : R :=
  if ((scenario =? "moderate_mitigation")%string && (30 <? i)%nat)%bool
  then emission_rate * 0.5 else emission_rate.

Lemma step_eq p scenario rate i prev :
  step p scenario rate i prev
  = let co2 := co2_value prev * (1 + current_rate scenario rate i)
               + temp_value prev * carbon_cycle_feedback p * 0.5 in
    mk_point (temp_value prev + warming p co2) co2
      (Rmax 0 (ice_value prev + - albedo_feedback p * temp_value prev * 0.1))
      (sea_level_value prev
       + (0.3 * temp_value prev + 0.05 * (10.5 - ice_value prev))).
Proof. reflexivity. Qed.

Section Warming.

Variable p : sim_params.
Hypothesis sensitivity_pos : 0 < carbon_sensitivity p.
Hypothesis capacity_pos : 0 < ocean_heat_capacity p.
Hypothesis feedback_nonneg : 0 <= carbon_cycle_feedback p.

Lemma step_ordered (i : nat) (b m : point) :
  280 <= co2_value m <= co2_value b ->
  0 <= temp_value m <= temp_value b ->
  let b' := step p "business_as_usual" 0.018 i b in
  let m' := step p "moderate_mitigation" 0.005 i m in
  (280 <= co2_value m' /\ co2_value m' < co2_value b') /\
  (0 <= temp_value m' /\ temp_value m' < temp_value b').
Proof.
  intros [Hm Hmb] [Ht Htb]. rewrite !step_eq. cbv zeta.
  cbn [co2_value temp_value].
  assert (current_rate "business_as_usual" 0.018 i = 0.018) as -> by reflexivity.
  assert (0 <= current_rate "moderate_mitigation" 0.005 i <= 0.005) as Hr.
  { unfold current_rate. simpl. destruct (30 <? i)%nat; lra. }
  set (r := current_rate "moderate_mitigation" 0.005 i) in *.
  set (k := carbon_cycle_feedback p) in *.
  assert (0 <= temp_value m * k) as Hmk by (apply Rmult_le_pos; lra).
  assert (temp_value m * k <= temp_value b * k) as Hbk
    by (apply Rmult_le_compat_r; lra).
  assert (280 <= co2_value m * (1 + r) + temp_value m * k * 0.5) as Hc1 by nra.
  assert (co2_value m * (1 + r) + temp_value m * k * 0.5
          < co2_value b * (1 + 0.018) + temp_value b * k * 0.5) as Hc2 by nra.
  split; [split; assumption|].
  pose proof (warming_nonneg p _ sensitivity_pos capacity_pos Hc1) as Hw1.
  assert (0 < co2_value m * (1 + r) + temp_value m * k * 0.5) as Hpos by lra.
  pose proof (warming_increasing p _ _ sensitivity_pos capacity_pos Hpos Hc2)
    as Hw2.
  lra.
Qed.

Lemma loop_ordered (n i : nat) (b m : point) :
  280 <= co2_value m <= co2_value b ->
  0 <= temp_value m <= temp_value b ->
  Forall2 (fun qb qm => temp_value qm < temp_value qb /\ co2_value qm < co2_value qb)
          (loop p "business_as_usual" 0.018 i n b)
          (loop p "moderate_mitigation" 0.005 i n m).
Proof.
  revert i b m. induction n as [|n IH]; intros i b m Hc Ht; simpl; constructor.
  - destruct (step_ordered i b m Hc Ht) as [[_ H1] [_ H2]]. split; assumption.
  - destruct (step_ordered i b m Hc Ht) as [[H1 H2] [H3 H4]].
    apply IH; split; lra.
Qed.

(** With a positive sensitivity and heat capacity, a non-negative
    carbon-cycle feedback, a non-negative initial temperature and an
    initial CO2 of at least 280 ppm, both runs return and, in every year
    after the first, business as usual has strictly more CO2 and is
    strictly warmer than moderate mitigation. *)
Theorem bau_warmer_than_moderate (initial : sim_initial) (current_year years : Z) :
  0 <= temperature initial -> 280 <= co2_concentration initial ->
  (0 <= years)%Z ->
  exists bau moderate,
    run_simulation p initial current_year years "business_as_usual"
      = Returned bau /\
    run_simulation p initial current_year years "moderate_mitigation"
      = Returned moderate /\
    forall i, (1 <= i)%nat ->
      (forall tb tm, temperature_col bau !! i = Some tb ->
                     temperature_col moderate !! i = Some tm -> tm < tb) /\
      (forall cb cm, co2 bau !! i = Some cb -> co2 moderate !! i = Some cm ->
                     cm < cb).
Proof.
  intros HT HC Hy. rewrite !run_simulation_outcome.
  destruct (Z.ltb_spec years 0); [lia|].
  change (emission_rates !! "business_as_usual"%string) with (Some 0.018).
  change (emission_rates !! "moderate_mitigation"%string) with (Some 0.005).
  cbv zeta. eexists _, _. split; [reflexivity|]. split; [reflexivity|].
  cbn [temperature_col co2]. unfold trajectory.
  set (first := mk_point (temperature initial) (co2_concentration initial)
                         (ice_extent initial) 0.0).
  pose proof (loop_ordered (Z.to_nat (years + 1) - 1) 1 first first
                ltac:(simpl; lra) ltac:(simpl; lra)) as Hall.
  intros [|i] Hi; [lia|]. simpl. rewrite !list_lookup_fmap.
  split; intros xb xm Hb Hm;
    destruct (loop p "business_as_usual" _ _ _ _ !! i) as [qb|] eqn:Eb;
    try discriminate;
    destruct (loop p "moderate_mitigation" _ _ _ _ !! i) as [qm|] eqn:Em;
    try discriminate;
    injection Hb as <-; injection Hm as <-;
    destruct (Forall2_lookup_lr _ _ _ i qb qm Hall Eb Em) as [H1 H2]; assumption.
Qed.

End Warming.

Lemma bau_warmer_than_moderate_witness :
  exists bau moderate,
    run_simulation default_params default_initial 2026 80 "business_as_usual"
      = Returned bau /\
    run_simulation default_params default_initial 2026 80 "moderate_mitigation"
      = Returned moderate /\
    forall tb tm, temperature_col bau !! 80%nat = Some tb ->
                  temperature_col moderate !! 80%nat = Some tm -> tm < tb.
Proof.
  destruct (bau_warmer_than_moderate default_params
              ltac:(simpl; lra) ltac:(simpl; lra) ltac:(simpl; lra)
              default_initial 2026 80
              ltac:(simpl; lra) ltac:(simpl; lra) ltac:(lia))
    as (bau & moderate & Hb & Hm & Hall).
  exists bau, moderate. split; [exact Hb|]. split; [exact Hm|].
  exact (proj1 (Hall 80%nat ltac:(lia))).
Defined.

(** ** One direction only *)

Definition settled (q : point) : Prop :=
  0 <= temp_value q /\ 280 <= co2_value q /\ 0 <= ice_value q <= 10.5.

Definition onward (a b : point) : Prop :=
  temp_value a <= temp_value b /\ co2_value a <= co2_value b /\
  ice_value b <= ice_value a /\ sea_level_value a <= sea_level_value b.

Lemma step_onward (p : sim_params) (scenario : string) (rate : R) (i : nat)
    (prev : point) :
  0 < carbon_sensitivity p -> 0 < ocean_heat_capacity p ->
  0 <= carbon_cycle_feedback p -> 0 <= albedo_feedback p ->
  0 <= rate -> settled prev ->
  onward prev (step p scenario rate i prev) /\
  settled (step p scenario rate i prev).
Proof.
  intros Hcs Hohc Hk Ha Hrate (Ht & Hc & Hi0 & Hi1).
  rewrite step_eq. cbv zeta. unfold onward, settled.
  cbn [temp_value co2_value ice_value sea_level_value].
  assert (0 <= current_rate scenario rate i) as Hr.
  { unfold current_rate. destruct (_ && _)%bool; lra. }
  set (r := current_rate scenario rate i) in *.
  assert (0 <= temp_value prev * carbon_cycle_feedback p) as Htk
    by (apply Rmult_le_pos; lra).
  assert (0 <= albedo_feedback p * temp_value prev) as Hat
    by (apply Rmult_le_pos; lra).
  assert (co2_value prev
          <= co2_value prev * (1 + r)
             + temp_value prev * carbon_cycle_feedback p * 0.5) as Hco2 by nra.
  pose proof (warming_nonneg p _ Hcs Hohc (Rle_trans _ _ _ Hc Hco2)) as Hw.
  assert (0 <= Rmax 0 (ice_value prev + - albedo_feedback p * temp_value prev * 0.1)
          <= ice_value prev) as [Hm0 Hm1].
  { split; [apply Rmax_l | apply Rmax_lub; lra]. }
  repeat split; lra.
Qed.

Lemma loop_onward (p : sim_params) (scenario : string) (rate : R)
    (n i : nat) (prev : point) :
  0 < carbon_sensitivity p -> 0 < ocean_heat_capacity p ->
  0 <= carbon_cycle_feedback p -> 0 <= albedo_feedback p ->
  0 <= rate -> settled prev ->
  forall j a b,
    (prev :: loop p scenario rate i n prev) !! j = Some a ->
    (prev :: loop p scenario rate i n prev) !! S j = Some b ->
    onward a b /\ settled b.
Proof.
  intros Hcs Hohc Hk Ha Hrate. revert i prev.
  induction n as [|n IH]; intros i prev Hs j a b; [destruct j; discriminate|].
  destruct (step_onward p scenario rate i prev Hcs Hohc Hk Ha Hrate Hs)
    as [Hon Hs'].
  destruct j as [|j]; simpl.
  - intros [= <-] [= <-]. split; assumption.
  - apply (IH (S i) _ Hs' j a b).
Qed.

(** Under business as usual and under moderate mitigation (the two
    scenarios with a non-negative rate), with positive sensitivity and heat
    capacity, non-negative feedbacks, a non-negative initial temperature, an
    initial CO2 of at least 280 ppm and an initial ice extent within
    0..10.5: from each row to the next the temperature, the CO2 and the
    sea level never fall and the ice extent never grows, and the CO2 of
    every row is at least 280 ppm. *)
Theorem growing_emissions_only_warm (p : sim_params) (initial : sim_initial)
    (current_year years : Z) (scenario : string) (df : sim_frame) :
  0 < carbon_sensitivity p -> 0 < ocean_heat_capacity p ->
  0 <= carbon_cycle_feedback p -> 0 <= albedo_feedback p ->
  0 <= temperature initial -> 280 <= co2_concentration initial ->
  0 <= ice_extent initial <= 10.5 ->
  scenario <> "strong_mitigation"%string ->
  run_simulation p initial current_year years scenario = Returned df ->
  forall i,
    (forall a b, temperature_col df !! i = Some a ->
                 temperature_col df !! S i = Some b -> a <= b) /\
    (forall a b, co2 df !! i = Some a -> co2 df !! S i = Some b ->
                 280 <= a <= b) /\
    (forall a b, ice_extent_col df !! i = Some a ->
                 ice_extent_col df !! S i = Some b -> b <= a) /\
    (forall a b, sea_level df !! i = Some a -> sea_level df !! S i = Some b ->
                 a <= b).
Proof.
  intros Hcs Hohc Hk Ha HT HC HI Hsc. rewrite run_simulation_outcome.
  destruct (Z.ltb_spec years 0); [discriminate|].
  destruct (emission_rates !! scenario) as [rate|] eqn:E; [|discriminate].
  assert (0 <= rate) as Hrate.
  { destruct (known_rate _ _ E) as [[_ ->]|[[_ ->]|[-> _]]];
      [lra | lra | contradiction]. }
  cbv zeta.
  assert (forall i a b,
            trajectory p initial years scenario rate !! i = Some a ->
            trajectory p initial years scenario rate !! S i = Some b ->
            onward a b /\ settled a) as Hstep.
  { unfold trajectory.
    set (first := mk_point (temperature initial) (co2_concentration initial)
                           (ice_extent initial) 0.0).
    assert (settled first) as Hs by (unfold settled; simpl; lra).
    intros i a b Ha' Hb'.
    split; [exact (proj1 (loop_onward p scenario rate _ 1 first Hcs Hohc Hk Ha
                            Hrate Hs i a b Ha' Hb'))|].
    destruct i as [|i]; [injection Ha' as <-; exact Hs|].
    destruct (lookup_lt_is_Some_2
                (first :: loop p scenario rate 1 (Z.to_nat (years + 1) - 1) first) i)
      as [c Hc]; [apply lookup_lt_Some in Ha'; lia|].
    exact (proj2 (loop_onward p scenario rate _ 1 first Hcs Hohc Hk Ha
                    Hrate Hs i c a Hc Ha')). }
  remember (trajectory p initial years scenario rate) as points eqn:Hpoints.
  intros [= <-] i.
  cbn [temperature_col co2 ice_extent_col sea_level].
  rewrite !list_lookup_fmap. specialize (Hstep i).
  destruct (points !! i) as [a|];
    [|split; [|split; [|split]]; intros x y; discriminate].
  destruct (points !! S i) as [b|];
    [|split; [|split; [|split]]; intros x y ?; discriminate].
  destruct (Hstep a b eq_refl eq_refl) as ((H1 & H2 & H3 & H4) & (_ & H5 & _)).
  split; [|split; [|split]]; intros x y [= <-] [= <-]; try split; lra.
Qed.

Lemma growing_emissions_only_warm_witness :
  exists df,
    run_simulation default_params default_initial 2026 80 "business_as_usual"
      = Returned df /\
    forall a b, temperature_col df !! 79%nat = Some a ->
                temperature_col df !! 80%nat = Some b -> a <= b.
Proof.
  assert (exists df,
            run_simulation default_params default_initial 2026 80
              "business_as_usual" = Returned df) as [df Hdf].
  { rewrite run_simulation_outcome. eexists. reflexivity. }
  exists df. split; [exact Hdf|].
  assert (0 <= ice_extent default_initial <= 10.5) as Hice by (simpl; lra).
  exact (proj1 (growing_emissions_only_warm default_params default_initial 2026 80
                  "business_as_usual" df
                  ltac:(simpl; lra) ltac:(simpl; lra) ltac:(simpl; lra)
                  ltac:(simpl; lra) ltac:(simpl; lra) ltac:(simpl; lra)
                  Hice ltac:(discriminate) Hdf 79%nat)).
Defined.

End PageSimulator.

(** * More on the tipping-point report *)

Module TippingFacts.
Import TippingPoints.

(** [analyze_tipping_points] of the page's [SimpleClimateSimulator]
    ([pages/advanced_simulation.py]). *)
Definition page_analyze_tipping_points (r : results) : gmap string tp_value :=
  let tipping_points : gmap string tp_value := ∅ in
  let tipping_points :=
    match temperature r with
    | Some temps =>
        note_crossing (fun v => 3.0 <= v) temps (year r)
          "3.0C_threshold_year" "3.0C_threshold_risk" "Severe"
          (note_crossing (fun v => 2.0 <= v) temps (year r)
             "2.0C_threshold_year" "2.0C_threshold_risk" "High"
             (note_crossing (fun v => 1.5 <= v) temps (year r)
                "1.5C_threshold_year" "1.5C_threshold_risk" "Moderate"
                tipping_points))
    | None => tipping_points
    end in
  match ice_extent r with
  | Some ice =>
      note_crossing (fun v => v <= 1.0) ice (year r)
        "ice_free_summer_year" "ice_free_impact"
        "Major ecosystem disruption, albedo feedback acceleration"
        tipping_points
  | None => tipping_points
  end.

Ltac entry_of_key :=
  unfold analyze_tipping_points;
  match goal with H : temperature _ = Some _ |- _ => rewrite H end;
  match goal with |- context [ice_extent ?r] => destruct (ice_extent r) end;
  repeat (rewrite note_crossing_other by discriminate);
  apply note_crossing_year;
  first [discriminate
        | repeat (rewrite note_crossing_other by discriminate); reflexivity].

Definition reported (o : option R) : option tp_value :=
  (fun y => Year (PyNum.py_int y)) <$> o.

Lemma temperature_entries (r : results) (temps : list R) :
  temperature r = Some temps ->
  analyze_tipping_points r !! "1.5C_threshold_year"%string
    = reported (first_year_where (fun v => 1.5 <= v) temps (year r)) /\
  analyze_tipping_points r !! "2.0C_threshold_year"%string
    = reported (first_year_where (fun v => 2.0 <= v) temps (year r)) /\
  analyze_tipping_points r !! "permafrost_methane_year"%string
    = reported (first_year_where (fun v => 2.5 <= v) temps (year r)) /\
  analyze_tipping_points r !! "3.0C_threshold_year"%string
    = reported (first_year_where (fun v => 3.0 <= v) temps (year r)).
Proof.
  intros Ht. repeat split; unfold reported; entry_of_key.
Qed.

Lemma no_temperature_entries (r : results) (k : string) :
  temperature r = None ->
  In k ["1.5C_threshold_year"; "2.0C_threshold_year"; "permafrost_methane_year";
        "3.0C_threshold_year"]%string ->
  analyze_tipping_points r !! k = None.
Proof.
  intros Ht Hk. unfold analyze_tipping_points. rewrite Ht.
  simpl in Hk.
  destruct (ice_extent r);
    repeat (destruct Hk as [<-|Hk];
            [rewrite ?note_crossing_other by discriminate; reflexivity|]);
    contradiction.
Qed.

(** A weaker test is met first. *)
Lemma first_year_where_weaken (P Q : R -> Prop)
    `{!forall v, Decision (P v)} `{!forall v, Decision (Q v)}
    (column years : list R) (yP : R) :
  (forall v, P v -> Q v) ->
  first_year_where P column years = Some yP ->
  exists yQ i j,
    first_year_where Q column years = Some yQ /\ (i <= j)%nat /\
    years !! i = Some yQ /\ years !! j = Some yP.
Proof.
  intros HPQ. revert years.
  induction column as [|v column IH]; intros years; [discriminate|].
  destruct years as [|y years]; [discriminate|].
  rewrite !first_year_where_cons.
  destruct (decide (P v)) as [HP|HnP].
  - intros [= <-]. destruct (decide (Q v)) as [_|HnQ]; [|destruct HnQ; auto].
    exists y, 0%nat, 0%nat. repeat split; lia || reflexivity.
  - intros Hrest. destruct (IH years Hrest) as (yQ & i & j & HQ & Hij & Hi & Hj).
    destruct (decide (Q v)) as [_|_].
    + exists y, 0%nat, (S j). repeat split; try lia; assumption || reflexivity.
    + exists yQ, (S i), (S j). repeat split; try lia; assumption.
Qed.

Lemma floor_le (a b : R) : a <= b -> (PyNum.floor a <= PyNum.floor b)%Z.
Proof.
  intros Hab.
  pose proof (PyNum.floor_spec a) as [Ha _].
  pose proof (PyNum.floor_spec b) as [_ Hb].
  assert (IZR (PyNum.floor a) < IZR (PyNum.floor b + 1)) as H
    by (rewrite plus_IZR; lra).
  apply lt_IZR in H. lia.
Qed.

Lemma py_int_le (a b : R) : a <= b -> (PyNum.py_int a <= PyNum.py_int b)%Z.
Proof.
  intros Hab. unfold PyNum.py_int.
  destruct (decide (0 <= a)) as [Ha0|Ha0], (decide (0 <= b)) as [Hb0|Hb0];
    try lra.
  - apply floor_le, Hab.
  - pose proof (PyNum.floor_spec (- a)) as [_ Ha].
    pose proof (PyNum.floor_spec b) as [_ Hb].
    assert (IZR (- 1) < IZR (PyNum.floor (- a))) as Hz1 by lra.
    assert (IZR (- 1) < IZR (PyNum.floor b)) as Hz2 by lra.
    apply lt_IZR in Hz1, Hz2. lia.
  - assert (- b <= - a) as Hneg by lra. apply floor_le in Hneg. lia.
Qed.

(** The [year] column in calendar order. *)
Definition in_order (years : list R) : Prop :=
  forall i j a b, (i <= j)%nat -> years !! i = Some a -> years !! j = Some b ->
                  a <= b.

Lemma nested_entries (P Q : R -> Prop)
    `{!forall v, Decision (P v)} `{!forall v, Decision (Q v)}
    (column years : list R) (y : Z) :
  (forall v, P v -> Q v) ->
  reported (first_year_where P column years) = Some (Year y) ->
  exists y', reported (first_year_where Q column years) = Some (Year y') /\
             (in_order years -> (y' <= y)%Z).
Proof.
  intros HPQ. unfold reported.
  destruct (first_year_where P column years) as [yP|] eqn:E; [|discriminate].
  simpl. intros [= <-].
  destruct (first_year_where_weaken P Q column years yP HPQ E)
    as (yQ & i & j & -> & Hij & Hi & Hj).
  eexists. split; [reflexivity|].
  intros Hord. apply py_int_le. exact (Hord i j yQ yP Hij Hi Hj).
Qed.

(** The temperature thresholds are nested: a report with the 3.0 degree
    year has the permafrost (2.5 degree) year, one with the permafrost
    year has the 2.0 degree year, one with the 2.0 degree year has the
    1.5 degree year; and when the [year] column is in calendar order the
    year of the lower threshold is not later. *)
Theorem thresholds_nested (r : results) :
  let report := analyze_tipping_points r in
  let follows (upper lower : string) :=
    forall y, report !! upper = Some (Year y) ->
      exists y', report !! lower = Some (Year y') /\
                 (in_order (year r) -> (y' <= y)%Z) in
  follows "3.0C_threshold_year"%string "permafrost_methane_year"%string /\
  follows "permafrost_methane_year"%string "2.0C_threshold_year"%string /\
  follows "2.0C_threshold_year"%string "1.5C_threshold_year"%string.
Proof.
  cbv zeta. destruct (temperature r) as [temps|] eqn:Ht.
  - destruct (temperature_entries r temps Ht) as (E15 & E20 & E25 & E30).
    rewrite E15, E20, E25, E30.
    repeat split; intros y; apply nested_entries; intros v; lra.
  - repeat split; intros y;
      rewrite (no_temperature_entries r _ Ht) by (simpl; tauto); discriminate.
Qed.

Lemma thresholds_nested_witness :
  exists y',
    analyze_tipping_points synthetic !! "1.5C_threshold_year"%string
      = Some (Year y') /\ (y' <= 2028)%Z.
Proof.
  assert (analyze_tipping_points synthetic !! "2.0C_threshold_year"%string
          = Some (Year 2028)) as H20.
  { destruct (temperature_entries synthetic _ eq_refl) as (_ & -> & _).
    simpl. repeat (rewrite first_year_where_cons; case_decide; try lra).
    simpl. rewrite PyNum.py_int_IZR. reflexivity. }
  assert (in_order (year synthetic)) as Hord.
  { intros i j a b Hij Hi Hj. simpl in Hi, Hj.
    destruct i as [|[|[|[|i]]]], j as [|[|[|[|j]]]]; try lia; try discriminate;
      injection Hi as <-; injection Hj as <-; lra. }
  destruct (proj2 (proj2 (thresholds_nested synthetic)) 2028%Z H20)
    as (y' & Hy' & Hle).
  exists y'. split; [exact Hy' | exact (Hle Hord)].
Defined.

(** The page's copy of the analysis reports what the engine's analysis
    reports, except the permafrost entries, which it never has. *)
Theorem page_report_without_permafrost (r : results) :
  (forall k : string,
     k <> "permafrost_methane_year"%string -> k <> "permafrost_impact"%string ->
     page_analyze_tipping_points r !! k = analyze_tipping_points r !! k) /\
  page_analyze_tipping_points r !! "permafrost_methane_year"%string = None /\
  page_analyze_tipping_points r !! "permafrost_impact"%string = None.
Proof.
  unfold page_analyze_tipping_points, analyze_tipping_points.
  destruct (temperature r) as [temps|], (ice_extent r) as [ice|];
    (split; [intros k H1 H2; rewrite ?(note_crossing_other (fun v => 2.5 <= v))
                                      by assumption; reflexivity|]);
    split; rewrite ?note_crossing_other by discriminate; reflexivity.
Qed.

Lemma page_report_without_permafrost_witness :
  page_analyze_tipping_points synthetic !! "1.5C_threshold_year"%string
  = Some (Year 2027).
Proof.
  rewrite (proj1 (page_report_without_permafrost synthetic)
             "1.5C_threshold_year"%string) by discriminate.
  destruct (temperature_entries synthetic _ eq_refl) as (-> & _).
  simpl. repeat (rewrite first_year_where_cons; case_decide; try lra).
  simpl. rewrite PyNum.py_int_IZR. reflexivity.
Defined.

End TippingFacts.

(** * The emission pathways of the engine
      ([utils/simulation/climate_simulator.py], [create_emissions_scenario]) *)

Module EmissionPathways.

(** [create_emissions_scenario(scenario_type)], applied to a time [t]. *)
Definition create_emissions_scenario (scenario_type : string) (t : R) : R :=
  let current_emissions := 10.0 in
  if (scenario_type =? "business_as_usual")%string then
    current_emissions * (1 + 0.02 * t)
  else if (scenario_type =? "moderate_mitigation")%string then
    if decide (t < 30) then current_emissions * (1 + 0.01 * t - 0.001 * t ^ 2)
    else current_emissions * 0.7
  else if (scenario_type =? "strong_mitigation")%string then
    current_emissions * exp (- 0.05 * t)
  else current_emissions.

Lemma exp_decay_bound (x : R) : 0 <= x -> exp (- x) * (1 + x) <= 1.
Proof.
  intros Hx.
  assert (1 + x <= exp x) as H.
  { destruct (Req_dec x 0) as [->|Hne]; [rewrite exp_0; lra|].
    left. apply exp_ineq1. lra. }
  pose proof (exp_pos (- x)) as Hp.
  assert (exp (- x) * exp x = 1) as He
    by (rewrite <- exp_plus, Rplus_opp_l; apply exp_0).
  nra.
Qed.

(** From the start on, business as usual emits at least as much as
    moderate mitigation, which emits at least as much as strong mitigation;
    the three (and the constant default of an unknown name) start from the
    same 10 GtC.  Moderate mitigation is not continuous: it has fallen
    below 6.7 GtC in the six years before year 30, and is 7 GtC from year
    30 on. *)
Theorem emission_pathways_ordered (t : R) :
  0 <= t ->
  create_emissions_scenario "strong_mitigation" t
    <= create_emissions_scenario "moderate_mitigation" t /\
  create_emissions_scenario "moderate_mitigation" t
    <= create_emissions_scenario "business_as_usual" t /\
  (forall name, create_emissions_scenario name 0 = 10) /\
  (24 <= t < 30 -> create_emissions_scenario "moderate_mitigation" t < 6.7) /\
  (30 <= t -> create_emissions_scenario "moderate_mitigation" t = 7).
Proof.
  intros Ht. unfold create_emissions_scenario. simpl (_ =? _)%string. cbv iota zeta.
  split; [|split; [|split; [|split]]].
  - pose proof (exp_pos (- 0.05 * t)) as Hp.
    case_decide as H30.
    + pose proof (exp_decay_bound (0.05 * t) ltac:(lra)) as Hb.
      replace (- (0.05 * t)) with (- 0.05 * t) in Hb by lra.
      assert (1 <= (1 + 0.01 * t - 0.001 * t ^ 2) * (1 + 0.05 * t)) as Hq by nra.
      assert (0 < 1 + 0.05 * t) as Hpos by lra.
      assert (exp (- 0.05 * t) <= 1 + 0.01 * t - 0.001 * t ^ 2) as Hle.
      { apply (Rmult_le_reg_r (1 + 0.05 * t)); [exact Hpos | lra]. }
      lra.
    + assert (exp (- 0.05 * t) <= exp (- 1.5)) as Hmono.
      { destruct (Req_dec t 30) as [->|Hne].
        - right. f_equal. lra.
        - left. apply exp_increasing. lra. }
      pose proof (exp_decay_bound 1.5 ltac:(lra)) as Hb.
      replace (- (1.5)) with (- 1.5) in Hb by lra.
      pose proof (exp_pos (- 1.5)) as Hp'. lra.
  - case_decide; nra.
  - intros name. repeat (destruct (name =? _)%string); try case_decide;
      rewrite ?Ropp_mult_distr_l, ?Rmult_0_r, ?exp_0; lra.
  - intros [H24 H30]. case_decide; [nra | lra].
  - intros H30. case_decide; lra.
Qed.

Lemma emission_pathways_ordered_witness :
  create_emissions_scenario "strong_mitigation" 10
    <= create_emissions_scenario "moderate_mitigation" 10 /\
  create_emissions_scenario "moderate_mitigation" 10
    <= create_emissions_scenario "business_as_usual" 10.
Proof.
  destruct (emission_pathways_ordered 10 ltac:(lra)) as (H1 & H2 & _).
  split; assumption.
Defined.

End EmissionPathways.

(** * More on [QuantumEnhancedPredictor] ([utils/quantum/quantum_predictor.py]) *)

Module QuantumPredictorFacts.
Import QuantumPredictor.

(** An unsupported variable gives [None].  A supported one gives a frame of
    [years_to_predict + 1] rows (none for a negative horizon), one per year
    from the current year on, and the value of the first row is the
    current value of the variable. *)
Theorem quantum_prediction_rows (fl : rounding) (quantum_advantage : R)
    (current_year : Z) (climate_variable : string) (years_to_predict : Z)
    (scenario : string) :
  match base_uncertainty climate_variable with
  | None =>
      generate_prediction fl quantum_advantage current_year climate_variable
        years_to_predict scenario = None
  | Some _ =>
      exists predictions,
        generate_prediction fl quantum_advantage current_year climate_variable
          years_to_predict scenario = Some predictions /\
        length predictions = Z.to_nat (years_to_predict + 1) /\
        map year predictions
        = PyNum.py_range current_year (current_year + years_to_predict + 1) /\
        (forall r, head predictions = Some r ->
                   year r = current_year /\
                   value r = _get_current_value climate_variable)
  end.
Proof.
  unfold generate_prediction, _quantum_uncertainty_reduction.
  destruct (base_uncertainty climate_variable) as [base|]; [|reflexivity].
  eexists. split; [reflexivity|].
  set (us := quantum_uncertainty base (1.0 - quantum_advantage * 0.5)
               (Z.to_nat (years_to_predict + 1))).
  set (ys := PyNum.py_range current_year (current_year + years_to_predict + 1)).
  assert (length ys = Z.to_nat (years_to_predict + 1)) as Hys.
  { unfold ys. rewrite ClimateSimulator.py_range_length. f_equal. lia. }
  assert (length us = Z.to_nat (years_to_predict + 1)) as Hus
    by apply quantum_uncertainty_length.
  split; [|split].
  - rewrite length_imap, length_zip_with. lia.
  - apply list_eq. intros i.
    rewrite list_lookup_fmap, list_lookup_imap, lookup_zip_with.
    destruct (ys !! i) as [y|] eqn:Ey; [|reflexivity]. simpl.
    destruct (us !! i) as [u|] eqn:Eu; [reflexivity|].
    apply lookup_lt_Some in Ey. apply lookup_ge_None in Eu. lia.
  - intros r. rewrite head_lookup, list_lookup_imap, lookup_zip_with.
    destruct (ys !! 0%nat) as [y|] eqn:Ey; [|discriminate]. simpl.
    destruct (us !! 0%nat) as [u|]; [|discriminate]. simpl.
    intros [= <-]. split; [|reflexivity].
    unfold ys in Ey. apply SimulationFacts.py_range_lookup in Ey. simpl. lia.
Qed.

End QuantumPredictorFacts.

(** * More on the intervention simulator ([utils/climate_interventions.py]) *)

Module InterventionFacts.
Import Interventions.

(** ** The cost-effectiveness rating *)

(** [cost_estimates.get(intervention_type, 5)] *)
Definition cost_estimate (intervention_type : string) : Z :=
  if (intervention_type =? "renewable_energy")%string then 7
  else if (intervention_type =? "reforestation")%string then 3
  else if (intervention_type =? "industrial_efficiency")%string then 5
  else if (intervention_type =? "carbon_pricing")%string then 2
  else if (intervention_type =? "transportation_electrification")%string then 8
  else if (intervention_type =? "building_efficiency")%string then 6
  else if (intervention_type =? "agricultural_practices")%string then 4
  else if (intervention_type =? "direct_air_capture")%string then 9
  else 5.

(** [_estimate_cost_effectiveness] *)
Definition _estimate_cost_effectiveness (intervention_type : string)
    (impact_percentage : R) : R :=
  let cost := IZR (cost_estimate intervention_type) in
  let normalized_impact := Rmin 10 (PyNum.py_abs impact_percentage / 2) in
  let cost_effectiveness := normalized_impact / cost * 10 in
  Rmin 10 cost_effectiveness.

Lemma cost_estimate_range (intervention_type : string) :
  (2 <= cost_estimate intervention_type <= 9)%Z.
Proof.
  unfold cost_estimate.
  repeat (destruct (intervention_type =? _)%string; [lia|]). lia.
Qed.

(** The rating lies in 0..10 (not 1..10: no impact rates 0); it depends
    on the size of the impact only, so an intervention that makes things
    worse is rated like one that improves them by as much; it grows with
    the size of the impact, and is 10 as soon as the impact, in percent, is
    at least twice the cost estimate. *)
Theorem cost_effectiveness_rating (intervention_type : string) (impact : R) :
  0 <= _estimate_cost_effectiveness intervention_type impact <= 10 /\
  _estimate_cost_effectiveness intervention_type (- impact)
    = _estimate_cost_effectiveness intervention_type impact /\
  (_estimate_cost_effectiveness intervention_type impact = 0 <-> impact = 0) /\
  (2 * IZR (cost_estimate intervention_type) <= Rabs impact ->
   _estimate_cost_effectiveness intervention_type impact = 10) /\
  (forall impact', Rabs impact <= Rabs impact' ->
     _estimate_cost_effectiveness intervention_type impact
     <= _estimate_cost_effectiveness intervention_type impact').
Proof.
  unfold _estimate_cost_effectiveness, PyNum.py_abs.
  pose proof (cost_estimate_range intervention_type) as [Hc2 Hc9].
  apply IZR_le in Hc2, Hc9.
  set (c := IZR (cost_estimate intervention_type)) in *.
  assert (0 < / c) as Hic by (apply Rinv_0_lt_compat; lra).
  assert (forall x, 0 <= x -> 0 <= Rmin 10 (x / 2) / c * 10) as Hnn.
  { intros x Hx. unfold Rdiv.
    assert (0 <= Rmin 10 (x * / 2)) by (apply Rmin_glb; lra).
    assert (0 <= Rmin 10 (x * / 2) * / c) by (apply Rmult_le_pos; lra). lra. }
  pose proof (Rabs_pos impact) as Ha.
  split; [|split; [|split; [|split]]].
  - split; [apply Rmin_glb; [lra | apply Hnn, Ha] | apply Rmin_l].
  - rewrite Rabs_Ropp. reflexivity.
  - split.
    + intros H0. destruct (Req_dec impact 0) as [E|Hne]; [exact E|exfalso].
      apply Rabs_pos_lt in Hne.
      assert (0 < Rmin 10 (Rabs impact / 2)) as Hm by (apply Rmin_glb_lt; lra).
      assert (0 < Rmin 10 (Rabs impact / 2) / c * 10) as Hp.
      { unfold Rdiv at 1.
        assert (0 < Rmin 10 (Rabs impact / 2) * / c)
          by (apply Rmult_lt_0_compat; assumption). lra. }
      assert (0 < Rmin 10 (Rmin 10 (Rabs impact / 2) / c * 10))
        by (apply Rmin_glb_lt; lra).
      lra.
    + intros ->. rewrite Rabs_R0.
      replace (0 / 2) with 0 by lra. rewrite (Rmin_right 10 0) by lra.
      replace (0 / c * 10) with 0 by (unfold Rdiv; lra).
      apply Rmin_right. lra.
  - intros Hbig. apply Rmin_left.
    assert (c <= Rmin 10 (Rabs impact / 2)) as Hm by (apply Rmin_glb; lra).
    assert (1 <= Rmin 10 (Rabs impact / 2) / c) as H1.
    { unfold Rdiv. apply (Rmult_le_reg_r c); [lra|].
      rewrite Rmult_assoc, Rinv_l by lra. lra. }
    lra.
  - intros impact' Hle.
    apply Rle_min_compat_l, Rmult_le_compat_r; [lra|].
    unfold Rdiv at 1 3. apply Rmult_le_compat_r; [lra|].
    apply Rle_min_compat_l. lra.
Qed.

Lemma cost_effectiveness_rating_witness :
  _estimate_cost_effectiveness "carbon_pricing" (-4) = 10.
Proof.
  apply (cost_effectiveness_rating "carbon_pricing" (-4)).
  change (cost_estimate "carbon_pricing") with 2%Z.
  rewrite Rabs_left; lra.
Defined.

(** ** Which frame [simulate_intervention] returns *)

Lemma known_intervention_shape (id : string) info :
  intervention_effects !! id = Some info ->
  ((id = "renewable_energy"%string \/ id = "reforestation"%string) /\
   exists e e', effects info = [("co2"%string, e); ("temperature"%string, e')])
  \/ (~ (id = "renewable_energy"%string \/ id = "reforestation"%string) /\
      exists e, effects info = [("co2"%string, e)]).
Proof.
  intros H. unfold intervention_effects in H.
  apply elem_of_list_to_map_2 in H.
  repeat (apply elem_of_cons in H as [H|H];
          [injection H as -> ->;
           first [left; split; [tauto | eexists _, _; reflexivity]
                 | right; split; [intros [?|?]; discriminate
                                 | eexists; reflexivity]]|]).
  apply elem_of_nil in H. contradiction.
Qed.

Lemma single_effect_run id custom years scen clk g info e r :
  intervention_effects !! id = Some info ->
  effects info = [("co2"%string, e)] ->
  fst (simulate_intervention id custom years scen clk g) = Returned (Some r) ->
  exists baseline,
    fst (QuantumPrediction.generate_prediction true "co2" None years scen clk g)
      = Returned (Some baseline) /\
    _apply_intervention_effect baseline e (default ∅ custom ∪ parameters info) years
      = Returned r.
Proof.
  intros Hinfo Heff. unfold simulate_intervention. rewrite Hinfo, Heff.
  cbn [map fst generate_baselines].
  destruct (QuantumPrediction.generate_prediction true "co2" None years scen clk g)
    as [[b|ex] g1]; [|discriminate].
  cbn [fst apply_effects]. rewrite lookup_insert_eq. cbn [or_raise obind].
  destruct b as [baseline|]; [|discriminate]. cbn [or_raise obind].
  destruct (_apply_intervention_effect baseline e _ years) as [r1|] eqn:E;
    [|discriminate].
  cbn [obind]. case_decide as Hd.
  - rewrite lookup_insert_ne, lookup_empty in Hd by discriminate.
    destruct Hd as [x Hx]. discriminate.
  - rewrite lookup_insert_eq. cbn [or_raise obind]. intros [= <-].
    exists baseline. split; [reflexivity | exact E].
Qed.

Lemma double_effect_run id custom years scen clk g info e e' r :
  intervention_effects !! id = Some info ->
  effects info = [("co2"%string, e); ("temperature"%string, e')] ->
  fst (simulate_intervention id custom years scen clk g) = Returned (Some r) ->
  exists baseline,
    fst (QuantumPrediction.generate_prediction true "temperature" None years scen clk
           (snd (QuantumPrediction.generate_prediction true "co2" None years scen
                   clk g)))
      = Returned (Some baseline) /\
    _apply_intervention_effect baseline e' (default ∅ custom ∪ parameters info) years
      = Returned r.
Proof.
  intros Hinfo Heff. unfold simulate_intervention. rewrite Hinfo, Heff.
  cbn [map fst generate_baselines].
  destruct (QuantumPrediction.generate_prediction true "co2" None years scen clk g)
    as [[b|ex] g1]; [|discriminate].
  cbn [snd].
  destruct (QuantumPrediction.generate_prediction true "temperature" None years
              scen clk g1) as [[b'|ex] g2]; [|discriminate].
  cbn [fst apply_effects]. rewrite lookup_insert_eq. cbn [or_raise obind].
  destruct b as [co2_baseline|]; [|discriminate]. cbn [or_raise obind].
  destruct (_apply_intervention_effect co2_baseline e _ years) as [r1|];
    [|discriminate].
  cbn [obind]. rewrite lookup_insert_ne, lookup_insert_eq by discriminate.
  cbn [or_raise obind].
  destruct b' as [baseline|]; [|discriminate]. cbn [or_raise obind].
  destruct (_apply_intervention_effect baseline e' _ years) as [r2|] eqn:E;
    [|discriminate].
  cbn [obind]. case_decide as Hd.
  - rewrite lookup_insert_ne, lookup_insert_eq by discriminate.
    cbn [or_raise obind]. intros [= <-].
    exists baseline. split; [reflexivity | exact E].
  - exfalso. apply Hd.
    rewrite lookup_insert_ne, lookup_insert_eq by discriminate. eexists. reflexivity.
Qed.

(** The frame a known intervention returns is the overlay on the
    temperature prediction when the intervention has a temperature effect
    (renewable_energy, reforestation), and the overlay on the CO2
    prediction otherwise; in the first case the CO2 overlay is computed and
    dropped, and the temperature prediction is made with the generator as
    the CO2 prediction left it. *)
Theorem simulate_intervention_primary (intervention_type : string)
    (custom_parameters : option (gmap string R)) (years_to_simulate : Z)
    (baseline_scenario : string)
    (clk : QuantumPrediction.clock) (g : QuantumPrediction.rng)
    (info : intervention_info) (result : table) :
  intervention_effects !! intervention_type = Some info ->
  fst (simulate_intervention intervention_type custom_parameters
         years_to_simulate baseline_scenario clk g) = Returned (Some result) ->
  let after_co2 :=
    snd (QuantumPrediction.generate_prediction true "co2" None years_to_simulate
           baseline_scenario clk g) in
  let '(primary, g1) :=
    if bool_decide (intervention_type = "renewable_energy"%string
                    \/ intervention_type = "reforestation"%string)
    then ("temperature"%string, after_co2) else ("co2"%string, g) in
  exists e baseline,
    (primary, e) ∈ effects info /\
    fst (QuantumPrediction.generate_prediction true primary None
           years_to_simulate baseline_scenario clk g1)
      = Returned (Some baseline) /\
    _apply_intervention_effect baseline e
      (default ∅ custom_parameters ∪ parameters info) years_to_simulate
      = Returned result.
Proof.
  intros Hinfo Hrun. cbv zeta.
  destruct (known_intervention_shape _ _ Hinfo)
    as [[Hid (e & e' & Heff)]|[Hid (e & Heff)]].
  - rewrite bool_decide_eq_true_2 by exact Hid.
    destruct (double_effect_run _ _ _ _ _ _ _ _ _ _ Hinfo Heff Hrun)
      as (baseline & Hb & Hr).
    exists e', baseline. split; [|split; assumption].
    rewrite Heff. apply elem_of_cons. right. apply elem_of_cons. left. reflexivity.
  - rewrite bool_decide_eq_false_2 by exact Hid.
    destruct (single_effect_run _ _ _ _ _ _ _ _ _ Hinfo Heff Hrun)
      as (baseline & Hb & Hr).
    exists e, baseline. split; [|split; assumption].
    rewrite Heff. apply elem_of_cons. left. reflexivity.
Qed.

(** ** [simulate_intervention] on its usual inputs *)

(** The prediction the simulator's predictor makes without history. *)
Lemma baseline_prediction (v : string) (years : Z) (scen : string)
    (clk : QuantumPrediction.clock) (g : QuantumPrediction.rng) :
  is_Some (QuantumPrediction.simulation_methods v) ->
  (1 <= years)%Z ->
  QuantumPrediction.month_ends clk <> [] ->
  exists b y0,
    fst (QuantumPrediction.generate_prediction true v None years scen clk g)
      = Returned (Some b) /\
    rows b <> [] /\ contiguous_from y0 (rows b) /\
    length (rows b) = Z.to_nat years /\ quantum_enhanced b = true.
Proof.
  intros [m' Hm'] Hy Hclk.
  destruct (PredictionFacts.simulation_methods_loop v m' Hm') as (m & Hm & Hrun).
  unfold QuantumPrediction.generate_prediction,
    QuantumPrediction.historical_or_simulated. rewrite Hm'.
  destruct (PredictionFacts.simulated_history_nonempty v clk g Hclk)
    as (r & h & Hh).
  destruct (QuantumPrediction._generate_simulated_historical_data v clk g)
    as [h0 g0]. simpl in Hh. subst h0.
  cbv beta iota delta [QuantumPrediction.is_empty]. rewrite Hrun.
  destruct (PredictionFacts.simulation_methods_rows _ _ Hm (r :: h) years scen)
    as (row & Hrows & Hyear).
  cbn [rows].
  assert (length (m (r :: h) years scen) = Z.to_nat years) as Hlen
    by (rewrite Hrows; apply PredictionFacts.future_rows_length).
  destruct (m (r :: h) years scen) as [|x l] eqn:E; [simpl in Hlen; lia|].
  exists (QuantumPrediction._apply_quantum_advantage
            (mk_table (x :: l) false false) v),
         (QuantumPrediction.last_year_of (r :: h) + 1)%Z.
  split; [reflexivity|].
  change (rows (QuantumPrediction._apply_quantum_advantage
                  (mk_table (x :: l) false false) v))
    with (map (QuantumPrediction.quantum_row v) (x :: l)).
  split; [discriminate|]. split; [|split; [|reflexivity]].
  - intros i y Hi. rewrite list_lookup_fmap in Hi.
    destruct ((x :: l) !! i) as [x'|] eqn:Ex; [|discriminate].
    injection Hi as <-. simpl. rewrite Hrows in Ex.
    apply PredictionFacts.future_rows_lookup in Ex as [_ ->]. apply Hyear.
  - rewrite length_map. exact Hlen.
Qed.

(** The overlay returns on a trajectory it covers. *)
Lemma overlay_returns (baseline : table) (e : effect) (params : gmap string R)
    (years y0 : Z) :
  rows baseline <> [] ->
  contiguous_from y0 (rows baseline) ->
  (Z.of_nat (length (rows baseline)) <= years + 1)%Z ->
  (0 <= delay_years e)%Z ->
  default 0.5 (params !! "implementation_speed"%string) <> 0 ->
  exists result,
    _apply_intervention_effect baseline e params years = Returned result /\
    length (rows result) = length (rows baseline) /\
    intervention result = true /\
    quantum_enhanced result = quantum_enhanced baseline.
Proof.
  intros Hne Hc Hlen Hd Hs.
  pose proof (contiguous_year_min y0 _ Hne Hc) as Hmin.
  assert (forall r i, rows baseline !! i = Some r ->
            (0 <= year r - year_min (rows baseline) <= years)%Z) as Hidx.
  { intros r i Hi. pose proof (lookup_lt_Some _ _ _ Hi).
    rewrite Hmin, (Hc i r Hi). lia. }
  unfold _apply_intervention_effect. case_decide; [contradiction|].
  set (curve := implementation_curve _ _ _ years).
  assert (forall r i, rows baseline !! i = Some r ->
            exists c, PyNum.py_index curve (year r - year_min (rows baseline))
                      = Some c) as Hcurve.
  { intros r i Hi. apply py_index_in_range. unfold curve.
    rewrite implementation_curve_length. specialize (Hidx r i Hi). lia. }
  assert (forall rs : outcome (list prow),
            (exists l, rs = Returned l /\ length l = length (rows baseline)) ->
            exists result,
              (let* new_rows := rs in
               Returned (mk_table new_rows (quantum_enhanced baseline) true))
              = Returned result /\
              length (rows result) = length (rows baseline) /\
              intervention result = true /\
              quantum_enhanced result = quantum_enhanced baseline) as Hwrap.
  { intros rs (l & -> & Hl). eexists. repeat split. exact Hl. }
  assert (forall f : prow -> outcome prow,
            (forall r i, rows baseline !! i = Some r -> exists r', f r = Returned r') ->
            exists l, for_rows f (rows baseline) = Returned l /\
                      length l = length (rows baseline)) as Hloop.
  { intros f Hf.
    destruct (for_rows_total f (rows baseline)) as [l Hl].
    - apply Forall_forall. intros r Hr.
      apply list_elem_of_lookup in Hr as [i Hi]. exact (Hf r i Hi).
    - exists l. split; [exact Hl|].
      symmetry. eapply Forall2_length, for_rows_Returned, Hl. }
  destruct (is_level_factor (factor_type e)).
  - apply Hwrap, Hloop. intros r i Hi. unfold scale_row.
    destruct (_ <=? _)%Z; [|eexists; reflexivity].
    destruct (Hcurve r i Hi) as [c ->]. eexists. reflexivity.
  - destruct (factor_type e =? "trend_reduction")%string;
      [|apply Hwrap; eexists; split; reflexivity].
    assert (exists t, baseline_trend (rows baseline) = Some t) as [t ->].
    { unfold baseline_trend.
      destruct (rows baseline) as [|r0 l] eqn:E; [contradiction|].
      destruct (last (r0 :: l)) eqn:El; [eexists; reflexivity|].
      apply last_None in El. discriminate. }
    cbn [or_raise obind]. apply Hwrap, Hloop. intros r i Hi. unfold trend_row.
    destruct (Z.leb_spec (delay_years e) (year r - year_min (rows baseline)))
      as [Hge|]; [|eexists; reflexivity].
    destruct (Hcurve r i Hi) as [c ->]. cbn [or_raise obind].
    assert (is_Some (first_affected_value (rows baseline) e)) as [fa ->].
    { unfold first_affected_value. rewrite Hmin.
      pose proof (lookup_lt_Some _ _ _ Hi) as Hlt.
      rewrite Hmin, (Hc i r Hi) in Hge.
      destruct (lookup_lt_is_Some_2 (rows baseline) (Z.to_nat (delay_years e)))
        as [rd Hrd]; [lia|].
      destruct (head_filter_is_Some
                  (fun r => year r = (y0 + delay_years e)%Z) (rows baseline) rd)
        as [x ->].
      - apply list_elem_of_lookup. eexists; exact Hrd.
      - rewrite (Hc _ rd Hrd). lia.
      - eexists; reflexivity. }
    eexists. reflexivity.
Qed.

Lemma known_intervention_settings (id : string) info :
  intervention_effects !! id = Some info ->
  Forall (fun ve => (0 <= delay_years (snd ve))%Z) (effects info) /\
  default 0.5 (parameters info !! "implementation_speed"%string) <> 0.
Proof.
  intros H. unfold intervention_effects in H.
  apply elem_of_list_to_map_2 in H.
  repeat (apply elem_of_cons in H as [H|H];
          [injection H as -> ->; split;
           [repeat constructor; simpl; lia
           | simpl;
             repeat (rewrite lookup_insert; case_decide; try discriminate);
             rewrite ?lookup_empty; simpl; lra]|]).
  apply elem_of_nil in H. contradiction.
Qed.

Lemma effective_speed (custom : option (gmap string R)) (defaults : gmap string R) :
  (forall c, custom = Some c -> c !! "implementation_speed"%string <> Some 0) ->
  default 0.5 (defaults !! "implementation_speed"%string) <> 0 ->
  default 0.5 ((default ∅ custom ∪ defaults) !! "implementation_speed"%string) <> 0.
Proof.
  intros Hc Hd. rewrite lookup_union.
  destruct custom as [c|]; simpl.
  - specialize (Hc c eq_refl).
    destruct (c !! "implementation_speed"%string) as [x|];
      destruct (defaults !! "implementation_speed"%string) as [y|];
      simpl in *; try assumption; intros ->; apply Hc; reflexivity.
  - rewrite lookup_empty.
    destruct (defaults !! "implementation_speed"%string); simpl in *; assumption.
Qed.

Lemma known_run_returns (id : string) (custom : option (gmap string R))
    (years : Z) (scen : string)
    (clk : QuantumPrediction.clock) (g : QuantumPrediction.rng) :
  is_Some (intervention_effects !! id) ->
  (1 <= years)%Z ->
  QuantumPrediction.month_ends clk <> [] ->
  (forall c, custom = Some c -> c !! "implementation_speed"%string <> Some 0) ->
  exists result,
    fst (simulate_intervention id custom years scen clk g) = Returned (Some result) /\
    length (rows result) = Z.to_nat years /\
    intervention result = true /\ quantum_enhanced result = true.
Proof.
  intros [info Hinfo] Hy Hclk Hcustom.
  destruct (known_intervention_settings _ _ Hinfo) as [Hdelay Hspeed0].
  pose proof (effective_speed custom (parameters info) Hcustom Hspeed0) as Hspeed.
  assert (forall (v : string) e g',
            is_Some (QuantumPrediction.simulation_methods v) ->
            (0 <= delay_years e)%Z ->
            exists b r,
              fst (QuantumPrediction.generate_prediction true v None years scen clk g')
                = Returned (Some b) /\
              _apply_intervention_effect b e (default ∅ custom ∪ parameters info) years
                = Returned r /\
              length (rows r) = Z.to_nat years /\
              intervention r = true /\ quantum_enhanced r = true) as Hone.
  { intros v e g' Hv He.
    destruct (baseline_prediction v years scen clk g' Hv Hy Hclk)
      as (b & y0 & Hb & Hne & Hcont & Hlen & Hq).
    destruct (overlay_returns b e (default ∅ custom ∪ parameters info) years y0
                Hne Hcont ltac:(lia) He Hspeed) as (r & Hr & Hrl & Hri & Hrq).
    exists b, r. repeat split; try assumption; congruence. }
  unfold simulate_intervention. rewrite Hinfo.
  destruct (known_intervention_shape _ _ Hinfo)
    as [[_ (e & e' & Heff)]|[_ (e & Heff)]]; rewrite Heff in *;
    cbn [map fst generate_baselines].
  - apply Forall_cons in Hdelay as [He Hdelay].
    apply Forall_cons in Hdelay as [He' _]. simpl in He, He'.
    destruct (Hone "co2"%string e g ltac:(eexists; reflexivity) He)
      as (b & r & Hb & Hr & _).
    destruct (QuantumPrediction.generate_prediction true "co2" None years scen clk g)
      as [o g1]. simpl in Hb. subst o.
    destruct (Hone "temperature"%string e' g1 ltac:(eexists; reflexivity) He')
      as (b' & r' & Hb' & Hr' & Hl' & Hi' & Hq').
    destruct (QuantumPrediction.generate_prediction true "temperature" None years
                scen clk g1) as [o g2]. simpl in Hb'. subst o.
    cbn [fst apply_effects]. rewrite lookup_insert_eq. cbn [or_raise obind].
    rewrite Hr. cbn [obind].
    rewrite lookup_insert_ne, lookup_insert_eq by discriminate.
    cbn [or_raise obind]. rewrite Hr'. cbn [obind].
    case_decide as Hd.
    + rewrite lookup_insert_ne, lookup_insert_eq by discriminate.
      cbn [or_raise obind]. exists r'. repeat split; assumption.
    + exfalso. apply Hd.
      rewrite lookup_insert_ne, lookup_insert_eq by discriminate.
      eexists. reflexivity.
  - apply Forall_cons in Hdelay as [He _]. simpl in He.
    destruct (Hone "co2"%string e g ltac:(eexists; reflexivity) He)
      as (b & r & Hb & Hr & Hl & Hi & Hq).
    destruct (QuantumPrediction.generate_prediction true "co2" None years scen clk g)
      as [o g1]. simpl in Hb. subst o.
    cbn [fst apply_effects]. rewrite lookup_insert_eq. cbn [or_raise obind].
    rewrite Hr. cbn [obind].
    case_decide as Hd.
    + rewrite lookup_insert_ne, lookup_empty in Hd by discriminate.
      destruct Hd as [x Hx]. discriminate.
    + rewrite lookup_insert_eq. cbn [or_raise obind].
      exists r. repeat split; assumption.
Qed.

(** For every known intervention, a horizon of at least one year and
    custom parameters that do not set the implementation speed to zero,
    [simulate_intervention] returns a frame (it raises nothing and does
    not return [None]), with one row per simulated year, flagged as an
    intervention and as quantum enhanced. *)
Theorem simulate_intervention_returns (intervention_type : string)
    (custom_parameters : option (gmap string R)) (years_to_simulate : Z)
    (baseline_scenario : string)
    (clk : QuantumPrediction.clock) (g : QuantumPrediction.rng) :
  is_Some (intervention_effects !! intervention_type) ->
  (1 <= years_to_simulate)%Z ->
  QuantumPrediction.month_ends clk <> [] ->
  (forall c, custom_parameters = Some c ->
             c !! "implementation_speed"%string <> Some 0) ->
  exists result,
    fst (simulate_intervention intervention_type custom_parameters
           years_to_simulate baseline_scenario clk g) = Returned (Some result) /\
    length (rows result) = Z.to_nat years_to_simulate /\
    intervention result = true /\ quantum_enhanced result = true.
Proof. apply known_run_returns. Qed.

Lemma simulate_intervention_returns_witness :
  exists result,
    fst (simulate_intervention "renewable_energy" None 30 "moderate"
           QuantumPrediction.clock_nov_2026 (fun _ => 0)) = Returned (Some result) /\
    length (rows result) = 30%nat.
Proof.
  destruct (simulate_intervention_returns "renewable_energy" None 30 "moderate"
              QuantumPrediction.clock_nov_2026 (fun _ => 0))
    as (result & Hrun & Hlen & _).
  - eexists. reflexivity.
  - lia.
  - discriminate.
  - intros c Hc. discriminate.
  - exists result. split; [exact Hrun | exact Hlen].
Defined.

Lemma simulate_intervention_primary_witness :
  exists result e baseline params,
    fst (simulate_intervention "reforestation" None 30 "moderate"
           QuantumPrediction.clock_nov_2026 (fun _ => 0)) = Returned (Some result) /\
    factor_type e = "trend_reduction"%string /\
    _apply_intervention_effect baseline e params 30 = Returned result.
Proof.
  destruct (known_run_returns "reforestation" None 30 "moderate"
              QuantumPrediction.clock_nov_2026 (fun _ => 0))
    as (result & Hrun & _).
  - eexists. reflexivity.
  - lia.
  - discriminate.
  - intros c Hc. discriminate.
  - pose proof (simulate_intervention_primary "reforestation" None 30 "moderate"
                  QuantumPrediction.clock_nov_2026 (fun _ => 0) _ result
                  eq_refl Hrun) as Hprim.
    cbv zeta in Hprim.
    rewrite bool_decide_eq_true_2 in Hprim by (right; reflexivity).
    destruct Hprim as (e & baseline & Hin & _ & Happly).
    exists result, e, baseline. eexists.
    split; [exact Hrun|]. split; [|exact Happly].
    simpl in Hin.
    apply elem_of_cons in Hin as [Hin|Hin]; [discriminate|].
    apply elem_of_cons in Hin as [Hin|Hin]; [|apply elem_of_nil in Hin; contradiction].
    injection Hin as ->. reflexivity.
Defined.

End InterventionFacts.

(** * Policy packages ([simulate_policy_package])

    A package is a list of dictionaries with a ["type"] and, optionally,
    ["parameters"].  The affected variables are collected in a Python set,
    whose iteration order is not fixed: [set_order] gives it.  [stamp] is
    [datetime.now().strftime("%Y%m%d%H%M%S")]. *)

Module PolicyPackage.
Import Interventions.

(** One dictionary of the list; [None] is a missing key. *)
Record package_item : Type := mk_item {
  item_type : option string;
  item_parameters : option (gmap string R)
}.

(** The first loop: the variables of the known types, in order of first
    appearance. *)
Fixpoint affected_variables (interventions : list package_item)
    (seen : list string) : outcome (list string) :=
  match interventions with
  | [] => Returned seen
  | item :: rest =>
      let* intervention_type := or_raise (item_type item) KeyError in
      let seen :=
        match intervention_effects !! intervention_type with
        | Some info =>
            fold_left (fun acc v => if bool_decide (v ∈ acc) then acc else acc ++ [v])
                      (map fst (effects info)) seen
        | None => seen
        end in
      affected_variables rest seen
  end.

(** [parameters or defaults]: an empty dictionary counts as none. *)
Definition parameters_or (custom : option (gmap string R))
    (defaults : gmap string R) : gmap string R :=
  match custom with
  | Some c => if bool_decide (c = ∅) then defaults else c
  | None => defaults
  end.

(** The inner loop: every effect of one intervention, on the current
    results. *)
Fixpoint apply_item (effs : list (string * effect)) (params : gmap string R)
    (years : Z) (results : gmap string (option table))
    : outcome (gmap string (option table)) :=
  match effs with
  | [] => Returned results
  | (v, e) :: effs' =>
      let* slot := or_raise (results !! v) KeyError in
      let* current_baseline := or_raise slot AttributeError in
      let* r := _apply_intervention_effect current_baseline e params years in
      apply_item effs' params years (<[v := Some r]> results)
  end.

(** The second loop: "apply each intervention sequentially". *)
Fixpoint apply_package (interventions : list package_item) (years : Z)
    (results : gmap string (option table))
    : outcome (gmap string (option table)) :=
  match interventions with
  | [] => Returned results
  | item :: rest =>
      let* intervention_type := or_raise (item_type item) KeyError in
      match intervention_effects !! intervention_type with
      | None => apply_package rest years results
      | Some info =>
          let* results :=
            apply_item (effects info)
                       (parameters_or (item_parameters item) (parameters info))
                       years results in
          apply_package rest years results
      end
  end.

(** The last loop: the ["package_id"] column of every frame. *)
Definition stamp_results (package_id : string)
    (results : gmap string (option table)) : outcome (gmap string (table * string)) :=
  if bool_decide (map_Forall (fun _ slot => is_Some slot) results)
  then Returned (omap (fun slot => (fun t => (t, package_id)) <$> slot) results)
  else Raised TypeError.

(** [simulate_policy_package]; [None] as a result is Python's [None]. *)
Definition simulate_policy_package (set_order : list string -> list string)
    (interventions : list package_item) (years_to_simulate : Z)
    (baseline_scenario : string) (stamp : string)
    (clk : QuantumPrediction.clock) (g : QuantumPrediction.rng)
    : outcome (option (gmap string (table * string))) * QuantumPrediction.rng :=
  match interventions with
  | [] => (Returned None, g)
  | _ =>
      match affected_variables interventions [] with
      | Raised e => (Raised e, g)
      | Returned variables =>
          match generate_baselines (set_order variables) years_to_simulate
                                   baseline_scenario clk g with
          | (Raised e, g') => (Raised e, g')
          | (Returned baselines, g') =>
              (let* results := apply_package interventions years_to_simulate
                                             baselines in
               let package_id := ("policy_package_" ++ stamp)%string in
               let* stamped := stamp_results package_id results in
               Returned (Some stamped), g')
          end
      end
  end.

(** ** Edges of a package *)

Lemma affected_variables_missing_type (interventions : list package_item)
    (seen : list string) :
  (exists item, item ∈ interventions /\ item_type item = None) ->
  affected_variables interventions seen = Raised KeyError.
Proof.
  intros (item & Hin & Hnone). revert seen.
  induction interventions as [|it rest IH]; intros seen;
    [apply elem_of_nil in Hin; contradiction|].
  simpl. destruct (item_type it) as [t|] eqn:Et; [|reflexivity].
  cbn [or_raise obind]. apply IH.
  apply elem_of_cons in Hin as [->|Hin]; [congruence | exact Hin].
Qed.

Definition unknown_type (item : package_item) : Prop :=
  exists t, item_type item = Some t /\ intervention_effects !! t = None.

Lemma affected_variables_unknown (interventions : list package_item)
    (seen : list string) :
  Forall unknown_type interventions ->
  affected_variables interventions seen = Returned seen.
Proof.
  intros Hall. revert seen.
  induction Hall as [|it rest (t & Ht & Hnone) _ IH]; intros seen; [reflexivity|].
  simpl. rewrite Ht. cbn [or_raise obind]. rewrite Hnone. apply IH.
Qed.

Lemma apply_package_unknown (interventions : list package_item) (years : Z)
    (results : gmap string (option table)) :
  Forall unknown_type interventions ->
  apply_package interventions years results = Returned results.
Proof.
  induction 1 as [|it rest (t & Ht & Hnone) _ IH]; [reflexivity|].
  simpl. rewrite Ht. cbn [or_raise obind]. rewrite Hnone. exact IH.
Qed.

(** What a package does at its edges, whatever order the set of variables
    is iterated in.  An empty list gives [None].  A list with a dictionary
    that has no ["type"] raises [KeyError].  A non-empty list of unknown
    types only is not an error and is not [None]: the result is an empty
    dictionary, and no random number is drawn.  And the ["parameters"] of
    a dictionary, when not empty, replace the intervention's defaults
    instead of updating them as [simulate_intervention] does: for one
    intervention with a single CO2 effect, the frame returned under
    ["co2"] is the overlay computed with the given parameters alone, and
    carries the package id. *)
Theorem policy_package_edges (set_order : list string -> list string)
    (years_to_simulate : Z) (baseline_scenario stamp : string)
    (clk : QuantumPrediction.clock) (g : QuantumPrediction.rng) :
  (forall l, set_order l ≡ₚ l) ->
  simulate_policy_package set_order [] years_to_simulate baseline_scenario
    stamp clk g = (Returned None, g) /\
  (forall interventions,
     (exists item, item ∈ interventions /\ item_type item = None) ->
     simulate_policy_package set_order interventions years_to_simulate
       baseline_scenario stamp clk g = (Raised KeyError, g)) /\
  (forall interventions,
     interventions <> [] -> Forall unknown_type interventions ->
     simulate_policy_package set_order interventions years_to_simulate
       baseline_scenario stamp clk g = (Returned (Some ∅), g)) /\
  (forall id info e custom result,
     intervention_effects !! id = Some info ->
     effects info = [("co2"%string, e)] ->
     custom <> ∅ ->
     fst (simulate_policy_package set_order [mk_item (Some id) (Some custom)]
            years_to_simulate baseline_scenario stamp clk g)
       = Returned (Some result) ->
     exists baseline r,
       fst (QuantumPrediction.generate_prediction true "co2" None
              years_to_simulate baseline_scenario clk g)
         = Returned (Some baseline) /\
       _apply_intervention_effect baseline e custom years_to_simulate
         = Returned r /\
       result !! "co2"%string = Some (r, ("policy_package_" ++ stamp)%string)).
Proof.
  intros Horder. split; [reflexivity|]. split; [|split].
  - intros interventions Hmissing. unfold simulate_policy_package.
    destruct interventions as [|it rest];
      [destruct Hmissing as (item & Hin & _); apply elem_of_nil in Hin;
       contradiction|].
    rewrite (affected_variables_missing_type _ _ Hmissing). reflexivity.
  - intros interventions Hne Hall. unfold simulate_policy_package.
    destruct interventions as [|it rest]; [contradiction|].
    rewrite (affected_variables_unknown _ _ Hall).
    assert (set_order [] = []) as -> by (apply Permutation_nil_r, Horder).
    cbn [generate_baselines]. rewrite (apply_package_unknown _ _ _ Hall).
    cbn [obind]. unfold stamp_results.
    rewrite bool_decide_eq_true_2 by apply map_Forall_empty.
    rewrite omap_empty. reflexivity.
  - intros id info e custom result Hinfo Heff Hcustom.
    unfold simulate_policy_package. cbn [affected_variables item_type or_raise obind].
    rewrite Hinfo, Heff. cbn [map fst fold_left].
    rewrite bool_decide_eq_false_2 by (intros Hin; apply elem_of_nil in Hin; exact Hin).
    cbn [app affected_variables].
    assert (set_order ["co2"%string] = ["co2"%string]) as ->
      by (apply Permutation_singleton_r, Horder).
    cbn [generate_baselines].
    destruct (QuantumPrediction.generate_prediction true "co2" None
                years_to_simulate baseline_scenario clk g) as [[b|ex] g1];
      [|discriminate].
    cbn [fst apply_package item_type item_parameters or_raise obind].
    rewrite Hinfo, Heff. unfold parameters_or.
    rewrite bool_decide_eq_false_2 by exact Hcustom.
    cbn [apply_item]. rewrite lookup_insert_eq. cbn [or_raise obind].
    destruct b as [baseline|]; [|discriminate]. cbn [or_raise obind].
    destruct (_apply_intervention_effect baseline e custom years_to_simulate)
      as [r|] eqn:E; [|discriminate].
    cbn [obind apply_package]. unfold stamp_results.
    case_bool_decide as Hall; [|discriminate].
    cbn [obind]. intros [= <-].
    exists baseline, r. split; [reflexivity|]. split; [exact E|].
    rewrite lookup_omap, lookup_insert_eq. reflexivity.
Qed.

Lemma policy_package_edges_witness :
  simulate_policy_package (fun l => l)
    [mk_item (Some "geoengineering"%string) None] 30 "moderate" "20261103120000"
    QuantumPrediction.clock_nov_2026 (fun _ => 0)
  = (Returned (Some ∅), fun _ => 0).
Proof.
  apply (policy_package_edges (fun l => l) 30 "moderate" "20261103120000"
           QuantumPrediction.clock_nov_2026 (fun _ => 0)).
  - reflexivity.
  - discriminate.
  - repeat constructor. exists "geoengineering"%string. split; reflexivity.
Defined.

End PolicyPackage.
